(** * RGBmatrixPanelCPLD: the frame buffer, the pixel encoder and the
      refresh state machine of firmware/RGBmatrixPanelCPLD.cpp.

    The driver keeps one malloc'ed block of bytes that holds one or two
    frame buffers, each made of [depth] bit planes of [plane_size] bytes.
    [drawPixel] and [fillScreen] write the back buffer; [updateDisplay],
    run from the timer interrupt, walks a (row, plane) cursor over the
    front buffer, reprograms the timer and starts one SPI transfer per
    tick.

    Integers are [Z]; every narrowing store of the C++ code is written out
    with the conversion of its type.  Memory is the malloc'ed block as a
    list of bytes indexed from its base; an access outside of the block is
    undefined behaviour in C++ and is [None] here. *)

From Stdlib Require Import ZArith Lia Bool List.
From stdpp Require Import base option list.

Local Open Scope Z_scope.

(** ** Machine integers *)

Definition to_uint8 (z : Z) : Z := z mod 256.
Definition to_uint16 (z : Z) : Z := z mod 65536.
Definition to_uint32 (z : Z) : Z := z mod 4294967296.
Definition to_int16 (z : Z) : Z := (z + 32768) mod 65536 - 32768.

(** ** The malloc'ed block *)

Definition load (m : list Z) (a : Z) : option Z :=
  if 0 <=? a then m !! Z.to_nat a else None.

Definition store (m : list Z) (a v : Z) : option (list Z) :=
  if (0 <=? a) && (a <? Z.of_nat (length m))
  then Some (<[Z.to_nat a := to_uint8 v]> m)
  else None.

(** [memset(p, v, n)] *)
Definition memset (m : list Z) (a v n : Z) : option (list Z) :=
  if (0 <=? a) && (0 <=? n) && (a + n <=? Z.of_nat (length m))
  then Some (take (Z.to_nat a) m ++ replicate (Z.to_nat n) (to_uint8 v)
               ++ drop (Z.to_nat (a + n)) m)
  else None.

Definition block_size (m : list Z) : Z := Z.of_nat (length m).

(** The assignment [p[0] = (p[0] & mask) | bits]. *)
Definition rmw (m : list Z) (a mask bits : Z) : option (list Z) :=
  match load m a with
  | Some v => store m a (Z.lor (Z.land v mask) bits)
  | None => None
  end.

(** The assignment [p[0] |= bits]. *)
Definition or_into (m : list Z) (a bits : Z) : option (list Z) :=
  match load m a with
  | Some v => store m a (Z.lor v bits)
  | None => None
  end.

(** [for (i = start; n iterations; i++) body] over the block. *)
Fixpoint for_loop (n : nat) (i : Z) (body : Z -> list Z -> option (list Z))
    (m : list Z) : option (list Z) :=
  match n with
  | O => Some m
  | S n' =>
      match body i m with
      | Some m' => for_loop n' (i + 1) body m'
      | None => None
      end
  end.

(** ** The driver object *)

(** Modelled from the spec: the header of the repository is older than the
    source and declares [width], [height], [depth], [row] and [plane]
    ([uint16_t]) and [rowComplete] ([uint8_t]) but not [row_size],
    [plane_size], the two buffers and the flags.  [row_size] and
    [plane_size] hold [W * (H / 32)] and [W * (H / 2)], the products the
    constructors store, in a type wide enough for them; the buffers are
    offsets into the block. *)
Record panel : Type := mkPanel {
  width : Z;
  height : Z;
  depth : Z;
  row_size : Z;
  plane_size : Z;
  double_buffer_enabled : bool;
  heap : list Z;
  front_buffer : Z;
  back_buffer : Z;
  swap_requested : bool;
  resync_flag : bool;
  row : Z;
  plane : Z;
  rowComplete : Z
}.

Definition set_heap (m : list Z) (s : panel) : panel :=
  mkPanel (width s) (height s) (depth s) (row_size s) (plane_size s)
    (double_buffer_enabled s) m (front_buffer s) (back_buffer s)
    (swap_requested s) (resync_flag s) (row s) (plane s) (rowComplete s).

(** ** Colour helpers *)

(** [(c & (1 << k)) >> k] *)
Definition chan (c k : Z) : Z := Z.shiftr (Z.land c (Z.shiftl 1 k)) k.

Definition Color333 (r g b : Z) : Z :=
  to_uint16 (Z.lor (Z.lor (Z.shiftl (Z.land r 7) 13) (Z.shiftl (Z.land g 7) 8))
                   (Z.shiftl (Z.land b 7) 2)).

Definition Color444 (r g b : Z) : Z :=
  to_uint16 (Z.lor (Z.lor (Z.shiftl (Z.land r 15) 12) (Z.shiftl (Z.land g 15) 7))
                   (Z.shiftl (Z.land b 15) 1)).

(** ** drawPixel *)

(** The three colour bits of one plane, red at [sh + 2], green at [sh + 1],
    blue at [sh]. *)
Definition triple (c kr kg kb sh : Z) : Z :=
  Z.lor (Z.lor (Z.shiftl (chan c kr) (sh + 2)) (Z.shiftl (chan c kg) (sh + 1)))
        (Z.shiftl (chan c kb) sh).

(** One of the guarded blocks [if (depth > k) { back_buffer[...] = ... }]. *)
Definition plane_block (s : panel) (k : Z) (y_int x mask bits : Z)
    (m : list Z) : option (list Z) :=
  if k <? depth s
  then rmw m (back_buffer s + k * plane_size s + y_int * row_size s + x) mask bits
  else Some m.

(** The four guarded blocks of one half of [drawPixel]; the two halves
    differ in the mask ([0xC7] or [0xF8]) and in the position [sh] of the
    blue bit (3 or 0). *)
Definition write_planes (s : panel) (y_int x mask sh c : Z) : option panel :=
  match plane_block s 0 y_int x mask (triple c 15 10 4 sh) (heap s) with
  | None => None
  | Some m0 =>
  match plane_block s 1 y_int x mask (triple c 14 9 3 sh) m0 with
  | None => None
  | Some m1 =>
  match plane_block s 2 y_int x mask (triple c 13 8 2 sh) m1 with
  | None => None
  | Some m2 =>
  match plane_block s 3 y_int x mask (triple c 12 7 1 sh) m2 with
  | None => None
  | Some m3 => Some (set_heap m3 s)
  end end end end.

Definition drawPixel (x y c : Z) (s : panel) : option panel :=
  if (0 <=? y) && (0 <=? x) && (y <? height s) && (x <? width s) then
    let y_int := to_uint16 (Z.rem y 32) in
    let panel_row := to_uint16 (Z.shiftr y 5) in
    let '(x, y_int) :=
      if Z.rem panel_row 2 =? 0
      then (to_int16 (Z.rem x (width s) + panel_row * width s), y_int)
      else (to_int16 (((width s - 1) - Z.rem x (width s)) + panel_row * width s),
            to_uint16 (31 - y_int)) in
    if y_int <? 16
    then write_planes s y_int x 199 3 c
    else write_planes s (to_uint16 (y_int - 16)) x 248 0 c
  else Some s.

(** ** fillScreen *)

Definition fill_color (c p : Z) : Z :=
  let color := to_uint8 (Z.shiftl (chan c (12 + p)) 2) in
  let color := to_uint8 (Z.lor color (Z.shiftl (chan c (7 + p)) 1)) in
  let color := to_uint8 (Z.lor color (chan c (1 + p))) in
  to_uint8 (Z.lor color (Z.shiftl color 3)).

Definition fillScreen (c : Z) (s : panel) : option panel :=
  let bufSize := to_uint32 (width s * Z.shiftr (height s) 1) in
  match for_loop (Z.to_nat (depth s)) 0
          (fun p m => memset m (back_buffer s + (depth s - p - 1) * plane_size s)
                        (fill_color c p) bufSize) (heap s) with
  | None => None
  | Some m1 =>
  match for_loop (Z.to_nat (depth s * 16)) 1
          (fun i m => or_into m (back_buffer s + row_size s * i - 1) (Z.shiftl 1 6))
          m1 with
  | None => None
  | Some m2 =>
  match for_loop (Z.to_nat (depth s * 16)) 1
          (fun i m => or_into m (back_buffer s + row_size s * i - 1) (Z.shiftl 1 7))
          m2 with
  | None => None
  | Some m3 => Some (set_heap m3 s)
  end end end.

(** ** Construction *)

(** What the constructor finds and does not set: the bytes available to
    [malloc], the contents of a fresh block, and the values the fields
    [resync_flag] and [rowComplete] hold before their first store. *)
Record environment : Type := mkEnv {
  avail : Z;
  junk : nat -> Z;
  stale_resync : bool;
  stale_rowComplete : Z
}.

Definition malloc (e : environment) (n : Z) : option (list Z) :=
  if n <=? avail e
  then Some (map (fun i => to_uint8 (junk e i)) (seq 0 (Z.to_nat n)))
  else None.

Definition set_buffers (m : list Z) (front back : Z) (s : panel) : panel :=
  mkPanel (width s) (height s) (depth s) (row_size s) (plane_size s)
    (double_buffer_enabled s) m front back
    (swap_requested s) (resync_flag s) (row s) (plane s) (rowComplete s).

Definition set_cursor (sw : bool) (r p : Z) (s : panel) : panel :=
  mkPanel (width s) (height s) (depth s) (row_size s) (plane_size s)
    (double_buffer_enabled s) (heap s) (front_buffer s) (back_buffer s)
    sw (resync_flag s) r p (rowComplete s).

(** [init()]; [None] is its [return -1], taken when [malloc] fails.  The
    pin and SPI set-up calls touch no field of the object. *)
Definition init (e : environment) (s : panel) : option panel :=
  let bufSize :=
    to_uint32 (if double_buffer_enabled s
               then 2 * depth s * plane_size s
               else depth s * plane_size s) in
  match malloc e bufSize with
  | None => None
  | Some blk =>
      let front := 0 in
      let back :=
        if double_buffer_enabled s then front + Z.shiftr bufSize 1 else front in
      let s0 := set_buffers blk front back s in
      let filled :=
        if double_buffer_enabled s then
          match fillScreen 0 s0 with
          | None => None
          | Some s1 =>
              fillScreen 0 (set_buffers (heap s1) (back_buffer s1) (front_buffer s1) s1)
          end
        else fillScreen 0 s0 in
      match filled with
      | None => None
      | Some s2 => Some (set_cursor false 15 (to_uint16 (depth s2 - 1)) s2)
      end
  end.

(** The four-argument constructor; [x], [y] and [d] are [uint16_t].  The
    fields that [init] stores before it returns 0 (the block, the two
    buffers, [swap_requested], [row] and [plane]) start with placeholders;
    [resync_flag] and [rowComplete], which no constructor stores, start
    with what the environment left there. *)
Definition construct (e : environment) (x y d : Z) (use_double_buffer : bool)
    : option panel :=
  let width := to_uint16 (Z.shiftl (Z.shiftr x 5) 5) in
  let height := to_uint16 (Z.shiftl (Z.shiftr y 5) 5) in
  let row_size := width * Z.shiftr height 5 in
  let plane_size := width * Z.shiftr height 1 in
  init e (mkPanel width height d row_size plane_size use_double_buffer
            [] 0 0 false (stale_resync e) 0 0 (stale_rowComplete e)).

(** The two- and three-argument constructors. *)
Definition construct2 (e : environment) (x y : Z) : option panel :=
  construct e x y 3 false.

Definition construct3 (e : environment) (x y d : Z) : option panel :=
  construct e x y d false.

(** ** swapBuffers, resync and the serial completion callback *)

Definition swapBuffers (s : panel) : panel :=
  if double_buffer_enabled s
  then set_cursor true (row s) (plane s) s
  else set_cursor false (row s) (plane s) s.

Definition resync (s : panel) : panel :=
  mkPanel (width s) (height s) (depth s) (row_size s) (plane_size s)
    (double_buffer_enabled s) (heap s) (front_buffer s) (back_buffer s)
    (swap_requested s) true (row s) (plane s) (rowComplete s).

Definition rowCompleteCallback (s : panel) : panel :=
  mkPanel (width s) (height s) (depth s) (row_size s) (plane_size s)
    (double_buffer_enabled s) (heap s) (front_buffer s) (back_buffer s)
    (swap_requested s) (resync_flag s) (row s) (plane s) 1.

(** ** updateDisplay, the body of the timer interrupt *)

Inductive pin : Type := clr_pin | oe_pin.

Inductive event : Type :=
| PinSet (p : pin)
| PinReset (p : pin)
| ResetPeriod (us : Z)
| SpiTransfer (src len : Z).

Definition updateDisplay (s : panel) : list event * panel :=
  let frame_end := (row s =? 15) && (plane s =? depth s - 1) in
  let do_resync := frame_end && resync_flag s in
  let do_swap := frame_end && swap_requested s in
  let front := if do_swap then back_buffer s else front_buffer s in
  let back := if do_swap then front_buffer s else back_buffer s in
  let period := 74 * Z.shiftl 1 (depth s - plane s - 1) in
  let '(r, p) :=
    if row s =? 15
    then (0, if plane s =? depth s - 1 then 0 else to_uint16 (plane s + 1))
    else (to_uint16 (row s + 1), plane s) in
  ([PinSet oe_pin]
     ++ (if do_resync then [PinReset clr_pin; PinSet clr_pin] else [])
     ++ [ResetPeriod period;
         SpiTransfer (front + p * plane_size s + r * row_size s) (row_size s);
         PinReset oe_pin],
   mkPanel (width s) (height s) (depth s) (row_size s) (plane_size s)
     (double_buffer_enabled s) (heap s) front back
     (if do_swap then false else swap_requested s)
     (if do_resync then false else resync_flag s)
     r p (rowComplete s)).

(** ** begin *)

Inductive timer_id : Type := TIMER3 | TIMER4 | TIMER5 | TIMER6 | TIMER7.

(** The interval-timer library, which is not part of this repository: which
    instances are taken, the instance and period [displayTimer] got, and
    the instances asked for so far. *)
Record timers : Type := mkTimers {
  in_use : timer_id -> bool;
  armed : option (timer_id * Z);
  asked : list timer_id
}.

(** Modelled from the spec: [displayTimer.begin(refreshISR, period, uSec,
    id)] of the timer library claims the instance [id] when it is free and
    returns whether it did. *)
Definition displayTimer_begin (period : Z) (id : timer_id) (t : timers)
    : bool * timers :=
  if in_use t id
  then (false, mkTimers (in_use t) (armed t) (asked t ++ [id]))
  else (true, mkTimers (in_use t) (Some (id, period)) (asked t ++ [id])).

(** [void begin(void)]: the result type is [unit]. *)
Definition begin (t : timers) (s : panel) : unit * (timers * panel) :=
  let s1 :=
    resync
      (mkPanel (width s) (height s) (depth s) (row_size s) (plane_size s)
         (double_buffer_enabled s) (heap s) (front_buffer s) (back_buffer s)
         (swap_requested s) (resync_flag s) 15 (to_uint16 (depth s - 1)) 0) in
  let '(ok, t) := displayTimer_begin 250 TIMER3 t in
  if ok then (tt, (t, s1)) else
  let '(ok, t) := displayTimer_begin 250 TIMER4 t in
  if ok then (tt, (t, s1)) else
  let '(ok, t) := displayTimer_begin 250 TIMER5 t in
  if ok then (tt, (t, s1)) else
  let '(ok, t) := displayTimer_begin 250 TIMER6 t in
  if ok then (tt, (t, s1)) else
  let '(ok, t) := displayTimer_begin 250 TIMER7 t in
  if ok then (tt, (t, s1)) else
  (tt, (t, s1)).

(** ** Sequences of operations *)

Inductive op : Type :=
| OpDrawPixel (x y c : Z)
| OpFillScreen (c : Z)
| OpSwapBuffers
| OpResync
| OpBegin (t : timers)
| OpTick
| OpRowComplete.

Definition step (o : op) (s : panel) : option panel :=
  match o with
  | OpDrawPixel x y c => drawPixel x y c s
  | OpFillScreen c => fillScreen c s
  | OpSwapBuffers => Some (swapBuffers s)
  | OpResync => Some (resync s)
  | OpBegin t => Some (snd (snd (begin t s)))
  | OpTick => Some (snd (updateDisplay s))
  | OpRowComplete => Some (rowCompleteCallback s)
  end.

Fixpoint run (os : list op) (s : panel) : option panel :=
  match os with
  | [] => Some s
  | o :: os' =>
      match step o s with
      | Some s' => run os' s'
      | None => None
      end
  end.

(** [n] timer interrupts in a row, with everything they do to the pins,
    the timer and the SPI bus. *)
Fixpoint ticks (n : nat) (s : panel) : list event * panel :=
  match n with
  | O => ([], s)
  | S n' =>
      let '(ev, s1) := updateDisplay s in
      let '(evs, s2) := ticks n' s1 in
      (ev ++ evs, s2)
  end.

Definition periods (evs : list event) : list Z :=
  flat_map (fun e => match e with ResetPeriod us => [us] | _ => [] end) evs.

Definition transfers (evs : list event) : list (Z * Z) :=
  flat_map (fun e => match e with SpiTransfer a n => [(a, n)] | _ => [] end) evs.

(** ** Geometry, layout and the vocabulary of the specification *)

(** One frame buffer. *)
Definition buffer_size (s : panel) : Z := depth s * plane_size s.

Definition is_byte (v : Z) : Prop := 0 <= v < 256.

(** A panel as the constructor leaves it: positive multiples of 32 that
    are [uint16_t], one to four planes, the sizes derived from them, and
    one or two frame buffers that fill the block. *)
Record wf (s : panel) : Prop := mkWf {
  wf_width : 0 < width s /\ width s mod 32 = 0;
  wf_height : 0 < height s /\ height s mod 32 = 0;
  wf_depth : 1 <= depth s <= 4;
  wf_row_size : row_size s = width s * (height s / 32);
  wf_plane_size : plane_size s = width s * (height s / 2);
  wf_uint16 : width s < 65536 /\ height s < 65536;
  wf_block :
    block_size (heap s)
    = (if double_buffer_enabled s then 2 else 1) * buffer_size s;
  wf_buffers :
    if double_buffer_enabled s
    then (front_buffer s = 0 /\ back_buffer s = buffer_size s)
         \/ (front_buffer s = buffer_size s /\ back_buffer s = 0)
    else front_buffer s = 0 /\ back_buffer s = 0;
  wf_bytes : forall a v, load (heap s) a = Some v -> is_byte v
}.

(** Where the pixel encoder of the specification puts the pixel (x, y):
    the panel row, the row inside the panel after the flip of odd panel
    rows, the column along the chain, the half of the byte, and the offset
    of the byte in a plane. *)
Definition px_panel_row (y : Z) : Z := y / 32.

Definition px_yint (y : Z) : Z :=
  if Z.even (px_panel_row y) then y mod 32 else 31 - y mod 32.

Definition px_col (W x y : Z) : Z :=
  if Z.even (px_panel_row y)
  then x mod W + px_panel_row y * W
  else (W - 1 - x mod W) + px_panel_row y * W.

Definition px_upper (y : Z) : bool := px_yint y <? 16.

Definition px_row (y : Z) : Z :=
  if px_upper y then px_yint y else px_yint y - 16.

Definition px_shift (y : Z) : Z := if px_upper y then 3 else 0.

Definition px_mask (y : Z) : Z := if px_upper y then 199 else 248.

Definition px_offset (s : panel) (x y : Z) : Z :=
  px_row y * row_size s + px_col (width s) x y.

Definition px_addr (s : panel) (base p x y : Z) : Z :=
  base + p * plane_size s + px_offset s x y.

(** The colour bits of plane [p]: bit [15 - p] of the colour for red,
    bit [10 - p] for green and bit [4 - p] for blue, packed as
    [(R << 2) | (G << 1) | B]. *)
Definition plane_triple (c p : Z) : Z :=
  Z.lor (Z.lor (Z.shiftl (Z.b2z (Z.testbit c (15 - p))) 2)
               (Z.shiftl (Z.b2z (Z.testbit c (10 - p))) 1))
        (Z.b2z (Z.testbit c (4 - p))).

(** The plane of the back buffer, if any, in which [drawPixel(x, y, _)]
    writes address [a]. *)
Definition hit_plane (s : panel) (x y a : Z) : option Z :=
  if (0 <? depth s) && (a =? px_addr s (back_buffer s) 0 x y) then Some 0
  else if (1 <? depth s) && (a =? px_addr s (back_buffer s) 1 x y) then Some 1
  else if (2 <? depth s) && (a =? px_addr s (back_buffer s) 2 x y) then Some 2
  else if (3 <? depth s) && (a =? px_addr s (back_buffer s) 3 x y) then Some 3
  else None.

(** The byte that [drawPixel(x, y, c)] leaves at address [a], which held
    [v]. *)
Definition drawn_byte (s : panel) (x y c a v : Z) : Z :=
  match hit_plane s x y a with
  | Some p =>
      Z.lor (Z.land v (px_mask y)) (Z.shiftl (plane_triple c p) (px_shift y))
  | None => v
  end.

(** The reference decoder: the three colour bits of pixel (x, y) in plane
    [p] of the buffer at [base], and the channel values they spell over the
    planes, plane 0 first. *)
Definition read_triple (s : panel) (base p x y : Z) : option Z :=
  match load (heap s) (px_addr s base p x y) with
  | Some v => Some (Z.land (Z.shiftr v (px_shift y)) 7)
  | None => None
  end.

Fixpoint read_planes (n : nat) (s : panel) (base p x y : Z) : option (list Z) :=
  match n with
  | O => Some []
  | S n' =>
      match read_triple s base p x y, read_planes n' s base (p + 1) x y with
      | Some t, Some ts => Some (t :: ts)
      | _, _ => None
      end
  end.

(** The number spelt by bit [k] of the triples, most significant first. *)
Definition spell (k : Z) (ts : list Z) : Z :=
  fold_left (fun acc t => 2 * acc + Z.b2z (Z.testbit t k)) ts 0.

Definition readPixel (s : panel) (base x y : Z) : option (Z * Z * Z) :=
  match read_planes (Z.to_nat (depth s)) s base 0 x y with
  | Some ts => Some (spell 2 ts, spell 1 ts, spell 0 ts)
  | None => None
  end.

(** The top [D] bits of the red, green and blue channel of a 5-6-5 colour. *)
Definition top_red (D c : Z) : Z := (c / 2 ^ (16 - D)) mod 2 ^ D.
Definition top_green (D c : Z) : Z := (c / 2 ^ (11 - D)) mod 2 ^ D.
Definition top_blue (D c : Z) : Z := (c / 2 ^ (5 - D)) mod 2 ^ D.

(** The control bytes of the buffer at [base]: bits 6 and 7 are set in the
    last byte of each of the [depth * 16] rows and clear everywhere else. *)
Definition is_control (s : panel) (o : Z) : Prop :=
  exists k, 1 <= k <= depth s * 16 /\ o = k * row_size s - 1.

Definition control_bits_ok (s : panel) (base : Z) : Prop :=
  (forall k, 1 <= k <= depth s * 16 ->
     exists v, load (heap s) (base + (k * row_size s - 1)) = Some v
       /\ Z.testbit v 6 = true /\ Z.testbit v 7 = true)
  /\ (forall o, 0 <= o < buffer_size s -> ~ is_control s o ->
        exists v, load (heap s) (base + o) = Some v
          /\ Z.testbit v 6 = false /\ Z.testbit v 7 = false).

(** ** Pointwise description of what an operation does to the block *)

(** [m'] has the size of [m] and holds [f a v] wherever [m] held [v]. *)
Definition updated (m m' : list Z) (f : Z -> Z -> Z) : Prop :=
  block_size m' = block_size m
  /\ forall a v, load m a = Some v -> load m' a = Some (f a v).

(** An update that keeps a byte a byte and keeps its bits 6 and 7. *)
Definition keeps_control (f : Z -> Z -> Z) : Prop :=
  forall a v, is_byte v ->
    is_byte (f a v)
    /\ Z.testbit (f a v) 6 = Z.testbit v 6
    /\ Z.testbit (f a v) 7 = Z.testbit v 7.

(** The updates of iterations [i], [i + 1], ... of a loop, composed. *)
Fixpoint iter_upd (f : Z -> Z -> Z -> Z) (n : nat) (i a v : Z) : Z :=
  match n with
  | O => v
  | S n' => iter_upd f n' (i + 1) a (f i a v)
  end.

Definition upd_at (A : Z) (g : Z -> Z) (a v : Z) : Z :=
  if a =? A then g v else v.

Definition upd_range (A n w : Z) (a v : Z) : Z :=
  if (A <=? a) && (a <? A + n) then w else v.

(** What a write of [drawPixel] does to a byte that held [v], for the
    triple [t], and the check of its properties that is run on all bytes
    and all triples. *)
Definition written (upper : bool) (v t : Z) : Z :=
  Z.lor (Z.land v (if upper then 199 else 248))
        (Z.shiftl t (if upper then 3 else 0)).

Definition written_check (upper : bool) (v : Z) : bool :=
  forallb (fun t =>
    let r := written upper v t in
    (0 <=? r) && (r <? 256) && (to_uint8 r =? r)
    && Bool.eqb (Z.testbit r 6) (Z.testbit v 6)
    && Bool.eqb (Z.testbit r 7) (Z.testbit v 7)
    && (Z.land (Z.shiftr r (if upper then 3 else 0)) 7 =? t)
    && (if upper then Z.land r 7 =? Z.land v 7
        else Z.land r 56 =? Z.land v 56))
    (map Z.of_nat (seq 0 8)).

(** The update of one iteration of each loop of [fillScreen]. *)
Definition fill_upd (s : panel) (c : Z) (p : Z) : Z -> Z -> Z :=
  upd_range (back_buffer s + (depth s - p - 1) * plane_size s) (plane_size s)
    (to_uint8 (fill_color c p)).

Definition stamp_upd (s : panel) (bits : Z) (i : Z) : Z -> Z -> Z :=
  upd_at (back_buffer s + row_size s * i - 1) (fun v => to_uint8 (Z.lor v bits)).

(** Offset [o] of a buffer is the last byte of a row. *)
Definition controlb (s : panel) (o : Z) : bool := (o + 1) mod row_size s =? 0.

(** The byte that [fillScreen(c)] leaves at address [a], which held [v]. *)
Definition filled_byte (s : panel) (c a v : Z) : Z :=
  let o := a - back_buffer s in
  if (0 <=? o) && (o <? buffer_size s) then
    let col := fill_color c (depth s - 1 - o / plane_size s) in
    if controlb s o then Z.lor (Z.lor col 64) 128 else col
  else v.

Definition stamp_check (col : Z) : bool :=
  (to_uint8 col =? col)
  && (to_uint8 (Z.lor (to_uint8 (Z.lor col 64)) 128) =? Z.lor (Z.lor col 64) 128)
  && Z.testbit (Z.lor (Z.lor col 64) 128) 6
  && Z.testbit (Z.lor (Z.lor col 64) 128) 7
  && negb (Z.testbit col 6) && negb (Z.testbit col 7)
  && (Z.lor (Z.lor col 64) 128 <? 256).

(** Two states of the driver with the same geometry and the same block,
    whose buffers are the same two, possibly exchanged. *)
Definition same_frame (s s' : panel) : Prop :=
  width s' = width s /\ height s' = height s /\ depth s' = depth s
  /\ row_size s' = row_size s /\ plane_size s' = plane_size s
  /\ double_buffer_enabled s' = double_buffer_enabled s
  /\ heap s' = heap s
  /\ ((front_buffer s' = front_buffer s /\ back_buffer s' = back_buffer s)
      \/ (front_buffer s' = back_buffer s /\ back_buffer s' = front_buffer s)).

(** The invariant of the frame buffers. *)
Definition frame_ok (s : panel) : Prop :=
  wf s /\ control_bits_ok s (front_buffer s) /\ control_bits_ok s (back_buffer s).

(** A buffer as [fillScreen(0)] leaves it. *)
Definition blank (s : panel) (base : Z) : Prop :=
  forall o, 0 <= o < buffer_size s ->
    load (heap s) (base + o) = Some (if controlb s o then 192 else 0).

(** Two states of the driver of the same geometry. *)
Definition same_shape (s s' : panel) : Prop :=
  width s' = width s /\ height s' = height s /\ depth s' = depth s
  /\ row_size s' = row_size s /\ plane_size s' = plane_size s
  /\ double_buffer_enabled s' = double_buffer_enabled s.

(** The triples of [n] planes from plane [p] on. *)
Fixpoint triples (c p : Z) (n : nat) : list Z :=
  match n with
  | O => []
  | S n' => plane_triple c p :: triples c (p + 1) n'
  end.

(** The sizes the driver is specified for: positive multiples of 32, one
    to four planes, and a row that the [int16_t] column of [drawPixel] can
    index. *)
Definition fits (W H D : Z) : Prop :=
  0 < W /\ W mod 32 = 0 /\ 0 < H /\ H mod 32 = 0 /\ 1 <= D <= 4
  /\ W * (H / 32) <= 32768.

(** The schedule of binary-coded modulation: plane [p] of [D] is lit for
    [74 * 2 ^ (D - 1 - p)] microseconds, 16 rows a plane, plane 0 first. *)
Definition bcm_period (D p : Z) : Z := 74 * 2 ^ (D - 1 - p).

Fixpoint bcm_planes (D p : Z) (n : nat) : list Z :=
  match n with
  | O => []
  | S n' => replicate 16 (bcm_period D p) ++ bcm_planes D (p + 1) n'
  end.

Definition bcm_schedule (D : Z) : list Z := bcm_planes D 0 (Z.to_nat D).

(** The timer instances in the order in which [begin] asks for them, and
    the instances it asks for: up to the first free one. *)
Definition ranked : list timer_id := [TIMER3; TIMER4; TIMER5; TIMER6; TIMER7].

Fixpoint upto_free (t : timers) (l : list timer_id) : list timer_id :=
  match l with
  | [] => []
  | id :: l' => if in_use t id then id :: upto_free t l' else [id]
  end.

Definition first_free (t : timers) : option timer_id :=
  find (fun id => negb (in_use t id)) ranked.

(** ** Concrete panels and environments *)

(** An environment with 64 KiB for [malloc], whose fresh blocks hold the
    bytes 85, 86, ... and whose unset fields hold 1. *)
Definition demo_env : environment :=
  mkEnv 65536 (fun i => 85 + Z.of_nat i) true 1.

Definition no_panel : panel :=
  mkPanel 0 0 0 0 0 false [] 0 0 false false 0 0 0.

(** The panels of the examples: 32 x 32 with two planes and two buffers,
    32 x 64 with three planes, 32 x 32 with three planes (the two-argument
    constructor) and 32 x 32 with four planes. *)
Definition demo_double : panel := default no_panel (construct demo_env 32 32 2 true).
Definition demo_tall : panel := default no_panel (construct demo_env 32 64 3 false).
Definition demo_default : panel := default no_panel (construct2 demo_env 32 32).
Definition demo_deep : panel := default no_panel (construct demo_env 32 32 4 false).

Definition free_timers : timers := mkTimers (fun _ => false) None [].
Definition busy_timers : timers := mkTimers (fun _ => true) None [].

Definition demo_ops : list op :=
  [OpFillScreen 65535; OpDrawPixel 3 20 31; OpSwapBuffers; OpBegin free_timers;
   OpTick; OpDrawPixel 31 0 63488; OpDrawPixel 40 2 7; OpFillScreen 2016;
   OpDrawPixel 31 31 65535; OpTick; OpResync; OpRowComplete].

(** The state of [demo_double] after [demo_ops]. *)
Definition demo_state : panel := default no_panel (run demo_ops demo_double).

(** [demo_deep] after [begin], and after the first timer interrupt. *)
Definition demo_begun : panel := snd (snd (begin free_timers demo_deep)).
Definition demo_started : panel := snd (updateDisplay demo_begun).

(** The state of [demo_default] after [demo_ops]. *)
Definition demo_single : panel := default no_panel (run demo_ops demo_default).

(** ** States of a running driver *)

(** A state reached from a panel constructed [W] wide and [H] high with
    [D] planes, by some sequence of operations, where the sizes are those
    of [fits]: positive multiples of 32, one to four planes, and a row of
    at most 32768 bytes, [W * (H / 32) <= 32768]. *)
Definition reached (W H D : Z) (db : bool) (s : panel) : Prop :=
  fits W H D
  /\ exists e s0 os, construct e W H D db = Some s0 /\ run os s0 = Some s.

(** The cursor is on one of the 16 rows of one of the planes. *)
Definition cursor_ok (s : panel) : Prop :=
  0 <= row s <= 15 /\ 0 <= plane s < depth s.

(** The place of the cursor in the frame, and the number of timer
    interrupts before the one that finds it on the last row of the last
    plane. *)
Definition lin (s : panel) : Z := plane s * 16 + row s.

Definition to_frame_end (s : panel) : nat :=
  Z.to_nat (16 * depth s - 1 - lin s).

(** The state after [n] timer interrupts. *)
Definition after (n : nat) (s : panel) : panel := snd (ticks n s).

(** What the interrupts do to the clear line of the CPLD. *)
Definition is_clr (e : event) : bool :=
  match e with
  | PinSet clr_pin | PinReset clr_pin => true
  | _ => false
  end.

Definition clr_events (evs : list event) : list event := List.filter is_clr evs.

Definition total (l : list Z) : Z := fold_right Z.add 0 l.

(** The periods that [n] interrupts program, from the cursor alone. *)
Fixpoint periods_from (n : nat) (D r p : Z) : list Z :=
  match n with
  | O => []
  | S n' =>
      74 * Z.shiftl 1 (D - p - 1)
      :: (if r =? 15
          then periods_from n' D 0 (if p =? D - 1 then 0 else to_uint16 (p + 1))
          else periods_from n' D (to_uint16 (r + 1)) p)
  end.

(** Every cursor of a [D]-plane frame. *)
Definition cursors (D : Z) : list (Z * Z) :=
  flat_map (fun p => map (fun r => (Z.of_nat r, Z.of_nat p)) (seq 0 16))
    (seq 0 (Z.to_nat D)).

Definition frame_time_check (D : Z) : bool :=
  forallb (fun '(r, p) =>
             total (periods_from (Z.to_nat (16 * D)) D r p) =? 1184 * (2 ^ D - 1))
    (cursors D).

(** ** The other colour helpers *)

(** [Color888(r, g, b)], linear. *)
Definition Color888 (r g b : Z) : Z :=
  to_uint16
    (Z.lor (Z.lor (Z.shiftl (to_uint16 (Z.land r 248)) 8)
                  (Z.shiftl (to_uint16 (Z.land g 252)) 3))
           (Z.shiftr b 3)).

(** The expression that [ColorHSV] returns: 4/4/4 to 5/6/5, the low bits
    filled from the high ones. *)
Definition pack444 (r g b : Z) : Z :=
  to_uint16
    (Z.lor (Z.lor (Z.lor (Z.lor (Z.lor (Z.shiftl r 12) (Z.shiftl (Z.land r 8) 8))
                                (Z.shiftl g 7))
                         (Z.shiftl (Z.land g 12) 3))
                  (Z.shiftl b 1))
           (Z.shiftr b 3)).

(** Modelled from the spec: the gamma lookup of [gamma.h], which is not
    part of the sources, is a table [gamma] of bytes that the callers
    index with a byte. *)
Definition Color888_gamma (gamma : Z -> Z) (r g b : Z) (gflag : bool) : Z :=
  if gflag then
    let r := to_uint8 (gamma r) in
    let g := to_uint8 (gamma g) in
    let b := to_uint8 (gamma b) in
    to_uint16
      (Z.lor (Z.lor (Z.lor (Z.lor (Z.lor (Z.shiftl (to_uint16 r) 12)
                                         (Z.shiftl (to_uint16 (Z.land r 8)) 8))
                                  (Z.shiftl (to_uint16 g) 7))
                           (Z.shiftl (to_uint16 (Z.land g 12)) 3))
                    (Z.shiftl b 1))
             (Z.shiftr b 3))
  else
    to_uint16
      (Z.lor (Z.lor (Z.shiftl (to_uint16 (Z.land r 248)) 8)
                    (Z.shiftl (to_uint16 (Z.land g 252)) 3))
             (Z.shiftr b 3)).

(** [ColorHSV]: the low byte of the hue and the sextant of the colour
    wheel, then the hue in 0 .. 1535, saturation and value up to the
    [return]; [r], [g], [b] and [lo] are [uint8_t], [s1] and [v1] are
    [uint16_t]. *)
Definition HSV_hue (hue : Z) : Z * Z * Z :=
  let lo := to_uint8 (Z.land hue 255) in
  match Z.shiftr hue 8 with
  | 0 => (255, lo, 0)
  | 1 => (to_uint8 (255 - lo), 255, 0)
  | 2 => (0, 255, lo)
  | 3 => (0, to_uint8 (255 - lo), 255)
  | 4 => (lo, 0, 255)
  | _ => (255, 0, to_uint8 (255 - lo))
  end.

Definition HSV_channels (gamma : Z -> Z) (hue sat val : Z) (gflag : bool)
    : Z * Z * Z :=
  let hue := Z.rem hue 1536 in
  let hue := if hue <? 0 then hue + 1536 else hue in
  let '(r, g, b) := HSV_hue hue in
  let s1 := to_uint16 (sat + 1) in
  let r := to_uint8 (255 - Z.shiftr ((255 - r) * s1) 8) in
  let g := to_uint8 (255 - Z.shiftr ((255 - g) * s1) 8) in
  let b := to_uint8 (255 - Z.shiftr ((255 - b) * s1) 8) in
  let v1 := to_uint16 (val + 1) in
  if gflag
  then (to_uint8 (gamma (Z.shiftr (r * v1) 8)),
        to_uint8 (gamma (Z.shiftr (g * v1) 8)),
        to_uint8 (gamma (Z.shiftr (b * v1) 8)))
  else (to_uint8 (Z.shiftr (r * v1) 12),
        to_uint8 (Z.shiftr (g * v1) 12),
        to_uint8 (Z.shiftr (b * v1) 12)).

Definition ColorHSV (gamma : Z -> Z) (hue sat val : Z) (gflag : bool) : Z :=
  let '(r, g, b) := HSV_channels gamma hue sat val gflag in
  pack444 r g b.

(** Four bits of a colour from bit [k] on, and the checks by enumeration
    of what the helpers put there. *)
Definition field (k c : Z) : Z := Z.land (Z.shiftr c k) 15.

Definition nibbles : list Z := map Z.of_nat (seq 0 16).

Definition all3 (l : list Z) (P : Z -> Z -> Z -> bool) : bool :=
  forallb (fun r => forallb (fun g => forallb (fun b => P r g b) l) l) l.

Definition shows (D c r g b : Z) : bool :=
  (top_red D c =? r) && (top_green D c =? g) && (top_blue D c =? b).

Definition Color888_check (v : Z) : bool :=
  let R := Z.shiftl (to_uint16 (Z.land v 248)) 8 in
  let G := Z.shiftl (to_uint16 (Z.land v 252)) 3 in
  let B := Z.shiftr v 3 in
  (field 12 R =? v / 16) && (field 7 R =? 0) && (field 1 R =? 0)
  && (field 12 G =? 0) && (field 7 G =? v / 16) && (field 1 G =? 0)
  && (field 12 B =? 0) && (field 7 B =? 0) && (field 1 B =? v / 16).

Definition nibble_check (n : Z) : bool :=
  (to_uint8 n =? n) && (to_uint16 n =? n)
  && (to_uint16 (Z.land n 8) =? Z.land n 8)
  && (to_uint16 (Z.land n 12) =? Z.land n 12).

(** The operations that store [rowComplete]. *)
Definition is_begin (o : op) : bool :=
  match o with OpBegin _ => true | _ => false end.

Definition is_row_complete (o : op) : bool :=
  match o with OpRowComplete => true | _ => false end.

(** [demo_deep] after [begin], an interrupt, the end of its transfer and
    another interrupt. *)
Definition demo_polled : panel :=
  default no_panel (run [OpTick; OpRowComplete; OpTick] demo_begun).

(** An update that keeps a byte a byte and keeps the half of it that a
    write to the upper or to the lower half does not own: bits 0 to 2, or
    bits 3 to 5. *)
Definition keeps_half (upper : bool) (f : Z -> Z -> Z) : Prop :=
  forall a v, is_byte v ->
    is_byte (f a v)
    /\ if upper then Z.land (f a v) 7 = Z.land v 7
       else Z.land (f a v) 56 = Z.land v 56.

(** The advance step in the words of the specification: the next row, and
    after row 15 row 0 of the next plane, modulo [D]. *)
Definition advance (D r p : Z) : Z * Z :=
  if r <? 15 then (r + 1, p) else (0, (p + 1) mod D).

(** A state of a running driver of any size that the constructor takes:
    reached from a panel constructed [W] wide and [H] high with [D] planes,
    by some sequence of operations.  No bound on the length of a row. *)
Definition built (W H D : Z) (db : bool) (s : panel) : Prop :=
  (0 < W < 65536 /\ W mod 32 = 0)
  /\ (0 < H < 65536 /\ H mod 32 = 0)
  /\ 1 <= D <= 4
  /\ exists e s0 os, construct e W H D db = Some s0 /\ run os s0 = Some s.

(** A panel whose rows are longer than the [int16_t] column of
    [drawPixel] can index: 1024 x 1056 with one plane, 33 chained panels
    of 32 rows, [row_size = 33792]. *)
Definition long_env : environment := mkEnv 1048576 (fun _ => 170) false 0.

Definition demo_long : panel :=
  default no_panel (construct long_env 1024 1056 1 false).

(** * Properties *)

(** ** Loads and stores on the block *)

Section Block.
Implicit Types (m : list Z) (a b v : Z).

Lemma load_inside m a :
  0 <= a < block_size m -> exists v, load m a = Some v.
Proof.
  intros [Ha Hlen]. unfold load, block_size in *.
  destruct (Z.leb_spec 0 a) as [_|]; [|lia].
  destruct (lookup_lt_is_Some_2 m (Z.to_nat a)) as [v Hv]; [lia|].
  exists v. exact Hv.
Qed.

Lemma load_Some_inside m a v :
  load m a = Some v -> 0 <= a < block_size m.
Proof.
  unfold load, block_size.
  destruct (Z.leb_spec 0 a) as [Ha|]; [|discriminate].
  intros Hv. apply lookup_lt_Some in Hv. lia.
Qed.

Lemma load_outside m a :
  ~ (0 <= a < block_size m) -> load m a = None.
Proof.
  intros Hout. destruct (load m a) as [v|] eqn:E; [|reflexivity].
  apply load_Some_inside in E. contradiction.
Qed.

Lemma store_inside m a v :
  0 <= a < block_size m ->
  exists m', store m a v = Some m'
    /\ block_size m' = block_size m
    /\ load m' a = Some (to_uint8 v)
    /\ forall b, b <> a -> load m' b = load m b.
Proof.
  intros [Ha Hlen]. unfold store, block_size in *.
  destruct (Z.leb_spec 0 a) as [_|]; [|lia].
  destruct (Z.ltb_spec a (Z.of_nat (length m))) as [_|]; [|lia].
  simpl. eexists. split; [reflexivity|]. split; [|split].
  - now rewrite length_insert.
  - unfold load. destruct (Z.leb_spec 0 a) as [_|]; [|lia].
    apply list_lookup_insert_eq. lia.
  - intros b Hne. unfold load.
    destruct (Z.leb_spec 0 b) as [Hb|]; [|reflexivity].
    apply list_lookup_insert_ne. lia.
Qed.

Lemma rmw_inside m a mask bits v :
  load m a = Some v ->
  exists m', rmw m a mask bits = Some m'
    /\ block_size m' = block_size m
    /\ load m' a = Some (to_uint8 (Z.lor (Z.land v mask) bits))
    /\ forall b, b <> a -> load m' b = load m b.
Proof.
  intros Hv. unfold rmw. rewrite Hv.
  apply store_inside. eapply load_Some_inside; eassumption.
Qed.

Lemma or_into_inside m a bits v :
  load m a = Some v ->
  exists m', or_into m a bits = Some m'
    /\ block_size m' = block_size m
    /\ load m' a = Some (to_uint8 (Z.lor v bits))
    /\ forall b, b <> a -> load m' b = load m b.
Proof.
  intros Hv. unfold or_into. rewrite Hv.
  apply store_inside. eapply load_Some_inside; eassumption.
Qed.

Lemma memset_inside m a v n :
  0 <= a -> 0 <= n -> a + n <= block_size m ->
  exists m', memset m a v n = Some m'
    /\ block_size m' = block_size m
    /\ (forall b, a <= b < a + n -> load m' b = Some (to_uint8 v))
    /\ (forall b, ~ (a <= b < a + n) -> load m' b = load m b).
Proof.
  intros Ha Hn Hlen. unfold memset, block_size in *.
  destruct (Z.leb_spec 0 a) as [_|]; [|lia].
  destruct (Z.leb_spec 0 n) as [_|]; [|lia].
  destruct (Z.leb_spec (a + n) (Z.of_nat (length m))) as [_|]; [|lia].
  simpl. eexists. split; [reflexivity|]. split; [|split].
  - rewrite !length_app, length_take, length_replicate, length_drop. lia.
  - intros b Hb. unfold load.
    destruct (Z.leb_spec 0 b) as [_|]; [|lia].
    rewrite lookup_app_r by (rewrite length_take; lia).
    rewrite length_take.
    rewrite lookup_app_l by (rewrite length_replicate; lia).
    apply lookup_replicate. split; [reflexivity|lia].
  - intros b Hb. unfold load.
    destruct (Z.leb_spec 0 b) as [Hb0|]; [|reflexivity].
    destruct (Z.ltb_spec b a) as [Hlt|Hge].
    + rewrite lookup_app_l by (rewrite length_take; lia).
      rewrite lookup_take. destruct (decide (Z.to_nat b < Z.to_nat a)%nat); [reflexivity|lia].
    + rewrite lookup_app_r by (rewrite length_take; lia).
      rewrite length_take.
      rewrite lookup_app_r by (rewrite length_replicate; lia).
      rewrite length_replicate, lookup_drop. f_equal. lia.
Qed.
End Block.

(** ** Pointwise updates *)

Section Updated.
Implicit Types (m : list Z) (f g : Z -> Z -> Z).

Lemma updated_refl m : updated m m (fun _ v => v).
Proof. split; [reflexivity|auto]. Qed.

Lemma updated_trans m1 m2 m3 f g :
  updated m1 m2 f -> updated m2 m3 g ->
  updated m1 m3 (fun a v => g a (f a v)).
Proof.
  intros [L1 H1] [L2 H2]. split; [congruence|].
  intros a v Hv. apply H2, H1, Hv.
Qed.

Lemma updated_ext m m' f g :
  updated m m' f ->
  (forall a v, load m a = Some v -> f a v = g a v) ->
  updated m m' g.
Proof.
  intros [L H] Hfg. split; [exact L|].
  intros a v Hv. rewrite <- (Hfg a v Hv). auto.
Qed.

Lemma rmw_updated m A mask bits :
  0 <= A < block_size m ->
  exists m', rmw m A mask bits = Some m'
    /\ updated m m' (upd_at A (fun v => to_uint8 (Z.lor (Z.land v mask) bits))).
Proof.
  intros HA. destruct (load_inside m A HA) as [v Hv].
  destruct (rmw_inside m A mask bits v Hv) as (m' & E & L & Hat & Hoth).
  exists m'. split; [exact E|]. split; [exact L|].
  intros a w Hw. unfold upd_at. destruct (Z.eqb_spec a A) as [->|Hne].
  - rewrite Hat. congruence.
  - rewrite Hoth by exact Hne. exact Hw.
Qed.

Lemma or_into_updated m A bits :
  0 <= A < block_size m ->
  exists m', or_into m A bits = Some m'
    /\ updated m m' (upd_at A (fun v => to_uint8 (Z.lor v bits))).
Proof.
  intros HA. destruct (load_inside m A HA) as [v Hv].
  destruct (or_into_inside m A bits v Hv) as (m' & E & L & Hat & Hoth).
  exists m'. split; [exact E|]. split; [exact L|].
  intros a w Hw. unfold upd_at. destruct (Z.eqb_spec a A) as [->|Hne].
  - rewrite Hat. congruence.
  - rewrite Hoth by exact Hne. exact Hw.
Qed.

Lemma memset_updated m A w n :
  0 <= A -> 0 <= n -> A + n <= block_size m ->
  exists m', memset m A w n = Some m'
    /\ updated m m' (upd_range A n (to_uint8 w)).
Proof.
  intros HA Hn Hlen.
  destruct (memset_inside m A w n HA Hn Hlen) as (m' & E & L & Hin & Hout).
  exists m'. split; [exact E|]. split; [exact L|].
  intros a v Hv. unfold upd_range.
  destruct (Z.leb_spec A a), (Z.ltb_spec a (A + n)); simpl;
    try (rewrite Hout by lia; exact Hv).
  apply Hin. lia.
Qed.

Lemma for_loop_updated (body : Z -> list Z -> option (list Z))
    (f : Z -> Z -> Z -> Z) (size lo hi : Z) :
  (forall j m, lo <= j < hi -> block_size m = size ->
     exists m', body j m = Some m' /\ updated m m' (f j)) ->
  forall n i m, lo <= i -> i + Z.of_nat n <= hi -> block_size m = size ->
    exists m', for_loop n i body m = Some m' /\ updated m m' (iter_upd f n i).
Proof.
  intros Hbody. induction n as [|n IH]; intros i m Hlo Hhi Hsize.
  - exists m. split; [reflexivity|apply updated_refl].
  - destruct (Hbody i m ltac:(lia) Hsize) as (m1 & E1 & U1).
    destruct (IH (i + 1) m1 ltac:(lia) ltac:(lia)) as (m2 & E2 & U2).
    { destruct U1 as [L1 _]. congruence. }
    exists m2. simpl. rewrite E1. split; [exact E2|].
    exact (updated_trans _ _ _ _ _ U1 U2).
Qed.
End Updated.

(** ** Bits *)

Section Bits.
Implicit Types (c v t p k : Z).

Lemma chan_testbit c k : 0 <= k -> chan c k = Z.b2z (Z.testbit c k).
Proof.
  intros Hk. unfold chan.
  rewrite Z.shiftr_land, Z.shiftl_1_l, (Z.shiftr_div_pow2 (2 ^ k)) by exact Hk.
  rewrite Z.div_same by (apply Z.pow_nonzero; lia).
  change 1 with (Z.ones 1) at 1. rewrite Z.land_ones by lia.
  rewrite Z.shiftr_div_pow2 by exact Hk.
  symmetry. apply Z.testbit_spec'. exact Hk.
Qed.

(** Checking a decidable property of the integers below [n] by running
    it on each of them. *)
Lemma range_cases (n : nat) (P : Z -> bool) :
  forallb P (map Z.of_nat (seq 0 n)) = true ->
  forall v, 0 <= v < Z.of_nat n -> P v = true.
Proof.
  intros H v Hv. rewrite forallb_forall in H. apply H.
  apply in_map_iff. exists (Z.to_nat v). split; [lia|].
  apply in_seq. lia.
Qed.

Lemma plane_triple_cases c p :
  exists r g b : bool,
    r = Z.testbit c (15 - p) /\ g = Z.testbit c (10 - p)
    /\ b = Z.testbit c (4 - p)
    /\ plane_triple c p = 4 * Z.b2z r + 2 * Z.b2z g + Z.b2z b.
Proof.
  exists (Z.testbit c (15 - p)), (Z.testbit c (10 - p)), (Z.testbit c (4 - p)).
  repeat split. unfold plane_triple.
  destruct (Z.testbit c (15 - p)), (Z.testbit c (10 - p)), (Z.testbit c (4 - p));
    reflexivity.
Qed.

Lemma plane_triple_range c p : 0 <= plane_triple c p < 8.
Proof.
  destruct (plane_triple_cases c p) as (r & g & b & _ & _ & _ & ->).
  destruct r, g, b; simpl; lia.
Qed.

Lemma plane_triple_bits c p :
  Z.testbit (plane_triple c p) 2 = Z.testbit c (15 - p)
  /\ Z.testbit (plane_triple c p) 1 = Z.testbit c (10 - p)
  /\ Z.testbit (plane_triple c p) 0 = Z.testbit c (4 - p).
Proof.
  destruct (plane_triple_cases c p) as (r & g & b & <- & <- & <- & ->).
  destruct r, g, b; repeat split.
Qed.

(** The code's expression for one plane is the triple of the
    specification, shifted to the half it is written to. *)
Lemma triple_plane c sh :
  sh = 0 \/ sh = 3 ->
  triple c 15 10 4 sh = Z.shiftl (plane_triple c 0) sh
  /\ triple c 14 9 3 sh = Z.shiftl (plane_triple c 1) sh
  /\ triple c 13 8 2 sh = Z.shiftl (plane_triple c 2) sh
  /\ triple c 12 7 1 sh = Z.shiftl (plane_triple c 3) sh.
Proof.
  intros Hsh. unfold triple, plane_triple.
  rewrite !chan_testbit by lia.
  change (15 - 0) with 15. change (10 - 0) with 10. change (4 - 0) with 4.
  change (15 - 1) with 14. change (10 - 1) with 9. change (4 - 1) with 3.
  change (15 - 2) with 13. change (10 - 2) with 8. change (4 - 2) with 2.
  change (15 - 3) with 12. change (10 - 3) with 7. change (4 - 3) with 1.
  destruct Hsh as [-> | ->];
    destruct (Z.testbit c 15), (Z.testbit c 14), (Z.testbit c 13),
      (Z.testbit c 12); 
    destruct (Z.testbit c 10), (Z.testbit c 9), (Z.testbit c 8),
      (Z.testbit c 7);
    destruct (Z.testbit c 4), (Z.testbit c 3), (Z.testbit c 2),
      (Z.testbit c 1); repeat split.
Qed.

Lemma written_ok upper v t :
  is_byte v -> 0 <= t < 8 ->
  let r := written upper v t in
  is_byte r /\ to_uint8 r = r
  /\ Z.testbit r 6 = Z.testbit v 6 /\ Z.testbit r 7 = Z.testbit v 7
  /\ Z.land (Z.shiftr r (if upper then 3 else 0)) 7 = t
  /\ (if upper then Z.land r 7 = Z.land v 7 else Z.land r 56 = Z.land v 56).
Proof.
  intros Hv Ht r.
  assert (Hall : forall u, written_check u v = true).
  { intros u. apply (range_cases 256 (written_check u)); [|exact Hv].
    destruct u; vm_compute; reflexivity. }
  specialize (Hall upper). unfold written_check in Hall.
  pose proof (range_cases 8 _ Hall t Ht) as H. cbv beta zeta in H.
  fold r in H. rewrite !andb_true_iff in H.
  destruct H as [[[[[[H0 H1] H2] H3] H4] H5] H6].
  apply Z.leb_le in H0. apply Z.ltb_lt in H1. apply Z.eqb_eq in H2.
  apply eqb_prop in H3. apply eqb_prop in H4. apply Z.eqb_eq in H5.
  repeat split; try assumption.
  destruct upper; apply Z.eqb_eq; exact H6.
Qed.
End Bits.

(** ** Geometry of a well-formed panel *)

Section Geometry.
Variable s : panel.
Hypothesis Hwf : wf s.

Lemma plane_rows : plane_size s = 16 * row_size s.
Proof.
  destruct Hwf as [[HW _] [HH HH32] _ Hrs Hps _ _ _ _].
  rewrite Hrs, Hps.
  assert (E : height s = 32 * (height s / 32)).
  { pose proof (Z.div_mod (height s) 32 ltac:(lia)). lia. }
  assert (E2 : height s / 2 = 16 * (height s / 32)).
  { rewrite E at 1. replace (32 * (height s / 32)) with ((16 * (height s / 32)) * 2) by lia.
    apply Z.div_mul. lia. }
  rewrite E2. lia.
Qed.

Lemma panel_rows_pos : 0 < height s / 32.
Proof.
  destruct Hwf as [_ [HH HH32] _ _ _ _ _ _ _].
  pose proof (Z.div_mod (height s) 32 ltac:(lia)). lia.
Qed.

Lemma row_size_pos : 0 < row_size s.
Proof.
  pose proof panel_rows_pos.
  destruct Hwf as [[HW _] _ _ Hrs _ _ _ _ _]. rewrite Hrs. nia.
Qed.

Lemma plane_size_pos : 0 < plane_size s.
Proof. rewrite plane_rows. pose proof row_size_pos. lia. Qed.

Lemma buffer_size_pos : 0 < buffer_size s.
Proof.
  unfold buffer_size. pose proof plane_size_pos.
  destruct Hwf as [_ _ HD _ _ _ _ _ _]. nia.
Qed.

Lemma back_buffer_inside :
  0 <= back_buffer s /\ back_buffer s + buffer_size s <= block_size (heap s).
Proof.
  pose proof buffer_size_pos.
  destruct Hwf as [_ _ _ _ _ _ Hblk Hbuf _]. rewrite Hblk.
  destruct (double_buffer_enabled s); lia.
Qed.

Lemma front_buffer_inside :
  0 <= front_buffer s /\ front_buffer s + buffer_size s <= block_size (heap s).
Proof.
  pose proof buffer_size_pos.
  destruct Hwf as [_ _ _ _ _ _ Hblk Hbuf _]. rewrite Hblk.
  destruct (double_buffer_enabled s); lia.
Qed.

(** Front and back are the same buffer or do not overlap. *)
Lemma buffers_apart :
  front_buffer s = back_buffer s
  \/ front_buffer s + buffer_size s <= back_buffer s
  \/ back_buffer s + buffer_size s <= front_buffer s.
Proof.
  destruct Hwf as [_ _ _ _ _ _ _ Hbuf _].
  destruct (double_buffer_enabled s); lia.
Qed.

Section Pixel.
Variables x y : Z.
Hypothesis Hx : 0 <= x < width s.
Hypothesis Hy : 0 <= y < height s.

Lemma px_panel_row_range : 0 <= px_panel_row y < height s / 32.
Proof.
  unfold px_panel_row.
  destruct Hwf as [_ [HH HH32] _ _ _ _ _ _ _].
  pose proof (Z.div_mod (height s) 32 ltac:(lia)).
  pose proof (Z.div_mod y 32 ltac:(lia)).
  pose proof (Z.mod_pos_bound y 32 ltac:(lia)).
  lia.
Qed.

Lemma px_yint_range : 0 <= px_yint y < 32.
Proof.
  unfold px_yint. pose proof (Z.mod_pos_bound y 32 ltac:(lia)).
  destruct (Z.even (px_panel_row y)); lia.
Qed.

Lemma px_row_range : 0 <= px_row y < 16.
Proof.
  unfold px_row, px_upper. pose proof px_yint_range.
  destruct (Z.ltb_spec (px_yint y) 16); lia.
Qed.

Lemma px_col_range : 0 <= px_col (width s) x y < row_size s.
Proof.
  unfold px_col. pose proof px_panel_row_range.
  pose proof (Z.mod_pos_bound x (width s) ltac:(lia)).
  destruct Hwf as [[HW _] _ _ Hrs _ _ _ _ _]. rewrite Hrs.
  destruct (Z.even (px_panel_row y)); nia.
Qed.

Lemma px_offset_range : 0 <= px_offset s x y < plane_size s.
Proof.
  unfold px_offset. rewrite plane_rows.
  pose proof px_row_range. pose proof px_col_range. nia.
Qed.

Lemma px_addr_inside p :
  0 <= p < depth s ->
  0 <= px_addr s (back_buffer s) p x y < block_size (heap s).
Proof.
  intros Hp. unfold px_addr.
  pose proof px_offset_range. pose proof back_buffer_inside.
  unfold buffer_size in *. nia.
Qed.

(** The coordinates the code computes are those of the specification,
    when the [int16_t] column can index the row. *)
Lemma drawPixel_coords c :
  row_size s <= 32768 ->
  drawPixel x y c s
  = write_planes s (px_row y) (px_col (width s) x y) (px_mask y) (px_shift y) c.
Proof.
  intros H16.
  pose proof px_panel_row_range as Hpr. pose proof px_col_range as Hcol.
  pose proof panel_rows_pos as Hrows.
  pose proof (Z.mod_pos_bound y 32 ltac:(lia)) as Hy32.
  pose proof (wf_row_size s Hwf) as Hrs.
  destruct (wf_width s Hwf) as [HW _].
  assert (Hrows16 : height s / 32 <= 32768) by nia.
  unfold drawPixel.
  destruct (Z.leb_spec 0 y); [|lia]. destruct (Z.leb_spec 0 x); [|lia].
  destruct (Z.ltb_spec y (height s)); [|lia].
  destruct (Z.ltb_spec x (width s)); [|lia]. cbn [andb].
  rewrite (Z.rem_mod_nonneg y 32) by lia.
  rewrite (Z.shiftr_div_pow2 y 5) by lia. change (2 ^ 5) with 32.
  fold (px_panel_row y).
  assert (E1 : to_uint16 (y mod 32) = y mod 32)
    by (unfold to_uint16; apply Z.mod_small; lia).
  assert (E2 : to_uint16 (px_panel_row y) = px_panel_row y)
    by (unfold to_uint16; apply Z.mod_small; lia).
  rewrite E1, E2.
  rewrite (Z.rem_mod_nonneg (px_panel_row y) 2) by lia.
  rewrite (Z.rem_mod_nonneg x (width s)) by lia.
  rewrite <- (Zeven_mod (px_panel_row y)).
  unfold px_col, px_row, px_mask, px_shift, px_upper, px_yint in *.
  destruct (Z.even (px_panel_row y)).
  - assert (E3 : to_int16 (x mod width s + px_panel_row y * width s)
                 = x mod width s + px_panel_row y * width s).
    { unfold to_int16. rewrite Z.mod_small; lia. }
    rewrite E3.
    destruct (Z.ltb_spec (y mod 32) 16); [reflexivity|].
    f_equal. unfold to_uint16. apply Z.mod_small. lia.
  - assert (E3 : to_int16 (width s - 1 - x mod width s + px_panel_row y * width s)
                 = width s - 1 - x mod width s + px_panel_row y * width s).
    { unfold to_int16. rewrite Z.mod_small; lia. }
    rewrite E3.
    assert (E4 : to_uint16 (31 - y mod 32) = 31 - y mod 32)
      by (unfold to_uint16; apply Z.mod_small; lia).
    rewrite E4.
    destruct (Z.ltb_spec (31 - y mod 32) 16); [reflexivity|].
    f_equal. unfold to_uint16. apply Z.mod_small. lia.
Qed.
End Pixel.
End Geometry.

(** ** What drawPixel does to the block *)

Lemma written_px y c p v :
  is_byte v ->
  let r := Z.lor (Z.land v (px_mask y)) (Z.shiftl (plane_triple c p) (px_shift y)) in
  r = written (px_upper y) v (plane_triple c p).
Proof. intros _. unfold written, px_mask, px_shift. reflexivity. Qed.

Lemma plane_block_updated s k y_int x mask bits m A :
  A = back_buffer s + k * plane_size s + y_int * row_size s + x ->
  (k < depth s -> 0 <= A < block_size m) ->
  exists m', plane_block s k y_int x mask bits m = Some m'
    /\ updated m m'
         (fun a v => if (k <? depth s) && (a =? A)
                     then to_uint8 (Z.lor (Z.land v mask) bits) else v).
Proof.
  intros HA Hin. unfold plane_block. rewrite <- HA.
  destruct (Z.ltb_spec k (depth s)) as [Hk|Hk].
  - destruct (rmw_updated m A mask bits (Hin Hk)) as (m' & E & U).
    exists m'. split; [exact E|]. exact U.
  - exists m. split; [reflexivity|]. apply updated_refl.
Qed.

Section DrawPixel.
Variable s : panel.
Hypothesis Hwf : wf s.
Hypothesis H16 : row_size s <= 32768.
Variables x y : Z.
Hypothesis Hx : 0 <= x < width s.
Hypothesis Hy : 0 <= y < height s.

Lemma hit_plane_at p :
  0 <= p < depth s ->
  hit_plane s x y (px_addr s (back_buffer s) p x y) = Some p.
Proof.
  intros Hp. pose proof (plane_size_pos s Hwf) as Hps.
  pose proof (wf_depth s Hwf) as HD.
  assert (Hcases : p = 0 \/ p = 1 \/ p = 2 \/ p = 3) by lia.
  unfold hit_plane, px_addr.
  repeat match goal with
  | |- context [(?k <? depth s) && (?a =? ?P)] =>
      destruct (Z.ltb_spec k (depth s)); destruct (Z.eqb_spec a P); cbn [andb]
  end; try (f_equal; nia); exfalso; nia.
Qed.

Lemma drawPixel_spec c :
  exists m', drawPixel x y c s = Some (set_heap m' s)
    /\ updated (heap s) m' (drawn_byte s x y c).
Proof.
  rewrite (drawPixel_coords s Hwf x y Hx Hy c H16). unfold write_planes.
  pose proof (plane_size_pos s Hwf) as Hps.
  assert (Hsh : px_shift y = 0 \/ px_shift y = 3)
    by (unfold px_shift; destruct (px_upper y); auto).
  destruct (triple_plane c (px_shift y) Hsh) as (T0 & T1 & T2 & T3).
  rewrite T0, T1, T2, T3.
  assert (HA : forall k, px_addr s (back_buffer s) k x y
                 = back_buffer s + k * plane_size s
                   + px_row y * row_size s + px_col (width s) x y)
    by (intros k; unfold px_addr, px_offset; lia).
  assert (Hin : forall k, 0 <= k -> k < depth s ->
                  0 <= px_addr s (back_buffer s) k x y < block_size (heap s))
    by (intros k Hk0 Hk; apply (px_addr_inside s Hwf x y Hx Hy); lia).
  destruct (plane_block_updated s 0 _ _ (px_mask y)
              (Z.shiftl (plane_triple c 0) (px_shift y)) (heap s) _ (HA 0))
    as (m0 & E0 & U0); [apply Hin; lia|]. rewrite E0.
  destruct (plane_block_updated s 1 _ _ (px_mask y)
              (Z.shiftl (plane_triple c 1) (px_shift y)) m0 _ (HA 1))
    as (m1 & E1 & U1); [rewrite (proj1 U0); apply Hin; lia|]. rewrite E1.
  destruct (plane_block_updated s 2 _ _ (px_mask y)
              (Z.shiftl (plane_triple c 2) (px_shift y)) m1 _ (HA 2))
    as (m2 & E2 & U2); [rewrite (proj1 U1), (proj1 U0); apply Hin; lia|].
  rewrite E2.
  destruct (plane_block_updated s 3 _ _ (px_mask y)
              (Z.shiftl (plane_triple c 3) (px_shift y)) m2 _ (HA 3))
    as (m3 & E3 & U3);
    [rewrite (proj1 U2), (proj1 U1), (proj1 U0); apply Hin; lia|].
  rewrite E3. exists m3. split; [reflexivity|].
  pose proof (updated_trans _ _ _ _ _
                (updated_trans _ _ _ _ _ (updated_trans _ _ _ _ _ U0 U1) U2) U3)
    as U.
  apply (updated_ext _ _ _ _ U). intros a v Hv. cbv beta.
  pose proof (wf_bytes s Hwf a v Hv) as Hbyte.
  assert (Hw : forall p,
    to_uint8 (Z.lor (Z.land v (px_mask y))
                (Z.shiftl (plane_triple c p) (px_shift y)))
    = Z.lor (Z.land v (px_mask y)) (Z.shiftl (plane_triple c p) (px_shift y))).
  { intros p. rewrite (written_px y c p v Hbyte).
    apply (written_ok (px_upper y) v (plane_triple c p) Hbyte
             (plane_triple_range c p)). }
  unfold drawn_byte, hit_plane.
  unfold px_addr.
  repeat match goal with
  | |- context [(?k <? depth s) && (a =? ?P)] =>
      destruct (Z.ltb_spec k (depth s)); destruct (Z.eqb_spec a P); cbn [andb]
  end; try apply Hw; try reflexivity; exfalso; nia.
Qed.
End DrawPixel.

(** ** What fillScreen does to the block *)

Lemma fill_color_cases c p :
  0 <= p ->
  exists r g b : bool,
    r = Z.testbit c (12 + p) /\ g = Z.testbit c (7 + p) /\ b = Z.testbit c (1 + p)
    /\ fill_color c p = 36 * Z.b2z r + 18 * Z.b2z g + 9 * Z.b2z b.
Proof.
  intros Hp.
  exists (Z.testbit c (12 + p)), (Z.testbit c (7 + p)), (Z.testbit c (1 + p)).
  repeat split. unfold fill_color. rewrite !chan_testbit by lia.
  destruct (Z.testbit c (12 + p)), (Z.testbit c (7 + p)), (Z.testbit c (1 + p));
    reflexivity.
Qed.

Lemma fill_color_range c p : 0 <= p -> 0 <= fill_color c p < 64.
Proof.
  intros Hp. destruct (fill_color_cases c p Hp) as (r & g & b & _ & _ & _ & ->).
  destruct r, g, b; simpl; lia.
Qed.

Lemma stamp_ok col :
  0 <= col < 64 ->
  to_uint8 col = col
  /\ to_uint8 (Z.lor (to_uint8 (Z.lor col 64)) 128) = Z.lor (Z.lor col 64) 128
  /\ Z.testbit (Z.lor (Z.lor col 64) 128) 6 = true
  /\ Z.testbit (Z.lor (Z.lor col 64) 128) 7 = true
  /\ Z.testbit col 6 = false /\ Z.testbit col 7 = false
  /\ is_byte (Z.lor (Z.lor col 64) 128).
Proof.
  intros Hc.
  assert (H : stamp_check col = true).
  { apply (range_cases 64 stamp_check); [vm_compute; reflexivity|exact Hc]. }
  unfold stamp_check in H. rewrite !andb_true_iff, !negb_true_iff in H.
  destruct H as [[[[[[H0 H1] H2] H3] H4] H5] H6].
  apply Z.eqb_eq in H0, H1. apply Z.ltb_lt in H6.
  repeat split; try assumption.
  apply Z.lor_nonneg. split; [apply Z.lor_nonneg|]; lia.
Qed.

Ltac case_cmp :=
  repeat match goal with
  | |- context [?a <=? ?b] => destruct (Z.leb_spec a b)
  | |- context [?a <? ?b] => destruct (Z.ltb_spec a b)
  | |- context [?a =? ?b] => destruct (Z.eqb_spec a b)
  end.

Section IterUpd.
Variable s : panel.
Hypothesis Hwf : wf s.
Variable c : Z.

Lemma fill_iter n : forall i a v,
  0 <= i -> i + Z.of_nat n <= depth s ->
  iter_upd (fill_upd s c) n i a v
  = if ((depth s - i - Z.of_nat n) * plane_size s <=? a - back_buffer s)
       && (a - back_buffer s <? (depth s - i) * plane_size s)
    then to_uint8 (fill_color c (depth s - 1 - (a - back_buffer s) / plane_size s))
    else v.
Proof.
  pose proof (plane_size_pos s Hwf) as Hps.
  induction n as [|n IH]; intros i a v Hi Hn.
  - cbn [iter_upd]. case_cmp; cbn [andb]; try reflexivity. exfalso. lia.
  - cbn [iter_upd]. rewrite IH by lia.
    unfold fill_upd at 1, upd_range.
    set (o := a - back_buffer s).
    case_cmp; cbn [andb]; try reflexivity; try (exfalso; unfold o in *; nia).
    do 2 f_equal.
    assert (E : o / plane_size s = depth s - i - 1).
    { symmetry. apply (Z.div_unique_pos o (plane_size s) (depth s - i - 1)
                         (o - (depth s - i - 1) * plane_size s));
        unfold o in *; nia. }
    rewrite E. lia.
Qed.

Variable bits : Z.

Lemma stamp_iter_hit n : forall i j v,
  i <= j < i + Z.of_nat n ->
  iter_upd (stamp_upd s bits) n i (back_buffer s + row_size s * j - 1) v
  = to_uint8 (Z.lor v bits)
  /\ forall a, (forall k, i <= k < i + Z.of_nat n ->
                  a <> back_buffer s + row_size s * k - 1) ->
       iter_upd (stamp_upd s bits) n i a v = v.
Proof.
  pose proof (row_size_pos s Hwf) as Hrs.
  induction n as [|n IH]; intros i j v Hj; [lia|].
  cbn [iter_upd]. split.
  - unfold stamp_upd at 2, upd_at.
    destruct (Z.eqb_spec (back_buffer s + row_size s * j - 1)
                (back_buffer s + row_size s * i - 1)) as [E|NE].
    + assert (j = i) by nia. subst j.
      destruct n as [|n]; [reflexivity|].
      apply (IH (i + 1) (i + 1) _ ltac:(lia)).
      intros k Hk. nia.
    + apply (IH (i + 1) j v). assert (j <> i) by (intros ->; lia). lia.
  - intros a Ha. unfold stamp_upd at 2, upd_at.
    destruct (Z.eqb_spec a (back_buffer s + row_size s * i - 1)) as [E|NE].
    + exfalso. apply (Ha i); [lia|exact E].
    + destruct n as [|n]; [reflexivity|].
      apply (IH (i + 1) (i + 1) v ltac:(lia)).
      intros k Hk. apply Ha. lia.
Qed.
End IterUpd.

Section FillScreen.
Variable s : panel.
Hypothesis Hwf : wf s.

Lemma control_offset_range k :
  1 <= k <= depth s * 16 -> 0 <= k * row_size s - 1 < buffer_size s.
Proof.
  intros Hk. unfold buffer_size. rewrite (plane_rows s Hwf).
  pose proof (row_size_pos s Hwf). nia.
Qed.

Lemma control_iff o :
  0 <= o < buffer_size s -> controlb s o = true <-> is_control s o.
Proof.
  intros Ho. pose proof (row_size_pos s Hwf) as Hrs.
  unfold controlb, is_control. rewrite Z.eqb_eq. split.
  - intros Hmod. exists ((o + 1) / row_size s).
    pose proof (Z.div_mod (o + 1) (row_size s) ltac:(lia)) as E.
    rewrite Hmod in E. unfold buffer_size in Ho.
    rewrite (plane_rows s Hwf) in Ho. split; [nia|nia].
  - intros (k & Hk & ->).
    replace (k * row_size s - 1 + 1) with (k * row_size s) by lia.
    apply Z.mod_mul. lia.
Qed.

Lemma fill_bufSize : to_uint32 (width s * Z.shiftr (height s) 1) = plane_size s.
Proof.
  rewrite Z.shiftr_div_pow2 by lia. change (2 ^ 1) with 2.
  rewrite <- (wf_plane_size s Hwf). unfold to_uint32. apply Z.mod_small.
  pose proof (plane_size_pos s Hwf). rewrite (wf_plane_size s Hwf) in *.
  destruct (wf_width s Hwf) as [HW _]. destruct (wf_height s Hwf) as [HH _].
  destruct (wf_uint16 s Hwf) as [HW16 HH16].
  assert (height s / 2 <= 32768) by (apply Z.div_le_upper_bound; lia).
  nia.
Qed.

Lemma stamp_loop bits m :
  block_size m = block_size (heap s) ->
  exists m',
    for_loop (Z.to_nat (depth s * 16)) 1
      (fun i m => or_into m (back_buffer s + row_size s * i - 1) bits) m = Some m'
    /\ updated m m' (iter_upd (stamp_upd s bits) (Z.to_nat (depth s * 16)) 1).
Proof.
  intros Hsize. pose proof (wf_depth s Hwf) as HD.
  apply (for_loop_updated _ (stamp_upd s bits) (block_size (heap s)) 1
           (depth s * 16 + 1)); [|lia|lia|exact Hsize].
  intros j m0 Hj Hm0. apply or_into_updated. rewrite Hm0.
  pose proof (control_offset_range j ltac:(lia)).
  pose proof (back_buffer_inside s Hwf). lia.
Qed.

Lemma fill_loop c :
  exists m',
    for_loop (Z.to_nat (depth s)) 0
      (fun p m => memset m (back_buffer s + (depth s - p - 1) * plane_size s)
                    (fill_color c p) (plane_size s)) (heap s) = Some m'
    /\ updated (heap s) m' (iter_upd (fill_upd s c) (Z.to_nat (depth s)) 0).
Proof.
  pose proof (wf_depth s Hwf) as HD.
  apply (for_loop_updated _ (fill_upd s c) (block_size (heap s)) 0 (depth s));
    [|lia|lia|reflexivity].
  intros j m0 Hj Hm0. apply memset_updated.
  - pose proof (back_buffer_inside s Hwf). pose proof (plane_size_pos s Hwf). nia.
  - pose proof (plane_size_pos s Hwf). lia.
  - rewrite Hm0. pose proof (back_buffer_inside s Hwf) as [_ H].
    unfold buffer_size in H. pose proof (plane_size_pos s Hwf). nia.
Qed.

Lemma fillScreen_spec c :
  exists m', fillScreen c s = Some (set_heap m' s)
    /\ updated (heap s) m' (filled_byte s c).
Proof.
  pose proof (wf_depth s Hwf) as HD.
  pose proof (row_size_pos s Hwf) as Hrs.
  unfold fillScreen. rewrite fill_bufSize.
  destruct (fill_loop c) as (m1 & E1 & U1). rewrite E1.
  change (Z.shiftl 1 6) with 64. change (Z.shiftl 1 7) with 128.
  destruct (stamp_loop 64 m1 (proj1 U1)) as (m2 & E2 & U2). rewrite E2.
  destruct (stamp_loop 128 m2) as (m3 & E3 & U3).
  { rewrite (proj1 U2). exact (proj1 U1). }
  rewrite E3. exists m3. split; [reflexivity|].
  pose proof (updated_trans _ _ _ _ _ (updated_trans _ _ _ _ _ U1 U2) U3) as U.
  apply (updated_ext _ _ _ _ U). intros a v Hv. cbv beta.
  rewrite fill_iter by (try exact Hwf; lia).
  rewrite Z2Nat.id by lia.
  replace ((depth s - 0 - depth s) * plane_size s) with 0 by lia.
  replace ((depth s - 0) * plane_size s) with (buffer_size s)
    by (unfold buffer_size; lia).
  unfold filled_byte. cbv zeta.
  set (o := a - back_buffer s).
  assert (Hn : Z.of_nat (Z.to_nat (depth s * 16)) = depth s * 16)
    by (apply Z2Nat.id; lia).
  destruct (Z.leb_spec 0 o) as [Ho0|Ho0];
    [destruct (Z.ltb_spec o (buffer_size s)) as [Ho1|Ho1]|]; cbn [andb].
  - assert (Hp : 0 <= depth s - 1 - o / plane_size s).
    { pose proof (plane_size_pos s Hwf) as Hps.
      assert (o / plane_size s < depth s); [|lia].
      apply Z.div_lt_upper_bound; [lia|]. unfold buffer_size in Ho1. lia. }
    destruct (stamp_ok _ (fill_color_range c _ Hp)) as (S0 & S1 & _).
    rewrite S0.
    destruct (controlb s o) eqn:Hc.
    + apply (control_iff o ltac:(lia)) in Hc. destruct Hc as (k & Hk & Ek).
      assert (Ea : a = back_buffer s + row_size s * k - 1) by (unfold o in Ek; lia).
      rewrite Ea.
      rewrite (proj1 (stamp_iter_hit s Hwf 64 (Z.to_nat (depth s * 16)) 1 k _ ltac:(lia))).
      rewrite (proj1 (stamp_iter_hit s Hwf 128 (Z.to_nat (depth s * 16)) 1 k _ ltac:(lia))).
      exact S1.
    + assert (Hmiss : forall k, 1 <= k < 1 + Z.of_nat (Z.to_nat (depth s * 16)) ->
                a <> back_buffer s + row_size s * k - 1).
      { intros k Hk Ea.
        assert (Hctl : controlb s o = true); [|congruence].
        apply (control_iff o ltac:(lia)). exists k. split; [lia|].
        unfold o. lia. }
      rewrite (proj2 (stamp_iter_hit s Hwf 64 (Z.to_nat (depth s * 16)) 1 1 _ ltac:(lia)) a Hmiss).
      rewrite (proj2 (stamp_iter_hit s Hwf 128 (Z.to_nat (depth s * 16)) 1 1 _ ltac:(lia)) a Hmiss).
      reflexivity.
  - assert (Hmiss : forall k, 1 <= k < 1 + Z.of_nat (Z.to_nat (depth s * 16)) ->
              a <> back_buffer s + row_size s * k - 1).
    { intros k Hk Ea. pose proof (control_offset_range k ltac:(lia)).
      unfold o in Ho1. lia. }
    rewrite (proj2 (stamp_iter_hit s Hwf 64 (Z.to_nat (depth s * 16)) 1 1 _ ltac:(lia)) a Hmiss).
    rewrite (proj2 (stamp_iter_hit s Hwf 128 (Z.to_nat (depth s * 16)) 1 1 _ ltac:(lia)) a Hmiss).
    reflexivity.
  - assert (Hmiss : forall k, 1 <= k < 1 + Z.of_nat (Z.to_nat (depth s * 16)) ->
              a <> back_buffer s + row_size s * k - 1).
    { intros k Hk Ea. pose proof (control_offset_range k ltac:(lia)).
      unfold o in Ho0. lia. }
    rewrite (proj2 (stamp_iter_hit s Hwf 64 (Z.to_nat (depth s * 16)) 1 1 _ ltac:(lia)) a Hmiss).
    rewrite (proj2 (stamp_iter_hit s Hwf 128 (Z.to_nat (depth s * 16)) 1 1 _ ltac:(lia)) a Hmiss).
    reflexivity.
Qed.
End FillScreen.

(** ** The block is the only field that drawPixel and fillScreen change *)

Lemma write_planes_set_heap s y_int x mask sh c s' :
  write_planes s y_int x mask sh c = Some s' -> exists m, s' = set_heap m s.
Proof.
  unfold write_planes.
  destruct (plane_block s 0 _ _ _ _ _) as [m0|]; [|discriminate].
  destruct (plane_block s 1 _ _ _ _ _) as [m1|]; [|discriminate].
  destruct (plane_block s 2 _ _ _ _ _) as [m2|]; [|discriminate].
  destruct (plane_block s 3 _ _ _ _ _) as [m3|]; [|discriminate].
  intros E. inversion E. eauto.
Qed.

Lemma set_heap_id s : set_heap (heap s) s = s.
Proof. destruct s; reflexivity. Qed.

Lemma drawPixel_set_heap x y c s s' :
  drawPixel x y c s = Some s' -> exists m, s' = set_heap m s.
Proof.
  unfold drawPixel.
  destruct ((0 <=? y) && (0 <=? x) && (y <? height s) && (x <? width s)).
  - destruct (Z.rem (to_uint16 (Z.shiftr y 5)) 2 =? 0); cbv zeta iota beta;
      match goal with
      | |- context [?a <? 16] => destruct (a <? 16)
      end; apply write_planes_set_heap.
  - intros E. inversion E. exists (heap s'). symmetry. apply set_heap_id.
Qed.

Lemma fillScreen_set_heap c s s' :
  fillScreen c s = Some s' -> exists m, s' = set_heap m s.
Proof.
  unfold fillScreen. cbv zeta.
  destruct (for_loop (Z.to_nat (depth s)) 0 _ (heap s)) as [m1|]; [|discriminate].
  destruct (for_loop (Z.to_nat (depth s * 16)) 1 _ m1) as [m2|]; [|discriminate].
  destruct (for_loop (Z.to_nat (depth s * 16)) 1 _ m2) as [m3|]; [|discriminate].
  intros E. inversion E. eauto.
Qed.

(** ** The invariant of the frame buffers and its preservation *)

Lemma wf_set_heap s m' f :
  wf s -> updated (heap s) m' f ->
  (forall a v, load (heap s) a = Some v -> is_byte (f a v)) ->
  wf (set_heap m' s).
Proof.
  intros Hwf [Hlen Hupd] Hbyte.
  destruct Hwf as [HW HH HD Hrs Hps H16 Hblk Hbuf Hbytes].
  constructor; cbn; try assumption.
  - rewrite Hlen. exact Hblk.
  - intros a v' Hv'.
    destruct (load (heap s) a) as [v|] eqn:Hv.
    + rewrite (Hupd a v Hv) in Hv'. inversion Hv'; subst. exact (Hbyte a v Hv).
    + apply load_Some_inside in Hv'. rewrite Hlen in Hv'.
      destruct (load_inside _ _ Hv') as [w Hw]. congruence.
Qed.

Lemma wf_same_frame s s' : wf s -> same_frame s s' -> wf s'.
Proof.
  intros Hwf (EW & EH & ED & Ers & Eps & Edb & Eheap & Ebuf).
  destruct Hwf as [HW HH HD Hrs Hps H16 Hblk Hbuf Hbytes].
  constructor; unfold buffer_size in *;
    rewrite ?EW, ?EH, ?ED, ?Ers, ?Eps, ?Edb, ?Eheap; try assumption.
  destruct (double_buffer_enabled s); lia.
Qed.

Lemma control_bits_same_heap s s' base :
  depth s' = depth s -> row_size s' = row_size s ->
  plane_size s' = plane_size s -> heap s' = heap s ->
  control_bits_ok s base -> control_bits_ok s' base.
Proof.
  intros ED Ers Eps Eheap [Hset Hclear].
  unfold control_bits_ok, is_control, buffer_size in *.
  rewrite ED, Ers, Eps, Eheap. split; assumption.
Qed.

Lemma frame_ok_same_frame s s' : frame_ok s -> same_frame s s' -> frame_ok s'.
Proof.
  intros (Hwf & Hf & Hb) Hsame. split; [exact (wf_same_frame s s' Hwf Hsame)|].
  destruct Hsame as (EW & EH & ED & Ers & Eps & Edb & Eheap & [[-> ->] | [-> ->]]);
    split; apply (control_bits_same_heap s s'); assumption.
Qed.

(** An update that keeps bits 6 and 7 of every byte keeps the control
    bytes of every buffer. *)
Lemma control_bits_kept s m' f base :
  updated (heap s) m' f ->
  (forall a v, load (heap s) a = Some v ->
     Z.testbit (f a v) 6 = Z.testbit v 6 /\ Z.testbit (f a v) 7 = Z.testbit v 7) ->
  control_bits_ok s base -> control_bits_ok (set_heap m' s) base.
Proof.
  intros [_ Hupd] Hkeep [Hset Hclear]. split.
  - intros k Hk. destruct (Hset k Hk) as (v & Hv & H6 & H7).
    exists (f (base + (k * row_size s - 1)) v).
    destruct (Hkeep _ _ Hv) as [K6 K7].
    split; [exact (Hupd _ _ Hv)|]. rewrite K6, K7. auto.
  - intros o Ho Hnc. destruct (Hclear o Ho Hnc) as (v & Hv & H6 & H7).
    exists (f (base + o) v).
    destruct (Hkeep _ _ Hv) as [K6 K7].
    split; [exact (Hupd _ _ Hv)|]. rewrite K6, K7. auto.
Qed.

Lemma drawPixel_outside x y c s :
  ~ (0 <= x < width s /\ 0 <= y < height s) -> drawPixel x y c s = Some s.
Proof.
  intros Hout. unfold drawPixel.
  destruct (Z.leb_spec 0 y), (Z.leb_spec 0 x), (Z.ltb_spec y (height s)),
    (Z.ltb_spec x (width s)); cbn [andb]; try reflexivity.
  exfalso. apply Hout. lia.
Qed.


(** Wherever it lands, a write of [drawPixel] keeps a byte a byte and
    keeps its bits 6 and 7. *)
Lemma keeps_control_id : keeps_control (fun _ v => v).
Proof. intros a v Hv. auto. Qed.

Lemma keeps_control_comp f g :
  keeps_control f -> keeps_control g ->
  keeps_control (fun a v => g a (f a v)).
Proof.
  intros Hf Hg a v Hv. destruct (Hf a v Hv) as (Fb & F6 & F7).
  destruct (Hg a (f a v) Fb) as (Gb & G6 & G7).
  split; [exact Gb|]. split; congruence.
Qed.

Lemma keeps_control_written upper (cond : Z -> bool) t :
  0 <= t < 8 ->
  keeps_control (fun a v => if cond a then to_uint8 (written upper v t) else v).
Proof.
  intros Ht a v Hv. destruct (cond a); [|auto].
  destruct (written_ok upper v t Hv Ht) as (Hb & -> & H6 & H7 & _). auto.
Qed.

Lemma plane_block_Some s k y_int x mask bits m m' :
  plane_block s k y_int x mask bits m = Some m' ->
  updated m m'
    (fun a v =>
       if (k <? depth s)
          && (a =? back_buffer s + k * plane_size s + y_int * row_size s + x)
       then to_uint8 (Z.lor (Z.land v mask) bits) else v).
Proof.
  intros E.
  destruct (plane_block_updated s k y_int x mask bits m _ eq_refl)
    as (m'' & E' & U).
  - intros Hk. unfold plane_block in E.
    destruct (Z.ltb_spec k (depth s)); [|lia].
    unfold rmw in E. destruct (load m _) as [v|] eqn:Hv; [|discriminate].
    eapply load_Some_inside; eassumption.
  - assert (m'' = m') by congruence. subst m''. exact U.
Qed.

Lemma write_planes_kept s y_int x c (upper : bool) s' :
  write_planes s y_int x (if upper then 199 else 248) (if upper then 3 else 0) c
  = Some s' ->
  exists m' f, s' = set_heap m' s /\ updated (heap s) m' f /\ keeps_control f.
Proof.
  assert (Hsh : (if upper then 3 else 0) = 0 \/ (if upper then 3 else 0) = 3)
    by (destruct upper; auto).
  destruct (triple_plane c _ Hsh) as (T0 & T1 & T2 & T3).
  unfold write_planes. rewrite T0, T1, T2, T3.
  destruct (plane_block s 0 _ _ _ _ _) as [m0|] eqn:E0; [|discriminate].
  destruct (plane_block s 1 _ _ _ _ _) as [m1|] eqn:E1; [|discriminate].
  destruct (plane_block s 2 _ _ _ _ _) as [m2|] eqn:E2; [|discriminate].
  destruct (plane_block s 3 _ _ _ _ _) as [m3|] eqn:E3; [|discriminate].
  intros E. inversion E; subst s'. clear E.
  apply plane_block_Some in E0, E1, E2, E3.
  eexists m3, _. split; [reflexivity|]. split.
  - exact (updated_trans _ _ _ _ _
             (updated_trans _ _ _ _ _ (updated_trans _ _ _ _ _ E0 E1) E2) E3).
  - pose proof (fun k =>
        keeps_control_written upper
          (fun a => (k <? depth s)
                    && (a =? back_buffer s + k * plane_size s
                             + y_int * row_size s + x))
          (plane_triple c k) (plane_triple_range c k)) as K.
    exact (keeps_control_comp _ _
             (keeps_control_comp _ _ (keeps_control_comp _ _ (K 0) (K 1)) (K 2))
             (K 3)).
Qed.

Lemma drawPixel_kept x y c s s' :
  drawPixel x y c s = Some s' ->
  exists m' f, s' = set_heap m' s /\ updated (heap s) m' f /\ keeps_control f.
Proof.
  unfold drawPixel.
  destruct ((0 <=? y) && (0 <=? x) && (y <? height s) && (x <? width s)).
  - destruct (Z.rem (to_uint16 (Z.shiftr y 5)) 2 =? 0); cbv zeta iota beta;
      match goal with
      | |- context [?a <? 16] => destruct (a <? 16)
      end;
      first [apply (write_planes_kept s _ _ c true)
            | apply (write_planes_kept s _ _ c false)].
  - intros E. inversion E; subst s'.
    exists (heap s), (fun _ v => v). split; [symmetry; apply set_heap_id|].
    split; [apply updated_refl|apply keeps_control_id].
Qed.

Lemma drawPixel_frame_keeps x y c s s' :
  frame_ok s -> drawPixel x y c s = Some s' -> frame_ok s'.
Proof.
  intros (Hwf & Hf & Hb) E.
  destruct (drawPixel_kept x y c s s' E) as (m' & f & -> & U & Hk).
  assert (Hkeep : forall a v, load (heap s) a = Some v ->
            Z.testbit (f a v) 6 = Z.testbit v 6
            /\ Z.testbit (f a v) 7 = Z.testbit v 7).
  { intros a v Hv. apply Hk. exact (wf_bytes s Hwf a v Hv). }
  split; [|split].
  - apply (wf_set_heap s m' f Hwf U). intros a v Hv.
    apply Hk. exact (wf_bytes s Hwf a v Hv).
  - exact (control_bits_kept s m' f _ U Hkeep Hf).
  - exact (control_bits_kept s m' f _ U Hkeep Hb).
Qed.

(** [drawPixel] stays in the block when the [int16_t] column can index
    the row. *)
Lemma drawPixel_defined x y c s :
  wf s -> row_size s <= 32768 -> exists s', drawPixel x y c s = Some s'.
Proof.
  intros Hwf H16.
  destruct (Z_lt_dec x 0) as [|Hx0];
    [exists s; apply drawPixel_outside; lia|].
  destruct (Z_lt_dec x (width s)) as [Hx1|];
    [|exists s; apply drawPixel_outside; lia].
  destruct (Z_lt_dec y 0) as [|Hy0];
    [exists s; apply drawPixel_outside; lia|].
  destruct (Z_lt_dec y (height s)) as [Hy1|];
    [|exists s; apply drawPixel_outside; lia].
  destruct (drawPixel_spec s Hwf H16 x y ltac:(lia) ltac:(lia) c) as (m' & E & _).
  eauto.
Qed.
Section FillInvariant.
Variable s : panel.
Hypothesis Hwf : wf s.
Variable c : Z.

Lemma plane_index_range o :
  0 <= o < buffer_size s -> 0 <= o / plane_size s < depth s.
Proof.
  intros Ho. pose proof (plane_size_pos s Hwf) as Hps. split.
  - apply Z.div_pos; lia.
  - apply Z.div_lt_upper_bound; [lia|]. unfold buffer_size in Ho. lia.
Qed.

Lemma filled_byte_inside o v :
  0 <= o < buffer_size s ->
  filled_byte s c (back_buffer s + o) v
  = if controlb s o
    then Z.lor (Z.lor (fill_color c (depth s - 1 - o / plane_size s)) 64) 128
    else fill_color c (depth s - 1 - o / plane_size s).
Proof.
  intros Ho. unfold filled_byte. cbv zeta.
  replace (back_buffer s + o - back_buffer s) with o by lia.
  destruct (Z.leb_spec 0 o); [|lia].
  destruct (Z.ltb_spec o (buffer_size s)); [|lia]. reflexivity.
Qed.

Lemma filled_byte_outside a v :
  ~ (back_buffer s <= a < back_buffer s + buffer_size s) ->
  filled_byte s c a v = v.
Proof.
  intros Ha. unfold filled_byte. cbv zeta.
  destruct (Z.leb_spec 0 (a - back_buffer s));
    destruct (Z.ltb_spec (a - back_buffer s) (buffer_size s));
    cbn [andb]; try reflexivity.
  exfalso. apply Ha. lia.
Qed.

Lemma filled_byte_is_byte a v : is_byte v -> is_byte (filled_byte s c a v).
Proof.
  intros Hv.
  destruct (Z_le_dec (back_buffer s) a) as [H0|H0];
    [destruct (Z_lt_dec a (back_buffer s + buffer_size s)) as [H1|H1]|];
    try (rewrite filled_byte_outside by lia; exact Hv).
  replace a with (back_buffer s + (a - back_buffer s)) by lia.
  rewrite filled_byte_inside by lia.
  pose proof (plane_index_range (a - back_buffer s) ltac:(lia)) as Hp.
  destruct (stamp_ok _ (fill_color_range c
              (depth s - 1 - (a - back_buffer s) / plane_size s) ltac:(lia)))
    as (_ & _ & _ & _ & _ & _ & Hb).
  destruct (controlb s (a - back_buffer s)); [exact Hb|].
  pose proof (fill_color_range c
                (depth s - 1 - (a - back_buffer s) / plane_size s) ltac:(lia)).
  unfold is_byte. lia.
Qed.

Variable m' : list Z.
Hypothesis Hupd : updated (heap s) m' (filled_byte s c).

Lemma fill_wf : wf (set_heap m' s).
Proof.
  apply (wf_set_heap s m' _ Hwf Hupd). intros a v Hv.
  apply filled_byte_is_byte. exact (wf_bytes s Hwf a v Hv).
Qed.

Lemma fill_back_ok : control_bits_ok (set_heap m' s) (back_buffer s).
Proof.
  pose proof (back_buffer_inside s Hwf) as Hback. split.
  - intros k Hk. cbn in Hk.
    pose proof (control_offset_range s Hwf k Hk) as Ho.
    destruct (load_inside (heap s) (back_buffer s + (k * row_size s - 1))
                ltac:(lia)) as [v Hv].
    pose proof (proj2 Hupd _ _ Hv) as Hv'.
    rewrite filled_byte_inside in Hv' by exact Ho.
    assert (Hc : controlb s (k * row_size s - 1) = true)
      by (apply (control_iff s Hwf _ Ho); exists k; auto).
    rewrite Hc in Hv'.
    pose proof (plane_index_range _ Ho) as Hp.
    destruct (stamp_ok _ (fill_color_range c
                (depth s - 1 - (k * row_size s - 1) / plane_size s) ltac:(lia)))
      as (_ & _ & H6 & H7 & _).
    eexists. split; [exact Hv'|]. split; assumption.
  - intros o Ho Hnc. change (buffer_size (set_heap m' s)) with (buffer_size s) in Ho.
    destruct (load_inside (heap s) (back_buffer s + o) ltac:(lia)) as [v Hv].
    pose proof (proj2 Hupd _ _ Hv) as Hv'.
    rewrite filled_byte_inside in Hv' by exact Ho.
    assert (Hc : controlb s o = false).
    { destruct (controlb s o) eqn:E; [|reflexivity].
      exfalso. apply Hnc. apply (control_iff s Hwf o Ho) in E. exact E. }
    rewrite Hc in Hv'.
    pose proof (plane_index_range _ Ho) as Hp.
    destruct (stamp_ok _ (fill_color_range c
                (depth s - 1 - o / plane_size s) ltac:(lia)))
      as (_ & _ & _ & _ & H6 & H7 & _).
    eexists. split; [exact Hv'|]. split; assumption.
Qed.

Lemma fill_other_ok base :
  base + buffer_size s <= back_buffer s \/ back_buffer s + buffer_size s <= base ->
  control_bits_ok s base -> control_bits_ok (set_heap m' s) base.
Proof.
  intros Hapart [Hset Hclear]. split.
  - intros k Hk. cbn in Hk. destruct (Hset k Hk) as (v & Hv & H6 & H7).
    pose proof (control_offset_range s Hwf k Hk) as Ho.
    pose proof (proj2 Hupd _ _ Hv) as Hv'.
    rewrite filled_byte_outside in Hv' by lia.
    exists v. split; [exact Hv'|]. split; assumption.
  - intros o Ho Hnc. change (buffer_size (set_heap m' s)) with (buffer_size s) in Ho.
    destruct (Hclear o Ho Hnc) as (v & Hv & H6 & H7).
    pose proof (proj2 Hupd _ _ Hv) as Hv'.
    rewrite filled_byte_outside in Hv' by lia.
    exists v. split; [exact Hv'|]. split; assumption.
Qed.
End FillInvariant.

Lemma fillScreen_frame_ok c s :
  frame_ok s -> exists s', fillScreen c s = Some s' /\ frame_ok s'.
Proof.
  intros (Hwf & Hf & Hb).
  destruct (fillScreen_spec s Hwf c) as (m' & E & U).
  exists (set_heap m' s). split; [exact E|]. split; [|split].
  - exact (fill_wf s Hwf c m' U).
  - change (front_buffer (set_heap m' s)) with (front_buffer s).
    destruct (buffers_apart s Hwf) as [Eq|Hapart].
    + rewrite Eq. exact (fill_back_ok s Hwf c m' U).
    + apply (fill_other_ok s Hwf c m' U); [lia|exact Hf].
  - exact (fill_back_ok s Hwf c m' U).
Qed.

(** ** The buffers of a fresh panel *)

Lemma fill_color_zero p : fill_color 0 p = 0.
Proof.
  unfold fill_color, chan. rewrite !Z.land_0_l, !Z.shiftr_0_l. reflexivity.
Qed.

Section FillBlank.
Variable s : panel.
Hypothesis Hwf : wf s.
Variable m' : list Z.
Hypothesis Hupd : updated (heap s) m' (filled_byte s 0).

Lemma fill_blank : blank (set_heap m' s) (back_buffer s).
Proof.
  intros o Ho. change (buffer_size (set_heap m' s)) with (buffer_size s) in Ho.
  pose proof (back_buffer_inside s Hwf) as Hback.
  destruct (load_inside (heap s) (back_buffer s + o) ltac:(lia)) as [v Hv].
  pose proof (proj2 Hupd _ _ Hv) as Hv'.
  rewrite (filled_byte_inside s 0 o v Ho), fill_color_zero in Hv'.
  change (controlb (set_heap m' s) o) with (controlb s o).
  destruct (controlb s o); exact Hv'.
Qed.

Lemma fill_other_blank base :
  base + buffer_size s <= back_buffer s \/ back_buffer s + buffer_size s <= base ->
  blank s base -> blank (set_heap m' s) base.
Proof.
  intros Hapart Hblank o Ho.
  change (buffer_size (set_heap m' s)) with (buffer_size s) in Ho.
  pose proof (proj2 Hupd _ _ (Hblank o Ho)) as Hv'.
  rewrite filled_byte_outside in Hv' by lia. exact Hv'.
Qed.
End FillBlank.

Lemma blank_same_heap s s' base :
  depth s' = depth s -> row_size s' = row_size s ->
  plane_size s' = plane_size s -> heap s' = heap s ->
  blank s base -> blank s' base.
Proof.
  intros ED Ers Eps Eheap Hblank o Ho.
  unfold buffer_size, controlb in *. rewrite ED, Eps in Ho.
  rewrite Eheap, Ers. exact (Hblank o Ho).
Qed.

(** ** The operations that leave the block alone *)

Lemma swapBuffers_same_frame s : same_frame s (swapBuffers s).
Proof.
  unfold swapBuffers, same_frame.
  destruct (double_buffer_enabled s) eqn:E; cbn; rewrite ?E; auto 10.
Qed.

Lemma resync_same_frame s : same_frame s (resync s).
Proof. unfold same_frame; cbn; auto 10. Qed.

Lemma rowCompleteCallback_same_frame s : same_frame s (rowCompleteCallback s).
Proof. unfold same_frame; cbn; auto 10. Qed.

Lemma updateDisplay_same_frame s : same_frame s (snd (updateDisplay s)).
Proof.
  unfold updateDisplay, same_frame.
  destruct (row s =? 15), (plane s =? depth s - 1), (resync_flag s),
    (swap_requested s); cbn; auto 10.
Qed.

(** The driver that [begin] leaves does not depend on the timers. *)
Lemma begin_panel t s :
  snd (snd (begin t s))
  = resync
      (mkPanel (width s) (height s) (depth s) (row_size s) (plane_size s)
         (double_buffer_enabled s) (heap s) (front_buffer s) (back_buffer s)
         (swap_requested s) (resync_flag s) 15 (to_uint16 (depth s - 1)) 0).
Proof.
  unfold begin, displayTimer_begin.
  destruct (in_use t TIMER3); cbn; [|reflexivity].
  destruct (in_use t TIMER4); cbn; [|reflexivity].
  destruct (in_use t TIMER5); cbn; [|reflexivity].
  destruct (in_use t TIMER6); cbn; [|reflexivity].
  destruct (in_use t TIMER7); cbn; reflexivity.
Qed.

Lemma begin_same_frame t s : same_frame s (snd (snd (begin t s))).
Proof. rewrite begin_panel. unfold same_frame; cbn; auto 10. Qed.

(** ** Geometry along a run *)

Lemma same_shape_refl s : same_shape s s.
Proof. unfold same_shape; auto 10. Qed.

Lemma same_shape_trans s1 s2 s3 :
  same_shape s1 s2 -> same_shape s2 s3 -> same_shape s1 s3.
Proof.
  unfold same_shape. intros (A1 & A2 & A3 & A4 & A5 & A6) (B1 & B2 & B3 & B4 & B5 & B6).
  repeat split; congruence.
Qed.

Lemma same_frame_shape s s' : same_frame s s' -> same_shape s s'.
Proof. unfold same_frame, same_shape. intros (A1 & A2 & A3 & A4 & A5 & A6 & _). auto 10. Qed.

Lemma same_shape_set_heap m s : same_shape s (set_heap m s).
Proof. unfold same_shape; cbn; auto 10. Qed.

Lemma step_shape o s s' : step o s = Some s' -> same_shape s s'.
Proof.
  destruct o as [x y c|c| | |t| |]; cbn [step]; intros E.
  - destruct (drawPixel_set_heap _ _ _ _ _ E) as [m ->]. apply same_shape_set_heap.
  - destruct (fillScreen_set_heap _ _ _ E) as [m ->]. apply same_shape_set_heap.
  - inversion E. apply same_frame_shape, swapBuffers_same_frame.
  - inversion E. apply same_frame_shape, resync_same_frame.
  - inversion E. apply same_frame_shape, begin_same_frame.
  - inversion E. apply same_frame_shape, updateDisplay_same_frame.
  - inversion E. apply same_frame_shape, rowCompleteCallback_same_frame.
Qed.

Lemma run_shape os : forall s s', run os s = Some s' -> same_shape s s'.
Proof.
  induction os as [|o os IH]; intros s s' E; cbn [run] in E.
  - inversion E. apply same_shape_refl.
  - destruct (step o s) as [s1|] eqn:E1; [|discriminate].
    exact (same_shape_trans _ _ _ (step_shape _ _ _ E1) (IH _ _ E)).
Qed.


(** ** The invariant along a run *)

Lemma step_frame_keeps o s s' :
  frame_ok s -> step o s = Some s' -> frame_ok s'.
Proof.
  intros Hok. destruct o as [x y c|c| | |t| |]; cbn [step]; intros E.
  - exact (drawPixel_frame_keeps x y c s s' Hok E).
  - destruct (fillScreen_frame_ok c s Hok) as (s'' & E' & Hok').
    assert (s'' = s') by congruence. subst s''. exact Hok'.
  - inversion E. exact (frame_ok_same_frame _ _ Hok (swapBuffers_same_frame s)).
  - inversion E. exact (frame_ok_same_frame _ _ Hok (resync_same_frame s)).
  - inversion E. exact (frame_ok_same_frame _ _ Hok (begin_same_frame t s)).
  - inversion E. exact (frame_ok_same_frame _ _ Hok (updateDisplay_same_frame s)).
  - inversion E.
    exact (frame_ok_same_frame _ _ Hok (rowCompleteCallback_same_frame s)).
Qed.

Lemma step_defined o s :
  frame_ok s -> row_size s <= 32768 -> exists s', step o s = Some s'.
Proof.
  intros Hok H16. destruct o as [x y c|c| | |t| |]; cbn [step]; eauto.
  - destruct Hok as (Hwf & _ & _). exact (drawPixel_defined x y c s Hwf H16).
  - destruct (fillScreen_frame_ok c s Hok) as (s' & E & _). eauto.
Qed.

Lemma run_frame_keeps os : forall s s',
  frame_ok s -> run os s = Some s' -> frame_ok s'.
Proof.
  induction os as [|o os IH]; intros s s' Hok E; cbn [run] in E.
  - inversion E; subst. exact Hok.
  - destruct (step o s) as [s1|] eqn:E1; [|discriminate].
    exact (IH s1 s' (step_frame_keeps o s s1 Hok E1) E).
Qed.

Lemma run_defined os : forall s,
  frame_ok s -> row_size s <= 32768 -> exists s', run os s = Some s'.
Proof.
  induction os as [|o os IH]; intros s Hok H16; cbn [run]; [eauto|].
  destruct (step_defined o s Hok H16) as (s1 & E1). rewrite E1.
  apply IH; [exact (step_frame_keeps o s s1 Hok E1)|].
  destruct (step_shape o s s1 E1) as (_ & _ & _ & -> & _). exact H16.
Qed.
(** ** Construction *)

Lemma malloc_block e n blk :
  0 <= n -> malloc e n = Some blk ->
  block_size blk = n /\ forall a v, load blk a = Some v -> is_byte v.
Proof.
  intros Hn. unfold malloc. destruct (n <=? avail e); [|discriminate].
  intros E. inversion E; subst blk. clear E. split.
  - unfold block_size. rewrite length_map, length_seq. lia.
  - intros a v Hv. unfold load in Hv.
    destruct (0 <=? a); [|discriminate].
    assert (Hin : v ∈ map (fun i => to_uint8 (junk e i)) (seq 0 (Z.to_nat n)))
      by (apply list_elem_of_lookup; eauto).
    apply list_elem_of_In, in_map_iff in Hin. destruct Hin as (i & <- & _).
    unfold is_byte, to_uint8. apply Z.mod_pos_bound. lia.
Qed.

Lemma half_rows W H : H mod 32 = 0 -> W * (H / 2) = 16 * (W * (H / 32)).
Proof.
  intros Hm. pose proof (Z.div_mod H 32 ltac:(lia)) as E.
  assert (E2 : H / 2 = 16 * (H / 32)).
  { rewrite E at 1. rewrite Hm.
    replace (32 * (H / 32) + 0) with ((16 * (H / 32)) * 2) by lia.
    apply Z.div_mul. lia. }
  rewrite E2. lia.
Qed.

Lemma set_cursor_same_frame sw r p s : same_frame s (set_cursor sw r p s).
Proof. unfold same_frame; cbn; auto 10. Qed.

Lemma exchange_same_frame s :
  same_frame s (set_buffers (heap s) (back_buffer s) (front_buffer s) s).
Proof. unfold same_frame; cbn; auto 10. Qed.


(** [init] returns 0 only when [malloc] gave a block and each
    [fillScreen] stayed in it. *)
Lemma init_inv e r s :
  init e r = Some s ->
  exists blk,
    malloc e (to_uint32 (if double_buffer_enabled r
                         then 2 * depth r * plane_size r
                         else depth r * plane_size r)) = Some blk
    /\ if double_buffer_enabled r
       then exists s1 s2,
         fillScreen 0
           (set_buffers blk 0
              (0 + Z.shiftr (to_uint32 (2 * depth r * plane_size r)) 1) r)
         = Some s1
         /\ fillScreen 0
              (set_buffers (heap s1) (back_buffer s1) (front_buffer s1) s1)
            = Some s2
         /\ s = set_cursor false 15 (to_uint16 (depth s2 - 1)) s2
       else exists s1,
         fillScreen 0 (set_buffers blk 0 0 r) = Some s1
         /\ s = set_cursor false 15 (to_uint16 (depth s1 - 1)) s1.
Proof.
  unfold init. cbv zeta. intros E.
  destruct (malloc e _) as [blk|]; [|discriminate].
  exists blk. split; [reflexivity|].
  destruct (double_buffer_enabled r).
  - destruct (fillScreen 0 _) as [s1|] eqn:E1; [|discriminate].
    destruct (fillScreen 0 (set_buffers _ _ _ s1)) as [s2|] eqn:E2; [|discriminate].
    inversion E. eauto.
  - destruct (fillScreen 0 _) as [s1|] eqn:E1; [|discriminate].
    inversion E. eauto.
Qed.

(** What [fillScreen] needs to stay in the block: room for the plane it
    fills first, and a byte before the end of the first row. *)
Lemma fillScreen_room c s s' :
  fillScreen c s = Some s' -> 1 <= depth s ->
  back_buffer s + (depth s - 1) * plane_size s
    + to_uint32 (width s * Z.shiftr (height s) 1) <= block_size (heap s)
  /\ 0 <= back_buffer s + row_size s - 1.
Proof.
  intros E HD. unfold fillScreen in E. cbv zeta in E.
  destruct (Z.to_nat (depth s)) as [|n] eqn:En; [lia|].
  cbn [for_loop] in E.
  destruct (memset (heap s) _ _ _) as [m0|] eqn:Em; [|discriminate].
  destruct (for_loop n _ _ m0) as [m1|]; [|discriminate].
  destruct (Z.to_nat (depth s * 16)) as [|n2] eqn:En2; [lia|].
  cbn [for_loop] in E.
  destruct (or_into m1 _ _) as [m2|] eqn:Eo; [|discriminate].
  split.
  - unfold memset in Em.
    destruct (Z.leb_spec 0 (back_buffer s + (depth s - 0 - 1) * plane_size s));
      [|discriminate].
    destruct (Z.leb_spec 0 (to_uint32 (width s * Z.shiftr (height s) 1)));
      [|discriminate].
    destruct (Z.leb_spec
                (back_buffer s + (depth s - 0 - 1) * plane_size s
                 + to_uint32 (width s * Z.shiftr (height s) 1))
                (Z.of_nat (length (heap s)))); [|discriminate].
    unfold block_size. lia.
  - unfold or_into in Eo.
    destruct (load m1 _) as [v|] eqn:Hv; [|discriminate].
    apply load_Some_inside in Hv. lia.
Qed.

Section Init.
Variable e : environment.
Variable r : panel.
Hypothesis HW : 0 < width r /\ width r mod 32 = 0.
Hypothesis HH : 0 < height r /\ height r mod 32 = 0.
Hypothesis HD : 1 <= depth r <= 4.
Hypothesis Hrs : row_size r = width r * (height r / 32).
Hypothesis Hps : plane_size r = width r * (height r / 2).
Hypothesis H16 : width r < 65536 /\ height r < 65536.
Hypothesis Hroom :
  (if double_buffer_enabled r then 2 else 1) * buffer_size r < 4294967296.

Lemma init_plane_size : 0 < plane_size r.
Proof.
  rewrite Hps, (half_rows _ _ (proj2 HH)).
  pose proof (Z.div_mod (height r) 32 ltac:(lia)). nia.
Qed.

Lemma init_bufSize :
  to_uint32 (if double_buffer_enabled r
             then 2 * depth r * plane_size r
             else depth r * plane_size r)
  = (if double_buffer_enabled r then 2 else 1) * buffer_size r.
Proof.
  pose proof init_plane_size. unfold to_uint32, buffer_size in *.
  destruct (double_buffer_enabled r); rewrite Z.mod_small; nia.
Qed.

Lemma init_wf blk front back :
  block_size blk = (if double_buffer_enabled r then 2 else 1) * buffer_size r ->
  (forall a v, load blk a = Some v -> is_byte v) ->
  (if double_buffer_enabled r
   then (front = 0 /\ back = buffer_size r) \/ (front = buffer_size r /\ back = 0)
   else front = 0 /\ back = 0) ->
  wf (set_buffers blk front back r).
Proof. intros Hblk Hbytes Hbuf. constructor; cbn; assumption. Qed.

(** A panel that [init] returns has its buffers blank, that is, zero but
    for the control bits of the last byte of each row. *)
Lemma init_frame_ok s :
  init e r = Some s ->
  frame_ok s
  /\ blank s (front_buffer s) /\ blank s (back_buffer s)
  /\ width s = width r /\ height s = height r /\ depth s = depth r
  /\ double_buffer_enabled s = double_buffer_enabled r
  /\ swap_requested s = false /\ row s = 15 /\ plane s = depth r - 1.
Proof.
  intros Hinit. pose proof init_plane_size as Hpsr.
  destruct (init_inv e r s Hinit) as (blk & Em & Hfill).
  rewrite init_bufSize in Em.
  assert (Hn : 0 <= (if double_buffer_enabled r then 2 else 1) * buffer_size r)
    by (unfold buffer_size; destruct (double_buffer_enabled r); nia).
  destruct (malloc_block e _ blk Hn Em) as [Hsize Hbytes].
  assert (Hcur : to_uint16 (depth r - 1) = depth r - 1)
    by (unfold to_uint16; apply Z.mod_small; lia).
  pose proof init_bufSize as Hbuf.
  destruct (double_buffer_enabled r) eqn:Edb.
  - destruct Hfill as (s1 & s2 & F1 & F2 & ->).
    assert (Hhalf : 0 + Z.shiftr (to_uint32 (2 * depth r * plane_size r)) 1
                    = buffer_size r).
    { rewrite Hbuf, Z.shiftr_div_pow2 by lia. change (2 ^ 1) with 2.
      rewrite Z.mul_comm, Z.div_mul; lia. }
    rewrite Hhalf in F1.
    set (s0 := set_buffers blk 0 (buffer_size r) r) in *.
    assert (Hwf0 : wf s0).
    { apply init_wf; rewrite ?Edb; auto. }
    destruct (fillScreen_spec s0 Hwf0 0) as (m1 & E1 & U1).
    assert (s1 = set_heap m1 s0) by congruence. subst s1.
    pose proof (fill_wf s0 Hwf0 0 m1 U1) as Hwf1.
    pose proof (fill_back_ok s0 Hwf0 0 m1 U1) as Hb1.
    pose proof (fill_blank s0 Hwf0 m1 U1) as Hk1.
    set (s1 := set_heap m1 s0) in *.
    set (s1' := set_buffers (heap s1) (back_buffer s1) (front_buffer s1) s1) in *.
    assert (Hwf1' : wf s1')
      by exact (wf_same_frame _ _ Hwf1 (exchange_same_frame s1)).
    destruct (fillScreen_spec s1' Hwf1' 0) as (m2 & E2 & U2).
    assert (s2 = set_heap m2 s1') by congruence. subst s2.
    assert (Hapart : back_buffer s1' + buffer_size s1' <= buffer_size r)
      by (subst s1' s1 s0; unfold buffer_size; cbn; lia).
    split; [|split; [|split]].
    + apply (frame_ok_same_frame (set_heap m2 s1')); [|apply set_cursor_same_frame].
      split; [exact (fill_wf s1' Hwf1' 0 m2 U2)|]. split.
      * apply (fill_other_ok s1' Hwf1' 0 m2 U2); [right; exact Hapart|].
        exact (control_bits_same_heap s1 s1' _ eq_refl eq_refl eq_refl eq_refl Hb1).
      * exact (fill_back_ok s1' Hwf1' 0 m2 U2).
    + apply (blank_same_heap (set_heap m2 s1')); try reflexivity.
      apply (fill_other_blank s1' m2 U2); [right; exact Hapart|].
      exact (blank_same_heap s1 s1' _ eq_refl eq_refl eq_refl eq_refl Hk1).
    + apply (blank_same_heap (set_heap m2 s1')); try reflexivity.
      exact (fill_blank s1' Hwf1' m2 U2).
    + cbn. rewrite ?Hcur. auto 10.
  - destruct Hfill as (s1 & F1 & ->).
    set (s0 := set_buffers blk 0 0 r) in *.
    assert (Hwf0 : wf s0).
    { apply init_wf; rewrite ?Edb; auto. }
    destruct (fillScreen_spec s0 Hwf0 0) as (m1 & E1 & U1).
    assert (s1 = set_heap m1 s0) by congruence. subst s1.
    pose proof (fill_back_ok s0 Hwf0 0 m1 U1) as Hb1.
    pose proof (fill_blank s0 Hwf0 m1 U1) as Hk1.
    split; [|split; [|split]].
    + apply (frame_ok_same_frame (set_heap m1 s0)); [|apply set_cursor_same_frame].
      split; [exact (fill_wf s0 Hwf0 0 m1 U1)|]. split; exact Hb1.
    + apply (blank_same_heap (set_heap m1 s0)); try reflexivity. exact Hk1.
    + apply (blank_same_heap (set_heap m1 s0)); try reflexivity. exact Hk1.
    + cbn. rewrite ?Hcur. auto 10.
Qed.

(** When [malloc] has the bytes, [init] returns 0: no access of
    [fillScreen] leaves the block. *)
Lemma init_succeeds :
  (if double_buffer_enabled r then 2 else 1) * buffer_size r <= avail e ->
  init e r <> None.
Proof.
  intros Havail. pose proof init_plane_size as Hpsr.
  pose proof init_bufSize as Hbuf.
  assert (Hn : 0 <= (if double_buffer_enabled r then 2 else 1) * buffer_size r)
    by (unfold buffer_size; destruct (double_buffer_enabled r); nia).
  unfold init. cbv zeta. rewrite Hbuf.
  destruct (malloc e _) as [blk|] eqn:Em.
  2:{ unfold malloc in Em.
      destruct (Z.leb_spec ((if double_buffer_enabled r then 2 else 1) * buffer_size r)
                  (avail e)); [discriminate|lia]. }
  destruct (malloc_block e _ blk Hn Em) as [Hsize Hbytes].
  destruct (double_buffer_enabled r) eqn:Edb.
  - assert (Hhalf : 0 + Z.shiftr (2 * buffer_size r) 1 = buffer_size r).
    { rewrite Z.shiftr_div_pow2 by lia. change (2 ^ 1) with 2.
      rewrite Z.mul_comm, Z.div_mul; lia. }
    rewrite Hhalf.
    set (s0 := set_buffers blk 0 (buffer_size r) r).
    assert (Hwf0 : wf s0).
    { apply init_wf; rewrite ?Edb; auto. }
    destruct (fillScreen_spec s0 Hwf0 0) as (m1 & E1 & U1). rewrite E1.
    set (s1 := set_heap m1 s0).
    pose proof (fill_wf s0 Hwf0 0 m1 U1) as Hwf1.
    set (s1' := set_buffers (heap s1) (back_buffer s1) (front_buffer s1) s1).
    assert (Hwf1' : wf s1')
      by exact (wf_same_frame _ _ Hwf1 (exchange_same_frame s1)).
    destruct (fillScreen_spec s1' Hwf1' 0) as (m2 & E2 & U2). rewrite E2.
    discriminate.
  - set (s0 := set_buffers blk 0 0 r).
    assert (Hwf0 : wf s0).
    { apply init_wf; rewrite ?Edb; auto. }
    destruct (fillScreen_spec s0 Hwf0 0) as (m1 & E1 & U1). rewrite E1.
    discriminate.
Qed.
End Init.

(** A panel that [init] returns has positive sizes, and the size of its
    block did not wrap: otherwise the first [fillScreen] leaves the
    block. *)
Lemma init_sizes e r s :
  0 <= width r < 65536 -> width r mod 32 = 0 ->
  0 <= height r < 65536 -> height r mod 32 = 0 ->
  1 <= depth r <= 4 ->
  row_size r = width r * (height r / 32) ->
  plane_size r = width r * (height r / 2) ->
  init e r = Some s ->
  0 < width r /\ 0 < height r
  /\ (if double_buffer_enabled r then 2 else 1) * buffer_size r < 4294967296.
Proof.
  intros HW HW32 HH HH32 HD Hrs Hps Hinit.
  destruct (init_inv e r s Hinit) as (blk & Em & Hfill).
  set (X := if double_buffer_enabled r
            then 2 * depth r * plane_size r else depth r * plane_size r) in *.
  pose proof (Z.mod_pos_bound X 4294967296 ltac:(lia)) as HB.
  pose proof (Z.div_mod X 4294967296 ltac:(lia)) as HX.
  fold (to_uint32 X) in HB, HX.
  destruct (malloc_block e _ blk (proj1 HB) Em) as [Hsize _].
  pose proof (Z.div_mod (height r) 32 ltac:(lia)) as EH.
  assert (Hh2 : 0 <= height r / 2 <= 32767).
  { split; [apply Z.div_pos; lia|]. apply Z.div_le_upper_bound; lia. }
  assert (Hh32 : 0 <= height r / 32) by (apply Z.div_pos; lia).
  assert (Hpsb : 0 <= plane_size r < 2147483648) by nia.
  assert (Hps' : to_uint32 (width r * Z.shiftr (height r) 1) = plane_size r).
  { rewrite Z.shiftr_div_pow2 by lia. change (2 ^ 1) with 2. rewrite <- Hps.
    unfold to_uint32. apply Z.mod_small. lia. }
  assert (Hrs0 : 0 <= row_size r) by nia.
  unfold buffer_size.
  destruct (double_buffer_enabled r) eqn:Edb.
  - destruct Hfill as (s1 & s2 & F1 & _ & _).
    apply fillScreen_room in F1; [|cbn; lia]. cbn in F1.
    fold X in F1. rewrite Hps', Hsize in F1. destruct F1 as [R1 R2].
    rewrite Z.shiftr_div_pow2 in R1, R2 by lia. change (2 ^ 1) with 2 in R1, R2.
    pose proof (Z.div_mod (to_uint32 X) 2 ltac:(lia)) as Hhalf.
    pose proof (Z.mod_pos_bound (to_uint32 X) 2 ltac:(lia)) as Hbit.
    assert (Hpos : 0 < row_size r).
    { destruct (Z.eq_dec (row_size r) 0) as [E0|]; [|lia]. exfalso.
      assert (plane_size r = 0).
      { rewrite Hps, half_rows by exact HH32. rewrite <- Hrs, E0. reflexivity. }
      assert (X = 0) by (unfold X; lia).
      assert (to_uint32 X = 0) by (rewrite H0; reflexivity).
      rewrite H1 in R2. rewrite E0 in R2. vm_compute in R2. apply R2. reflexivity. }
    assert (0 < width r /\ 0 < height r) by nia.
    split; [tauto|]. split; [tauto|].
    unfold X in *. nia.
  - destruct Hfill as (s1 & F1 & _).
    apply fillScreen_room in F1; [|cbn; lia]. cbn in F1.
    rewrite Hps', Hsize in F1. destruct F1 as [R1 R2].
    assert (0 < width r /\ 0 < height r) by nia.
    split; [tauto|]. split; [tauto|].
    unfold X in *. nia.
Qed.

Lemma construct_frame_ok e W H D db s :
  0 <= W < 65536 -> W mod 32 = 0 -> 0 <= H < 65536 -> H mod 32 = 0 ->
  1 <= D <= 4 ->
  construct e W H D db = Some s ->
  frame_ok s
  /\ blank s (front_buffer s) /\ blank s (back_buffer s)
  /\ width s = W /\ height s = H /\ depth s = D
  /\ double_buffer_enabled s = db
  /\ swap_requested s = false /\ row s = 15 /\ plane s = D - 1.
Proof.
  intros HW HW32 HH HH32 HD Hc.
  pose proof (Z.div_mod W 32 ltac:(lia)) as EW.
  pose proof (Z.div_mod H 32 ltac:(lia)) as EH.
  assert (HWr : to_uint16 (Z.shiftl (Z.shiftr W 5) 5) = W).
  { rewrite Z.shiftr_div_pow2, Z.shiftl_mul_pow2 by lia. change (2 ^ 5) with 32.
    unfold to_uint16. rewrite Z.mod_small; lia. }
  assert (HHr : to_uint16 (Z.shiftl (Z.shiftr H 5) 5) = H).
  { rewrite Z.shiftr_div_pow2, Z.shiftl_mul_pow2 by lia. change (2 ^ 5) with 32.
    unfold to_uint16. rewrite Z.mod_small; lia. }
  unfold construct in Hc. rewrite HWr, HHr in Hc.
  rewrite !Z.shiftr_div_pow2 in Hc by lia.
  change (2 ^ 5) with 32 in Hc. change (2 ^ 1) with 2 in Hc.
  match type of Hc with
  | init _ ?r = _ =>
      destruct (init_sizes e r s HW HW32 HH HH32 HD eq_refl eq_refl Hc)
        as (HWp & HHp & Hroom)
  end.
  cbn in HWp, HHp.
  refine (init_frame_ok e _ _ _ _ _ _ _ _ s Hc); cbn; auto; try lia.
Qed.

Lemma fits_uint16 W H D :
  fits W H D -> 0 <= W < 65536 /\ 0 <= H < 65536 /\ W * (H / 2) <= 524288.
Proof.
  intros (HW & HW32 & HH & HH32 & HD & H16).
  pose proof (Z.div_mod H 32 ltac:(lia)) as EH.
  pose proof (Z.div_mod W 32 ltac:(lia)) as EW.
  rewrite (half_rows W H HH32).
  assert (1 <= H / 32) by lia. assert (32 <= W) by lia.
  assert (W <= 32768) by nia. assert (H / 32 <= 1024) by nia.
  repeat split; lia.
Qed.

Lemma construct_succeeds e W H D (db : bool) :
  fits W H D ->
  (if db then 2 else 1) * (D * (W * (H / 2))) <= avail e ->
  exists s, construct e W H D db = Some s.
Proof.
  intros Hfits Hav. destruct (fits_uint16 W H D Hfits) as (HW16 & HH16 & Hps).
  destruct Hfits as (HW & HW32 & HH & HH32 & HD & H16).
  destruct (construct e W H D db) as [s|] eqn:Hc; [eauto|exfalso].
  pose proof (Z.div_mod W 32 ltac:(lia)) as EW.
  pose proof (Z.div_mod H 32 ltac:(lia)) as EH.
  assert (HWr : to_uint16 (Z.shiftl (Z.shiftr W 5) 5) = W).
  { rewrite Z.shiftr_div_pow2, Z.shiftl_mul_pow2 by lia. change (2 ^ 5) with 32.
    unfold to_uint16. rewrite Z.mod_small; lia. }
  assert (HHr : to_uint16 (Z.shiftl (Z.shiftr H 5) 5) = H).
  { rewrite Z.shiftr_div_pow2, Z.shiftl_mul_pow2 by lia. change (2 ^ 5) with 32.
    unfold to_uint16. rewrite Z.mod_small; lia. }
  unfold construct in Hc. rewrite HWr, HHr in Hc.
  rewrite !Z.shiftr_div_pow2 in Hc by lia.
  change (2 ^ 5) with 32 in Hc. change (2 ^ 1) with 2 in Hc.
  revert Hc. apply init_succeeds; cbn; auto; try lia;
    unfold buffer_size; cbn; destruct db; nia.
Qed.

Lemma construct_succeeds_wide e W H D (db : bool) :
  0 < W < 65536 -> W mod 32 = 0 -> 0 < H < 65536 -> H mod 32 = 0 ->
  1 <= D <= 4 ->
  (if db then 2 else 1) * (D * (W * (H / 2))) < 4294967296 ->
  (if db then 2 else 1) * (D * (W * (H / 2))) <= avail e ->
  exists s, construct e W H D db = Some s.
Proof.
  intros HW HW32 HH HH32 HD Hroom Hav.
  destruct (construct e W H D db) as [s|] eqn:Hc; [eauto|exfalso].
  pose proof (Z.div_mod W 32 ltac:(lia)) as EW.
  pose proof (Z.div_mod H 32 ltac:(lia)) as EH.
  assert (HWr : to_uint16 (Z.shiftl (Z.shiftr W 5) 5) = W).
  { rewrite Z.shiftr_div_pow2, Z.shiftl_mul_pow2 by lia. change (2 ^ 5) with 32.
    unfold to_uint16. rewrite Z.mod_small; lia. }
  assert (HHr : to_uint16 (Z.shiftl (Z.shiftr H 5) 5) = H).
  { rewrite Z.shiftr_div_pow2, Z.shiftl_mul_pow2 by lia. change (2 ^ 5) with 32.
    unfold to_uint16. rewrite Z.mod_small; lia. }
  unfold construct in Hc. rewrite HWr, HHr in Hc.
  rewrite !Z.shiftr_div_pow2 in Hc by lia.
  change (2 ^ 5) with 32 in Hc. change (2 ^ 1) with 2 in Hc.
  revert Hc. apply init_succeeds; cbn; auto; try lia;
    unfold buffer_size; cbn; destruct db; lia.
Qed.

Lemma demo_long_constructed :
  construct long_env 1024 1056 1 false = Some demo_long.
Proof.
  destruct (construct_succeeds_wide long_env 1024 1056 1 false) as [s Hs];
    [lia | reflexivity | lia | reflexivity | lia
    | vm_compute; reflexivity | vm_compute; discriminate |].
  unfold demo_long. rewrite Hs. reflexivity.
Qed.

(** On a panel of 1024 x 1056 with one plane the column of the in-bounds
    pixel (0, 1025) is 32768, which the [int16_t] variable holds as
    -32768: the write lands 65536 bytes in front of the pixel's byte, and
    for the pixel (0, 1024) in front of the block. *)
Lemma long_row_wraps e s :
  construct e 1024 1056 1 false = Some s ->
  px_addr s (back_buffer s) 0 0 1025 = back_buffer s + 66560
  /\ (exists s', drawPixel 0 1025 65535 s = Some s'
        /\ load (heap s') (back_buffer s' + 1024) = Some 56
        /\ readPixel s' (back_buffer s') 0 1025 = Some (0, 0, 0))
  /\ drawPixel 0 1024 65535 s = None.
Proof.
  intros Hc.
  destruct (construct_frame_ok e 1024 1056 1 false s) as
    (Hok & _ & Hb & EW & EH & ED & Edb & _);
    [lia | reflexivity | lia | reflexivity | lia | exact Hc |].
  destruct Hok as (Hwf & _ & _).
  assert (Ers : row_size s = 33792)
    by (rewrite (wf_row_size s Hwf), EW, EH; reflexivity).
  assert (Eps : plane_size s = 540672)
    by (rewrite (wf_plane_size s Hwf), EW, EH; reflexivity).
  pose proof (wf_buffers s Hwf) as Hbuf. rewrite Edb in Hbuf.
  destruct Hbuf as [_ Eb].
  assert (Ebs : block_size (heap s) = 540672).
  { rewrite (wf_block s Hwf), Edb. unfold buffer_size. rewrite ED, Eps.
    reflexivity. }
  assert (Ea : px_addr s (back_buffer s) 0 0 1025 = back_buffer s + 66560).
  { unfold px_addr, px_offset. rewrite Ers, Eps, EW.
    change (px_row 1025) with 1. change (px_col 1024 0 1025) with 32768. lia. }
  split; [exact Ea|]. split.
  - assert (Ed : drawPixel 0 1025 65535 s
                 = write_planes s 1 (-32768) 199 3 65535).
    { unfold drawPixel. rewrite EW, EH. reflexivity. }
    destruct (plane_block_updated s 0 1 (-32768) 199 (triple 65535 15 10 4 3)
                (heap s) 1024) as (m0 & E0 & U0).
    { rewrite Eb, Eps, Ers. reflexivity. }
    { intros _. rewrite Ebs. lia. }
    exists (set_heap m0 s). split.
    { rewrite Ed. unfold write_planes. rewrite E0.
      unfold plane_block. rewrite ED. reflexivity. }
    rewrite ED in U0. change (0 <? 1) with true in U0. cbn [andb] in U0.
    change (back_buffer (set_heap m0 s)) with (back_buffer s).
    assert (L1 : load (heap s) (back_buffer s + 1024) = Some 0).
    { rewrite (Hb 1024) by (unfold buffer_size; rewrite ED, Eps; lia).
      unfold controlb. rewrite Ers. reflexivity. }
    assert (L2 : load (heap s) (back_buffer s + 66560) = Some 0).
    { rewrite (Hb 66560) by (unfold buffer_size; rewrite ED, Eps; lia).
      unfold controlb. rewrite Ers. reflexivity. }
    rewrite Eb in L1, L2 |- *. split.
    + cbn [heap set_heap]. rewrite (proj2 U0 _ _ L1). reflexivity.
    + unfold readPixel, read_triple.
      change (depth (set_heap m0 s)) with (depth s). rewrite ED.
      change (Z.to_nat 1) with 1%nat. cbn [read_planes].
      unfold read_triple.
      change (px_addr (set_heap m0 s) 0 0 0 1025) with (px_addr s 0 0 0 1025).
      rewrite Eb in Ea. rewrite Ea. cbn [heap set_heap].
      rewrite (proj2 U0 _ _ L2). reflexivity.
  - assert (Ed : drawPixel 0 1024 65535 s
                 = write_planes s 0 (-32768) 199 3 65535).
    { unfold drawPixel. rewrite EW, EH. reflexivity. }
    rewrite Ed. unfold write_planes, plane_block. rewrite ED, Eb, Eps, Ers.
    reflexivity.
Qed.

(** ** The claims *)

(** C1. On every panel that the constructor returns, for a width [W] and
    a height [H] that are multiples of 32 and one to four planes, after
    every sequence of operations of the driver -- [drawPixel] and
    [fillScreen] calls, and also [swapBuffers], [resync], [begin], timer
    interrupts and serial completions between them -- in the front and in
    the back buffer bits 6 and 7 are set in the byte at offset
    [k * row_size - 1] for every [k] from 1 to [D * 16] and clear in every
    other byte.  The sequence runs to its end without an access outside
    of the block whenever the [int16_t] column of [drawPixel] can index
    the row, [W * (H / 32) <= 32768]. *)
Theorem control_bits_invariant e W H D db s0 os :
  0 <= W < 65536 -> W mod 32 = 0 -> 0 <= H < 65536 -> H mod 32 = 0 ->
  1 <= D <= 4 ->
  construct e W H D db = Some s0 ->
  (forall s, run os s0 = Some s ->
     depth s = D /\ row_size s = W * (H / 32)
     /\ control_bits_ok s (front_buffer s)
     /\ control_bits_ok s (back_buffer s))
  /\ (W * (H / 32) <= 32768 -> exists s, run os s0 = Some s).
Proof.
  intros HW HW32 HH HH32 HD Hc.
  destruct (construct_frame_ok e W H D db s0 HW HW32 HH HH32 HD Hc)
    as (Hok & _ & _ & EW & EH & ED & _).
  assert (Hrs0 : row_size s0 = W * (H / 32)).
  { destruct Hok as (Hwf0 & _ & _). rewrite (wf_row_size s0 Hwf0). congruence. }
  split.
  - intros s E.
    destruct (run_frame_keeps os s0 s Hok E) as (Hwf & Hf & Hb).
    destruct (run_shape os s0 s E) as (_ & _ & SD & Srs & _).
    split; [congruence|]. split; [congruence|]. split; assumption.
  - intros H16. apply (run_defined os s0 Hok). rewrite Hrs0. exact H16.
Qed.

Lemma demo_double_constructed : construct demo_env 32 32 2 true = Some demo_double.
Proof. vm_compute. reflexivity. Qed.

Lemma control_bits_invariant_witness :
  run demo_ops demo_double = Some demo_state
  /\ depth demo_state = 2 /\ row_size demo_state = 32 * (32 / 32)
  /\ control_bits_ok demo_state (front_buffer demo_state)
  /\ control_bits_ok demo_state (back_buffer demo_state).
Proof.
  assert (Hrun : run demo_ops demo_double = Some demo_state)
    by (vm_compute; reflexivity).
  split; [exact Hrun|].
  destruct (control_bits_invariant demo_env 32 32 2 true demo_double demo_ops)
    as [Hinv _];
    [lia | reflexivity | lia | reflexivity | lia | vm_compute; reflexivity |].
  exact (Hinv demo_state Hrun).
Defined.

(** ** States reached from a constructed panel *)

Lemma reach_wf e W H D db s0 os s :
  fits W H D -> construct e W H D db = Some s0 -> run os s0 = Some s ->
  wf s /\ row_size s <= 32768
  /\ width s = W /\ height s = H /\ depth s = D
  /\ double_buffer_enabled s = db.
Proof.
  intros Hfits Hc Hrun. destruct (fits_uint16 W H D Hfits) as (HW16 & HH16 & _).
  destruct Hfits as (HW & HW32 & HH & HH32 & HD & H16).
  destruct (construct_frame_ok e W H D db s0 HW16 HW32 HH16 HH32 HD Hc)
    as (Hok & _ & _ & EW & EH & ED & Edb & _).
  destruct (run_frame_keeps os s0 s Hok Hrun) as (Hwf & _).
  destruct (run_shape os s0 s Hrun) as (SW & SH & SD & Srs & _ & Sdb).
  split; [exact Hwf|]. split.
  - destruct Hok as (Hwf0 & _ & _).
    rewrite Srs, (wf_row_size s0 Hwf0), EW, EH. exact H16.
  - repeat split; congruence.
Qed.

Lemma construct_blank e W H D db s :
  fits W H D -> construct e W H D db = Some s ->
  blank s (front_buffer s) /\ blank s (back_buffer s).
Proof.
  intros Hfits Hc. destruct (fits_uint16 W H D Hfits) as (HW16 & HH16 & _).
  destruct Hfits as (HW & HW32 & HH & HH32 & HD & H16).
  destruct (construct_frame_ok e W H D db s HW16 HW32 HH16 HH32 HD Hc)
    as (_ & Hf & Hb & _). auto.
Qed.
(** ** Reading a pixel back *)

Section ReadBack.
Variable s : panel.
Hypothesis Hwf : wf s.
Variables x y c : Z.
Hypothesis Hx : 0 <= x < width s.
Hypothesis Hy : 0 <= y < height s.
Variable m' : list Z.
Hypothesis Hupd : updated (heap s) m' (drawn_byte s x y c).

Lemma drawn_read_triple p :
  0 <= p < depth s ->
  read_triple (set_heap m' s) (back_buffer s) p x y = Some (plane_triple c p).
Proof.
  intros Hp. unfold read_triple.
  change (px_addr (set_heap m' s)) with (px_addr s).
  change (heap (set_heap m' s)) with m'.
  destruct (load_inside (heap s) (px_addr s (back_buffer s) p x y)
              (px_addr_inside s Hwf x y Hx Hy p Hp)) as [v Hv].
  rewrite (proj2 Hupd _ _ Hv). unfold drawn_byte.
  rewrite (hit_plane_at s Hwf x y p Hp).
  pose proof (wf_bytes s Hwf _ _ Hv) as Hbyte.
  rewrite (written_px y c p v Hbyte).
  destruct (written_ok (px_upper y) v (plane_triple c p) Hbyte
              (plane_triple_range c p)) as (_ & _ & _ & _ & Hread & _).
  unfold px_shift. rewrite Hread. reflexivity.
Qed.

Lemma drawn_read_planes n : forall p,
  0 <= p -> p + Z.of_nat n <= depth s ->
  read_planes n (set_heap m' s) (back_buffer s) p x y = Some (triples c p n).
Proof.
  induction n as [|n IH]; intros p Hp Hn; [reflexivity|].
  cbn [read_planes triples].
  rewrite drawn_read_triple by lia. rewrite IH by lia. reflexivity.
Qed.
End ReadBack.

(** The bits of the planes, most significant first, are the top bits of
    each channel. *)
Lemma spell_top c D :
  1 <= D <= 4 ->
  spell 2 (triples c 0 (Z.to_nat D)) = top_red D c
  /\ spell 1 (triples c 0 (Z.to_nat D)) = top_green D c
  /\ spell 0 (triples c 0 (Z.to_nat D)) = top_blue D c.
Proof.
  intros HD.
  assert (Hcases : D = 1 \/ D = 2 \/ D = 3 \/ D = 4) by lia.
  unfold top_red, top_green, top_blue.
  destruct Hcases as [-> | [-> | [-> | ->]]];
    [change (Z.to_nat 1) with 1%nat | change (Z.to_nat 2) with 2%nat
    | change (Z.to_nat 3) with 3%nat | change (Z.to_nat 4) with 4%nat];
    unfold spell; cbn [triples fold_left];
    repeat change (0 + 1) with 1; repeat change (1 + 1) with 2;
    repeat change (2 + 1) with 3;
    repeat match goal with
    | |- context [Z.testbit (plane_triple c ?p) 2] =>
        rewrite (proj1 (plane_triple_bits c p))
    | |- context [Z.testbit (plane_triple c ?p) 1] =>
        rewrite (proj1 (proj2 (plane_triple_bits c p)))
    | |- context [Z.testbit (plane_triple c ?p) 0] =>
        rewrite (proj2 (proj2 (plane_triple_bits c p)))
    end;
    rewrite !Z.testbit_spec' by lia;
    repeat match goal with
    | |- context [2 ^ ?k] => let v := eval vm_compute in (2 ^ k) in change (2 ^ k) with v
    | |- context [?a - ?b] =>
        match a with
        | Zpos _ => let v := eval vm_compute in (a - b) in change (a - b) with v
        end
    end;
    repeat split; Z.div_mod_to_equations; lia.
Qed.

(** C2, as the code has it.  On a panel whose rows are at most 32768
    bytes long, [W * (H / 32) <= 32768], in any state reached from its
    construction, [drawPixel(x, y, c)] with (x, y) in bounds runs without
    leaving the block; afterwards the three colour bits of the pixel in
    plane [p] of the back buffer, for every [p] below the depth [D], are
    bit [15 - p] of [c] (red), bit [10 - p] (green) and bit [4 - p]
    (blue), and the reference decoder, which spells the channels from the
    planes, plane 0 first, returns the top [D] bits of the red, green and
    blue channel of [c]. *)
Theorem drawPixel_round_trip e W H D db s0 os s x y c :
  0 < W -> W mod 32 = 0 -> 0 < H -> H mod 32 = 0 -> 1 <= D <= 4 ->
  W * (H / 32) <= 32768 ->
  construct e W H D db = Some s0 ->
  run os s0 = Some s ->
  0 <= x < W -> 0 <= y < H ->
  exists s', drawPixel x y c s = Some s'
    /\ (forall p, 0 <= p < D ->
          exists t, read_triple s' (back_buffer s') p x y = Some t
            /\ Z.testbit t 2 = Z.testbit c (15 - p)
            /\ Z.testbit t 1 = Z.testbit c (10 - p)
            /\ Z.testbit t 0 = Z.testbit c (4 - p))
    /\ readPixel s' (back_buffer s') x y
       = Some (top_red D c, top_green D c, top_blue D c).
Proof.
  intros HW HW32 HH HH32 HD H16' Hc Hrun Hx Hy.
  assert (Hfits : fits W H D) by (unfold fits; auto 10).
  destruct (reach_wf e W H D db s0 os s Hfits Hc Hrun)
    as (Hwf & H16 & EW & EH & ED & _).
  subst W H D.
  destruct (drawPixel_spec s Hwf H16 x y Hx Hy c) as (m' & E & U).
  exists (set_heap m' s). split; [exact E|]. split.
  - intros p Hp. exists (plane_triple c p).
    split; [exact (drawn_read_triple s Hwf x y c Hx Hy m' U p Hp)|].
    apply plane_triple_bits.
  - unfold readPixel. change (depth (set_heap m' s)) with (depth s).
    change (back_buffer (set_heap m' s)) with (back_buffer s).
    pose proof (wf_depth s Hwf) as HD'.
    rewrite (drawn_read_planes s Hwf x y c Hx Hy m' U (Z.to_nat (depth s)) 0)
      by lia.
    destruct (spell_top c (depth s) HD') as (-> & -> & ->). reflexivity.
Qed.

Lemma demo_state_reached : run demo_ops demo_double = Some demo_state.
Proof. vm_compute. reflexivity. Qed.

Lemma drawPixel_round_trip_witness :
  exists s', drawPixel 5 17 43690 demo_state = Some s'
    /\ (forall p, 0 <= p < 2 ->
          exists t, read_triple s' (back_buffer s') p 5 17 = Some t
            /\ Z.testbit t 2 = Z.testbit 43690 (15 - p)
            /\ Z.testbit t 1 = Z.testbit 43690 (10 - p)
            /\ Z.testbit t 0 = Z.testbit 43690 (4 - p))
    /\ readPixel s' (back_buffer s') 5 17
       = Some (top_red 2 43690, top_green 2 43690, top_blue 2 43690).
Proof.
  apply (drawPixel_round_trip demo_env 32 32 2 true demo_double demo_ops
           demo_state 5 17 43690);
    [lia | reflexivity | lia | reflexivity | lia | vm_compute; discriminate
    | vm_compute; reflexivity | vm_compute; reflexivity | lia | lia].
Defined.

(** C2, as the specification has it, fails where a row is longer than
    32768 bytes. *)
Lemma drawPixel_round_trip_long_row :
  width demo_long = 1024 /\ height demo_long = 1056 /\ depth demo_long = 1
  /\ px_addr demo_long (back_buffer demo_long) 0 0 1025
     = back_buffer demo_long + 66560
  /\ (exists s', drawPixel 0 1025 65535 demo_long = Some s'
        /\ load (heap s') (back_buffer s' + 1024) = Some 56
        /\ readPixel s' (back_buffer s') 0 1025 = Some (0, 0, 0)
        /\ readPixel s' (back_buffer s') 0 1025
           <> Some (top_red 1 65535, top_green 1 65535, top_blue 1 65535))
  /\ drawPixel 0 1024 65535 demo_long = None.
Proof.
  pose proof demo_long_constructed as Hc.
  destruct (construct_frame_ok long_env 1024 1056 1 false demo_long) as
    (_ & _ & _ & EW & EH & ED & _);
    [lia | reflexivity | lia | reflexivity | lia | exact Hc |].
  destruct (long_row_wraps long_env demo_long Hc) as (Ea & (s' & Hd & Hl & Hp) & Hn).
  split; [exact EW|]. split; [exact EH|]. split; [exact ED|].
  split; [exact Ea|]. split; [|exact Hn].
  exists s'. split; [exact Hd|]. split; [exact Hl|]. split; [exact Hp|].
  rewrite Hp. discriminate.
Qed.

Lemma keeps_half_id upper : keeps_half upper (fun _ v => v).
Proof. intros a v Hv. split; [exact Hv|]. destruct upper; reflexivity. Qed.

Lemma keeps_half_comp upper f g :
  keeps_half upper f -> keeps_half upper g ->
  keeps_half upper (fun a v => g a (f a v)).
Proof.
  intros Hf Hg a v Hv. destruct (Hf a v Hv) as (Fb & Fh).
  destruct (Hg a (f a v) Fb) as (Gb & Gh).
  split; [exact Gb|]. destruct upper; congruence.
Qed.

Lemma keeps_half_written upper (cond : Z -> bool) t :
  0 <= t < 8 ->
  keeps_half upper (fun a v => if cond a then to_uint8 (written upper v t) else v).
Proof.
  intros Ht a v Hv. destruct (cond a).
  - destruct (written_ok upper v t Hv Ht) as (Hb & -> & _ & _ & _ & Hh). auto.
  - split; [exact Hv|]. destruct upper; reflexivity.
Qed.

Lemma write_planes_half s y_int x c (upper : bool) s' :
  write_planes s y_int x (if upper then 199 else 248) (if upper then 3 else 0) c
  = Some s' ->
  exists m' f, s' = set_heap m' s /\ updated (heap s) m' f /\ keeps_half upper f.
Proof.
  assert (Hsh : (if upper then 3 else 0) = 0 \/ (if upper then 3 else 0) = 3)
    by (destruct upper; auto).
  destruct (triple_plane c _ Hsh) as (T0 & T1 & T2 & T3).
  unfold write_planes. rewrite T0, T1, T2, T3.
  destruct (plane_block s 0 _ _ _ _ _) as [m0|] eqn:E0; [|discriminate].
  destruct (plane_block s 1 _ _ _ _ _) as [m1|] eqn:E1; [|discriminate].
  destruct (plane_block s 2 _ _ _ _ _) as [m2|] eqn:E2; [|discriminate].
  destruct (plane_block s 3 _ _ _ _ _) as [m3|] eqn:E3; [|discriminate].
  intros E. inversion E; subst s'. clear E.
  apply plane_block_Some in E0, E1, E2, E3.
  eexists m3, _. split; [reflexivity|]. split.
  - exact (updated_trans _ _ _ _ _
             (updated_trans _ _ _ _ _ (updated_trans _ _ _ _ _ E0 E1) E2) E3).
  - pose proof (fun k =>
        keeps_half_written upper
          (fun a => (k <? depth s)
                    && (a =? back_buffer s + k * plane_size s
                             + y_int * row_size s + x))
          (plane_triple c k) (plane_triple_range c k)) as K.
    exact (keeps_half_comp _ _ _
             (keeps_half_comp _ _ _ (keeps_half_comp _ _ _ (K 0) (K 1)) (K 2))
             (K 3)).
Qed.

(** The half that [drawPixel] writes is decided by the row alone, whatever
    becomes of the column. *)
Lemma drawPixel_branch s x y c :
  wf s -> 0 <= x < width s -> 0 <= y < height s ->
  exists X,
    drawPixel x y c s
    = write_planes s (px_row y) X
        (if px_upper y then 199 else 248) (if px_upper y then 3 else 0) c.
Proof.
  intros Hwf Hx Hy.
  pose proof (px_panel_row_range s Hwf y Hy) as Hpr.
  pose proof (Z.mod_pos_bound y 32 ltac:(lia)) as Hy32.
  destruct (wf_uint16 s Hwf) as [_ HH16].
  destruct (wf_height s Hwf) as [HH _].
  assert (Hrows : height s / 32 < 65536)
    by (apply Z.div_lt_upper_bound; lia).
  unfold drawPixel.
  destruct (Z.leb_spec 0 y); [|lia]. destruct (Z.leb_spec 0 x); [|lia].
  destruct (Z.ltb_spec y (height s)); [|lia].
  destruct (Z.ltb_spec x (width s)); [|lia]. cbn [andb].
  rewrite (Z.rem_mod_nonneg y 32) by lia.
  rewrite (Z.shiftr_div_pow2 y 5) by lia. change (2 ^ 5) with 32.
  fold (px_panel_row y).
  assert (E1 : to_uint16 (y mod 32) = y mod 32)
    by (unfold to_uint16; apply Z.mod_small; lia).
  assert (E2 : to_uint16 (px_panel_row y) = px_panel_row y)
    by (unfold to_uint16; apply Z.mod_small; lia).
  rewrite E1, E2.
  rewrite (Z.rem_mod_nonneg (px_panel_row y) 2) by lia.
  rewrite <- (Zeven_mod (px_panel_row y)).
  unfold px_row, px_upper, px_yint.
  destruct (Z.even (px_panel_row y)); cbv zeta iota beta.
  - eexists.
    destruct (Z.ltb_spec (y mod 32) 16); [reflexivity|].
    f_equal. unfold to_uint16. apply Z.mod_small. lia.
  - assert (E4 : to_uint16 (31 - y mod 32) = 31 - y mod 32)
      by (unfold to_uint16; apply Z.mod_small; lia).
    rewrite E4. eexists.
    destruct (Z.ltb_spec (31 - y mod 32) 16); [reflexivity|].
    f_equal. unfold to_uint16. apply Z.mod_small. lia.
Qed.

Lemma drawPixel_half x y c s s' :
  wf s -> 0 <= x < width s -> 0 <= y < height s ->
  drawPixel x y c s = Some s' ->
  exists m' f,
    s' = set_heap m' s /\ updated (heap s) m' f /\ keeps_half (px_upper y) f.
Proof.
  intros Hwf Hx Hy. destruct (drawPixel_branch s x y c Hwf Hx Hy) as [X ->].
  apply write_planes_half.
Qed.

(** C10. On every panel that the constructor returns, for a width and a
    height that are multiples of 32 and one to four planes, in any state
    reached from its construction, a [drawPixel(x, y, c)] with (x, y) in
    bounds that returns leaves, in every byte of the block and so in every
    plane, the colour bits of the other half as they were: bits 0..2 when
    the pixel is in the upper half (bits 3..5), bits 3..5 when it is in
    the lower half (bits 0..2).  It does return whenever the [int16_t]
    column of [drawPixel] can index the row, [W * (H / 32) <= 32768]. *)
Theorem drawPixel_keeps_other_half e W H D db s0 os s x y c :
  0 <= W < 65536 -> W mod 32 = 0 -> 0 <= H < 65536 -> H mod 32 = 0 ->
  1 <= D <= 4 ->
  construct e W H D db = Some s0 ->
  run os s0 = Some s ->
  0 <= x < W -> 0 <= y < H ->
  (forall s', drawPixel x y c s = Some s' ->
     forall a v, load (heap s) a = Some v ->
       exists v', load (heap s') a = Some v'
         /\ if px_upper y
            then Z.land v' 7 = Z.land v 7
            else Z.land v' 56 = Z.land v 56)
  /\ (W * (H / 32) <= 32768 -> exists s', drawPixel x y c s = Some s').
Proof.
  intros HW HW32 HH HH32 HD Hc Hrun Hx Hy.
  destruct (construct_frame_ok e W H D db s0 HW HW32 HH HH32 HD Hc)
    as (Hok & _ & _ & EW & EH & _).
  destruct (run_frame_keeps os s0 s Hok Hrun) as (Hwf & _).
  destruct (run_shape os s0 s Hrun) as (SW & SH & _).
  assert (Hx' : 0 <= x < width s) by (rewrite SW, EW; exact Hx).
  assert (Hy' : 0 <= y < height s) by (rewrite SH, EH; exact Hy).
  split.
  - intros s' Hd a v Hv.
    destruct (drawPixel_half x y c s s' Hwf Hx' Hy' Hd) as (m' & f & -> & U & K).
    exists (f a v). split; [exact (proj2 U a v Hv)|].
    exact (proj2 (K a v (wf_bytes s Hwf a v Hv))).
  - intros H16. apply drawPixel_defined; [exact Hwf|].
    rewrite (wf_row_size s Hwf), SW, SH, EW, EH. exact H16.
Qed.

Lemma drawPixel_keeps_other_half_witness :
  (forall s', drawPixel 5 17 43690 demo_state = Some s' ->
     forall a v, load (heap demo_state) a = Some v ->
       exists v', load (heap s') a = Some v'
         /\ if px_upper 17
            then Z.land v' 7 = Z.land v 7
            else Z.land v' 56 = Z.land v 56)
  /\ exists s', drawPixel 5 17 43690 demo_state = Some s'.
Proof.
  destruct (drawPixel_keeps_other_half demo_env 32 32 2 true demo_double
              demo_ops demo_state 5 17 43690) as [Hkeep Hdef];
    [lia | reflexivity | lia | reflexivity | lia | vm_compute; reflexivity
    | vm_compute; reflexivity | lia | lia |].
  split; [exact Hkeep|]. apply Hdef. vm_compute. discriminate.
Defined.

(** ** The timer interrupt *)

(** C5. Every timer interrupt starts exactly one SPI transfer; it is
    [row_size] bytes long and starts at
    [front_buffer + plane * plane_size + row * row_size], where the front
    buffer, the plane and the row are those the interrupt leaves.  What it
    leaves is the advance of what it found: the row after the one it
    found, and after row 15 row 0 of the next plane, plane 0 after the
    last; and the buffer it found in front, or the other one when it found
    the cursor on the last row of the last plane and a swap requested.
    With the cursor in the frame that is the advance step of the
    specification, and the cursor never stays where it was. *)
Theorem one_burst_per_tick s :
  transfers (fst (updateDisplay s))
  = [(front_buffer (snd (updateDisplay s))
        + plane (snd (updateDisplay s)) * plane_size s
        + row (snd (updateDisplay s)) * row_size s,
      row_size s)]
  /\ (row (snd (updateDisplay s)), plane (snd (updateDisplay s)))
     = (if row s =? 15
        then (0, if plane s =? depth s - 1 then 0 else to_uint16 (plane s + 1))
        else (to_uint16 (row s + 1), plane s))
  /\ front_buffer (snd (updateDisplay s))
     = (if (row s =? 15) && (plane s =? depth s - 1) && swap_requested s
        then back_buffer s else front_buffer s)
  /\ (0 <= row s <= 15 -> 0 <= plane s < depth s -> depth s < 65536 ->
      (row (snd (updateDisplay s)), plane (snd (updateDisplay s)))
      = advance (depth s) (row s) (plane s)
      /\ (row (snd (updateDisplay s)), plane (snd (updateDisplay s)))
         <> (row s, plane s)).
Proof.
  assert (Hadv : (row (snd (updateDisplay s)), plane (snd (updateDisplay s)))
     = (if row s =? 15
        then (0, if plane s =? depth s - 1 then 0 else to_uint16 (plane s + 1))
        else (to_uint16 (row s + 1), plane s))).
  { unfold updateDisplay.
    destruct (row s =? 15), (plane s =? depth s - 1), (resync_flag s),
      (swap_requested s); reflexivity. }
  split; [|split; [exact Hadv|split]].
  - unfold updateDisplay.
    destruct (row s =? 15), (plane s =? depth s - 1), (resync_flag s),
      (swap_requested s); reflexivity.
  - unfold updateDisplay.
    destruct (row s =? 15), (plane s =? depth s - 1), (resync_flag s),
      (swap_requested s); reflexivity.
  - intros Hr Hp HD. rewrite Hadv. unfold advance.
    destruct (Z.eqb_spec (row s) 15) as [E|NE].
    + destruct (Z.ltb_spec (row s) 15); [lia|].
      destruct (Z.eqb_spec (plane s) (depth s - 1)) as [Ep|NEp].
      * split; [|intros Q; inversion Q; lia].
        f_equal. rewrite Ep.
        replace (depth s - 1 + 1) with (depth s) by lia.
        symmetry. apply Z.mod_same. lia.
      * assert (Eu : to_uint16 (plane s + 1) = plane s + 1)
          by (unfold to_uint16; apply Z.mod_small; lia).
        rewrite Eu. split; [|intros Q; inversion Q; lia].
        f_equal. symmetry. apply Z.mod_small. lia.
    + destruct (Z.ltb_spec (row s) 15); [|lia].
      assert (Eu : to_uint16 (row s + 1) = row s + 1)
        by (unfold to_uint16; apply Z.mod_small; lia).
      rewrite Eu. split; [reflexivity|intros Q; inversion Q; lia].
Qed.

Lemma one_burst_per_tick_witness :
  (row (snd (updateDisplay demo_begun)), plane (snd (updateDisplay demo_begun)))
  = advance (depth demo_begun) (row demo_begun) (plane demo_begun)
  /\ (row (snd (updateDisplay demo_begun)), plane (snd (updateDisplay demo_begun)))
     <> (row demo_begun, plane demo_begun).
Proof.
  destruct (one_burst_per_tick demo_begun) as (_ & _ & _ & Hadv).
  apply Hadv; vm_compute; repeat split; (reflexivity || discriminate).
Defined.

(** The advance of the cursor. *)
Lemma updateDisplay_cursor s :
  (row s = 15 ->
     row (snd (updateDisplay s)) = 0
     /\ plane (snd (updateDisplay s))
        = if plane s =? depth s - 1 then 0 else to_uint16 (plane s + 1))
  /\ (row s <> 15 ->
        row (snd (updateDisplay s)) = to_uint16 (row s + 1)
        /\ plane (snd (updateDisplay s)) = plane s).
Proof.
  unfold updateDisplay. split; intros Hr.
  - rewrite Hr. cbn [Z.eqb Pos.eqb].
    destruct (plane s =? depth s - 1), (resync_flag s), (swap_requested s);
      cbn; auto.
  - destruct (Z.eqb_spec (row s) 15); [contradiction|]. cbn. auto.
Qed.

(** The front buffer changes only when the interrupt finds the cursor on
    the last row of the last plane and a swap requested. *)
Lemma updateDisplay_front s :
  front_buffer (snd (updateDisplay s)) <> front_buffer s ->
  row s = 15 /\ plane s = depth s - 1 /\ swap_requested s = true.
Proof.
  unfold updateDisplay.
  destruct (Z.eqb_spec (row s) 15), (Z.eqb_spec (plane s) (depth s - 1)),
    (resync_flag s), (swap_requested s); cbn; intros Hne;
    try contradiction; auto.
Qed.

(** C4. Along every sequence of operations -- timer interrupts,
    [swapBuffers] calls and any other operation of the driver -- the front
    buffer changes only in a timer interrupt that leaves the cursor on row
    0 of plane 0, the start of a frame. *)
Theorem front_changes_at_frame_start os o s0 s s' :
  run os s0 = Some s ->
  step o s = Some s' ->
  front_buffer s' <> front_buffer s ->
  o = OpTick /\ row s' = 0 /\ plane s' = 0.
Proof.
  intros _ Hstep Hne.
  destruct o as [x y c|c| | |t| |]; cbn [step] in Hstep.
  - destruct (drawPixel_set_heap _ _ _ _ _ Hstep) as [m ->]. contradiction.
  - destruct (fillScreen_set_heap _ _ _ Hstep) as [m ->]. contradiction.
  - inversion Hstep; subst s'. exfalso. apply Hne.
    unfold swapBuffers. destruct (double_buffer_enabled s); reflexivity.
  - inversion Hstep; subst s'. contradiction.
  - inversion Hstep; subst s'. rewrite begin_panel in Hne. contradiction.
  - inversion Hstep; subst s'.
    destruct (updateDisplay_front s Hne) as (Hr & Hp & _).
    destruct (updateDisplay_cursor s) as [Hc _].
    destruct (Hc Hr) as [Hr' Hp']. rewrite Hp, Z.eqb_refl in Hp'. auto.
  - inversion Hstep; subst s'. contradiction.
Qed.

Lemma front_changes_at_frame_start_witness :
  OpTick = OpTick
  /\ row (snd (updateDisplay (swapBuffers demo_double))) = 0
  /\ plane (snd (updateDisplay (swapBuffers demo_double))) = 0.
Proof.
  apply (front_changes_at_frame_start [OpSwapBuffers] OpTick demo_double
           (swapBuffers demo_double)
           (snd (updateDisplay (swapBuffers demo_double))));
    [vm_compute; reflexivity | vm_compute; reflexivity
    | vm_compute; discriminate].
Defined.

(** ** The schedule of the timer *)

(** The period an interrupt programs is that of the plane the cursor is
    on when the interrupt starts, the plane whose row was sent last. *)
Lemma updateDisplay_period s :
  periods (fst (updateDisplay s)) = [74 * Z.shiftl 1 (depth s - plane s - 1)].
Proof.
  unfold updateDisplay.
  destruct (row s =? 15), (plane s =? depth s - 1), (resync_flag s),
    (swap_requested s); reflexivity.
Qed.

(** C3, as the code has it.  For a depth [D] from 1 to 4, the [16 * D]
    timer interrupts that start with the cursor on row 0 of plane 0 -- the
    interrupts that follow the one at the start of a frame -- program 16
    times [74 * 2 ^ (D - 1)] microseconds, then 16 times
    [74 * 2 ^ (D - 2)], and so on down to 16 times [74 * 2 ^ 0]. *)
Theorem bcm_schedule_from_plane_0 s :
  1 <= depth s <= 4 -> row s = 0 -> plane s = 0 ->
  periods (fst (ticks (Z.to_nat (16 * depth s)) s)) = bcm_schedule (depth s).
Proof.
  intros HD Hr Hp.
  destruct s as [W H D rs ps db m front back sw rf r p rc]. cbn in HD, Hr, Hp.
  subst r p. cbn [depth].
  assert (Hcases : D = 1 \/ D = 2 \/ D = 3 \/ D = 4) by lia.
  destruct Hcases as [-> | [-> | [-> | ->]]]; destruct sw, rf;
    vm_compute; reflexivity.
Qed.

Lemma bcm_schedule_from_plane_0_witness :
  periods (fst (ticks (Z.to_nat (16 * depth demo_started)) demo_started))
  = bcm_schedule (depth demo_started).
Proof.
  apply (bcm_schedule_from_plane_0 demo_started);
    [vm_compute; split; discriminate | vm_compute; reflexivity
    | vm_compute; reflexivity].
Defined.

(** The [16 * D] interrupts of a frame, counted from the interrupt at its
    start, program the same periods one place later: the shortest period
    first. *)
Lemma bcm_schedule_from_frame_start s :
  1 <= depth s <= 4 -> row s = 15 -> plane s = depth s - 1 ->
  periods (fst (ticks (Z.to_nat (16 * depth s)) s))
  = bcm_period (depth s) (depth s - 1) :: removelast (bcm_schedule (depth s)).
Proof.
  intros HD Hr Hp.
  destruct s as [W H D rs ps db m front back sw rf r p rc]. cbn in HD, Hr, Hp.
  subst r p. cbn [depth].
  assert (Hcases : D = 1 \/ D = 2 \/ D = 3 \/ D = 4) by lia.
  destruct Hcases as [-> | [-> | [-> | ->]]]; destruct sw, rf;
    vm_compute; reflexivity.
Qed.

(** C3, as the specification has it, fails on the first frame of a panel
    with four planes: the first interrupt after [begin] programs 74
    microseconds, not [74 * 2 ^ 3]. *)
Lemma bcm_schedule_first_frame :
  row demo_begun = 15 /\ plane demo_begun = 3
  /\ periods (fst (ticks (Z.to_nat (16 * 4)) demo_begun)) <> bcm_schedule 4
  /\ hd 0 (periods (fst (ticks (Z.to_nat (16 * 4)) demo_begun))) = 74
  /\ hd 0 (bcm_schedule 4) = 592.
Proof. vm_compute. repeat split; discriminate. Qed.

(** ** begin and the timers *)

(** C7, as the code has it.  [begin] asks for TIMER3, TIMER4, TIMER5,
    TIMER6 and TIMER7 in this order and stops at the first that is free,
    which it arms at 250 microseconds; when all are in use it has asked for
    the five and armed none, so that no interrupt will run
    [updateDisplay]; in both cases it returns nothing. *)
Theorem begin_timers t s :
  asked (fst (snd (begin t s))) = asked t ++ upto_free t ranked
  /\ armed (fst (snd (begin t s)))
     = match first_free t with
       | Some id => Some (id, 250)
       | None => armed t
       end
  /\ fst (begin t s) = tt
  /\ ((forall id, in_use t id = true) ->
      asked (fst (snd (begin t s))) = asked t ++ ranked
      /\ armed (fst (snd (begin t s))) = armed t).
Proof.
  assert (Hgen :
    asked (fst (snd (begin t s))) = asked t ++ upto_free t ranked
    /\ armed (fst (snd (begin t s)))
       = match first_free t with
         | Some id => Some (id, 250)
         | None => armed t
         end
    /\ fst (begin t s) = tt).
  { unfold begin, displayTimer_begin, first_free, ranked.
    cbn [upto_free find].
    destruct (in_use t TIMER3) eqn:E3; cbn; rewrite ?E3; [|auto].
    destruct (in_use t TIMER4) eqn:E4; cbn; rewrite ?E3, ?E4;
      [|rewrite <- !app_assoc; auto].
    destruct (in_use t TIMER5) eqn:E5; cbn; rewrite ?E3, ?E4, ?E5;
      [|rewrite <- !app_assoc; auto].
    destruct (in_use t TIMER6) eqn:E6; cbn; rewrite ?E3, ?E4, ?E5, ?E6;
      [|rewrite <- !app_assoc; auto].
    destruct (in_use t TIMER7) eqn:E7; cbn; rewrite ?E3, ?E4, ?E5, ?E6, ?E7;
      rewrite <- !app_assoc; auto. }
  destruct Hgen as (Ha & Hb & Hc).
  split; [exact Ha|]. split; [exact Hb|]. split; [exact Hc|].
  intros Hall. split.
  - rewrite Ha. unfold ranked. cbn [upto_free]. rewrite !Hall. reflexivity.
  - rewrite Hb. unfold first_free, ranked. cbn [find]. rewrite !Hall. reflexivity.
Qed.

Lemma begin_timers_witness :
  asked (fst (snd (begin busy_timers demo_default))) = ranked
  /\ armed (fst (snd (begin busy_timers demo_default))) = None.
Proof.
  apply (begin_timers busy_timers demo_default). intros id. reflexivity.
Defined.

(** C7, as the specification has it, fails: what [begin] returns when all
    timers are in use is what it returns when it gets the first one. *)
Lemma begin_returns_nothing :
  armed (fst (snd (begin busy_timers demo_default))) = None
  /\ armed (fst (snd (begin free_timers demo_default))) = Some (TIMER3, 250)
  /\ fst (begin busy_timers demo_default) = fst (begin free_timers demo_default).
Proof. vm_compute. auto. Qed.

(** ** swapBuffers with a single buffer *)

Lemma init_flags e r s :
  init e r = Some s ->
  double_buffer_enabled s = double_buffer_enabled r /\ swap_requested s = false.
Proof.
  unfold init. cbv zeta.
  destruct (malloc e _) as [blk|]; [|discriminate].
  destruct (double_buffer_enabled r) eqn:Edb.
  - destruct (fillScreen 0 _) as [s1|] eqn:E1; [|discriminate].
    destruct (fillScreen 0 (set_buffers _ _ _ s1)) as [s2|] eqn:E2; [|discriminate].
    destruct (fillScreen_set_heap _ _ _ E1) as [m1 ->].
    destruct (fillScreen_set_heap _ _ _ E2) as [m2 ->].
    intros E. inversion E. cbn. auto.
  - destruct (fillScreen 0 _) as [s1|] eqn:E1; [|discriminate].
    destruct (fillScreen_set_heap _ _ _ E1) as [m1 ->].
    intros E. inversion E. cbn. auto.
Qed.

Lemma step_single o s s' :
  step o s = Some s' ->
  double_buffer_enabled s = false /\ swap_requested s = false ->
  double_buffer_enabled s' = false /\ swap_requested s' = false.
Proof.
  intros Hstep [Hdb Hsw].
  destruct o as [x y c|c| | |t| |]; cbn [step] in Hstep.
  - destruct (drawPixel_set_heap _ _ _ _ _ Hstep) as [m ->]. auto.
  - destruct (fillScreen_set_heap _ _ _ Hstep) as [m ->]. auto.
  - inversion Hstep. unfold swapBuffers. rewrite Hdb. auto.
  - inversion Hstep. auto.
  - inversion Hstep. rewrite begin_panel. auto.
  - inversion Hstep. unfold updateDisplay. rewrite Hsw, andb_false_r.
    destruct (row s =? 15), (plane s =? depth s - 1), (resync_flag s); cbn; auto.
  - inversion Hstep. auto.
Qed.

Lemma run_single os : forall s s',
  run os s = Some s' ->
  double_buffer_enabled s = false /\ swap_requested s = false ->
  double_buffer_enabled s' = false /\ swap_requested s' = false.
Proof.
  induction os as [|o os IH]; intros s s' E Hs; cbn [run] in E.
  - inversion E; subst. exact Hs.
  - destruct (step o s) as [s1|] eqn:E1; [|discriminate].
    exact (IH _ _ E (step_single _ _ _ E1 Hs)).
Qed.

(** C9. In every state reached from a panel constructed with a single
    buffer, by any sequence of operations of the driver, no swap is
    requested and [swapBuffers] changes nothing: the state after the call
    is the state before it, in every field. *)
Theorem swapBuffers_single_noop e x y d s0 os s :
  construct e x y d false = Some s0 ->
  run os s0 = Some s ->
  swap_requested s = false
  /\ swapBuffers s = s
  /\ swap_requested (swapBuffers s) = false.
Proof.
  intros Hc Hrun.
  destruct (init_flags _ _ _ Hc) as [Hdb0 Hsw0]. cbn in Hdb0.
  destruct (run_single os s0 s Hrun (conj Hdb0 Hsw0)) as [Hdb Hsw].
  assert (E : swapBuffers s = s).
  { unfold swapBuffers. rewrite Hdb.
    destruct s; cbn in *. subst. reflexivity. }
  rewrite E. auto.
Qed.

Lemma swapBuffers_single_noop_witness :
  swap_requested demo_single = false
  /\ swapBuffers demo_single = demo_single
  /\ swap_requested (swapBuffers demo_single) = false.
Proof.
  apply (swapBuffers_single_noop demo_env 32 32 3 demo_default demo_ops demo_single);
    [vm_compute; reflexivity | vm_compute; reflexivity].
Defined.

(** ** The colour bytes of fillScreen *)

(** [fillScreen(c)] fills plane [p] of [D] with the triple of the bits
    [11 + D - p] (red), [6 + D - p] (green) and [D - p] (blue) of [c], in
    both halves of the byte. *)
Lemma fillScreen_planes s c :
  wf s ->
  exists s', fillScreen c s = Some s'
    /\ forall p o, 0 <= p < depth s -> 0 <= o < plane_size s ->
         ~ is_control s (p * plane_size s + o) ->
         load (heap s') (back_buffer s + (p * plane_size s + o))
         = Some (fill_color c (depth s - 1 - p)).
Proof.
  intros Hwf. destruct (fillScreen_spec s Hwf c) as (m' & E & U).
  exists (set_heap m' s). split; [exact E|].
  intros p o Hp Ho Hnc. pose proof (plane_size_pos s Hwf) as Hps.
  assert (Hin : 0 <= p * plane_size s + o < buffer_size s)
    by (unfold buffer_size; nia).
  pose proof (back_buffer_inside s Hwf) as Hback.
  destruct (load_inside (heap s) (back_buffer s + (p * plane_size s + o))
              ltac:(lia)) as [v Hv].
  pose proof (proj2 U _ _ Hv) as Hv'.
  rewrite (filled_byte_inside s c _ v Hin) in Hv'.
  assert (Hc : controlb s (p * plane_size s + o) = false).
  { destruct (controlb s (p * plane_size s + o)) eqn:Ec; [|reflexivity].
    exfalso. apply Hnc. apply (control_iff s Hwf _ Hin). exact Ec. }
  rewrite Hc in Hv'.
  assert (Hdiv : (p * plane_size s + o) / plane_size s = p).
  { symmetry. apply (Z.div_unique_pos _ (plane_size s) p o); lia. }
  rewrite Hdiv in Hv'. exact Hv'.
Qed.

Lemma fill_color_triple c q :
  0 <= q ->
  fill_color c q
  = let t := Z.lor (Z.lor (Z.shiftl (Z.b2z (Z.testbit c (12 + q))) 2)
                          (Z.shiftl (Z.b2z (Z.testbit c (7 + q))) 1))
                   (Z.b2z (Z.testbit c (1 + q))) in
    Z.lor (Z.shiftl t 3) t.
Proof.
  intros Hq. unfold fill_color. rewrite !chan_testbit by lia.
  destruct (Z.testbit c (12 + q)), (Z.testbit c (7 + q)), (Z.testbit c (1 + q));
    reflexivity.
Qed.

(** With four planes the bits are those of [drawPixel]: bit [15 - p],
    bit [10 - p] and bit [4 - p]. *)
Lemma fillScreen_four_planes s c :
  wf s -> depth s = 4 ->
  exists s', fillScreen c s = Some s'
    /\ forall p o, 0 <= p < 4 -> 0 <= o < plane_size s ->
         ~ is_control s (p * plane_size s + o) ->
         load (heap s') (back_buffer s + (p * plane_size s + o))
         = Some (Z.lor (Z.shiftl (plane_triple c p) 3) (plane_triple c p)).
Proof.
  intros Hwf HD. destruct (fillScreen_planes s c Hwf) as (s' & E & Hfill).
  exists s'. split; [exact E|]. intros p o Hp Ho Hnc.
  rewrite (Hfill p o ltac:(lia) Ho Hnc), HD.
  rewrite fill_color_triple by lia. cbv zeta. unfold plane_triple.
  replace (12 + (4 - 1 - p)) with (15 - p) by lia.
  replace (7 + (4 - 1 - p)) with (10 - p) by lia.
  replace (1 + (4 - 1 - p)) with (4 - p) by lia. reflexivity.
Qed.

Lemma demo_default_constructed : construct2 demo_env 32 32 = Some demo_default.
Proof. vm_compute. reflexivity. Qed.

(** C6 at a panel made by the two-argument constructor, which has three
    planes.  After [fillScreen(0x8000)], pure red of the top bit, every
    byte of plane 0 that is not a control byte is 0, where the claim has
    [(t << 3) | t = 0x24] for the triple [t = 4] of bit 15; a pixel drawn
    with the same colour does get the red bit in plane 0. *)
Theorem fillScreen_three_planes_red :
  depth demo_default = 3
  /\ plane_triple 32768 0 = 4
  /\ Z.lor (Z.shiftl (plane_triple 32768 0) 3) (plane_triple 32768 0) = 36
  /\ (exists s', fillScreen 32768 demo_default = Some s'
        /\ forall o, 0 <= o < plane_size demo_default ->
             ~ is_control demo_default o ->
             load (heap s') (back_buffer demo_default + o) = Some 0)
  /\ (exists s', drawPixel 0 0 32768 demo_default = Some s'
        /\ load (heap s') (back_buffer demo_default) = Some 32).
Proof.
  split; [vm_compute; reflexivity|]. split; [vm_compute; reflexivity|].
  split; [vm_compute; reflexivity|]. split.
  - assert (Hfits : fits 32 32 3)
      by (vm_compute; repeat split; (reflexivity || discriminate)).
    destruct (reach_wf demo_env 32 32 3 false demo_default [] demo_default Hfits
                demo_default_constructed eq_refl) as (Hwf & _ & _ & _ & HD & _).
    destruct (fillScreen_planes demo_default 32768 Hwf) as (s' & E & Hfill).
    exists s'. split; [exact E|]. intros o Ho Hnc.
    specialize (Hfill 0 o ltac:(lia) Ho).
    rewrite HD in Hfill. change (0 * plane_size demo_default + o) with o in Hfill.
    exact (Hfill Hnc).
  - exists (default no_panel (drawPixel 0 0 32768 demo_default)).
    split; vm_compute; reflexivity.
Qed.

(** ** The first pixel of the second, flipped panel *)

(** C8, as the code has it.  On a panel constructed 32 wide and 64 high
    with three planes, [drawPixel(0, 32, Color444(15, 0, 0))] changes, in
    plane 0 of the back buffer, the byte of row 15 and column
    [2 * 32 - 1 = 63] and no other: the last byte of the row, the one that
    carries the control bits.  It held [0xC0] and holds [0xC4]: bit 2,
    the red of the lower half, is set. *)
Theorem drawPixel_flipped_corner e s :
  construct e 32 64 3 false = Some s ->
  row_size s = 64 /\ plane_size s = 1024
  /\ exists s', drawPixel 0 32 (Color444 15 0 0) s = Some s'
       /\ (forall r col, 0 <= r < 16 -> 0 <= col < 64 ->
             load (heap s') (back_buffer s + (r * 64 + col))
               <> load (heap s) (back_buffer s + (r * 64 + col))
             <-> r = 15 /\ col = 63)
       /\ load (heap s) (back_buffer s + (15 * 64 + 63)) = Some 192
       /\ load (heap s') (back_buffer s + (15 * 64 + 63)) = Some 196
       /\ Z.testbit 196 2 = true.
Proof.
  intros Hc.
  assert (Hfits : fits 32 64 3)
    by (vm_compute; repeat split; (reflexivity || discriminate)).
  destruct (reach_wf e 32 64 3 false s [] s Hfits Hc eq_refl)
    as (Hwf & H16 & HW & HH & HD & _).
  destruct (construct_blank e 32 64 3 false s Hfits Hc) as [_ Hblank].
  assert (Hrs : row_size s = 64) by (rewrite (wf_row_size s Hwf), HW, HH; reflexivity).
  assert (Hps : plane_size s = 1024)
    by (rewrite (wf_plane_size s Hwf), HW, HH; reflexivity).
  split; [exact Hrs|]. split; [exact Hps|].
  destruct (drawPixel_spec s Hwf H16 0 32 ltac:(lia) ltac:(lia) (Color444 15 0 0))
    as (m' & E & U).
  exists (set_heap m' s). split; [exact E|].
  change (heap (set_heap m' s)) with m'.
  assert (Hoff : px_offset s 0 32 = 1023)
    by (unfold px_offset; rewrite Hrs, HW; reflexivity).
  assert (Hbuf : buffer_size s = 3072) by (unfold buffer_size; lia).
  assert (Hread : forall o, 0 <= o < 1024 ->
            load (heap s) (back_buffer s + o)
              = Some (if (o + 1) mod 64 =? 0 then 192 else 0)
            /\ load m' (back_buffer s + o)
               = Some (if o =? 1023 then 196
                       else if (o + 1) mod 64 =? 0 then 192 else 0)).
  { intros o Ho. pose proof (Hblank o ltac:(lia)) as Hv.
    unfold controlb in Hv. rewrite Hrs in Hv. split; [exact Hv|].
    rewrite (proj2 U _ _ Hv). f_equal.
    unfold drawn_byte, hit_plane, px_addr. rewrite Hoff, HD, Hps.
    change (0 <? 3) with true. change (1 <? 3) with true.
    change (2 <? 3) with true. change (3 <? 3) with false. cbn [andb].
    destruct (Z.eqb_spec o 1023) as [->|Hne].
    - destruct (Z.eqb_spec (back_buffer s + 1023) (back_buffer s + 0 * 1024 + 1023));
        [reflexivity|lia].
    - repeat match goal with
      | |- context [(back_buffer s + o =? ?P)] =>
          destruct (Z.eqb_spec (back_buffer s + o) P); [lia|]
      end. reflexivity. }
  split; [|split; [|split]].
  - intros r col Hr Hcol.
    destruct (Hread (r * 64 + col) ltac:(lia)) as [-> ->]. split.
    + intros Hne. destruct (Z.eqb_spec (r * 64 + col) 1023) as [E1|E1]; [lia|].
      contradiction.
    + intros [-> ->]. discriminate.
  - exact (proj1 (Hread (15 * 64 + 63) ltac:(lia))).
  - exact (proj2 (Hread (15 * 64 + 63) ltac:(lia))).
  - reflexivity.
Qed.

Lemma demo_tall_constructed : construct demo_env 32 64 3 false = Some demo_tall.
Proof. vm_compute. reflexivity. Qed.

Lemma drawPixel_flipped_corner_witness :
  row_size demo_tall = 64 /\ plane_size demo_tall = 1024
  /\ exists s', drawPixel 0 32 (Color444 15 0 0) demo_tall = Some s'
       /\ (forall r col, 0 <= r < 16 -> 0 <= col < 64 ->
             load (heap s') (back_buffer demo_tall + (r * 64 + col))
               <> load (heap demo_tall) (back_buffer demo_tall + (r * 64 + col))
             <-> r = 15 /\ col = 63)
       /\ load (heap demo_tall) (back_buffer demo_tall + (15 * 64 + 63)) = Some 192
       /\ load (heap s') (back_buffer demo_tall + (15 * 64 + 63)) = Some 196
       /\ Z.testbit 196 2 = true.
Proof.
  apply (drawPixel_flipped_corner demo_env demo_tall). vm_compute. reflexivity.
Defined.

(** C8, as the specification has it, fails: the byte of row 15 and column
    [2 * 32 - 2], the column before the control byte, is not changed; the
    byte of column [2 * 32 - 1] is. *)
Lemma drawPixel_flipped_corner_column :
  exists s', drawPixel 0 32 (Color444 15 0 0) demo_tall = Some s'
    /\ load (heap s') (back_buffer demo_tall + (15 * row_size demo_tall + (2 * 32 - 2)))
       = load (heap demo_tall)
           (back_buffer demo_tall + (15 * row_size demo_tall + (2 * 32 - 2)))
    /\ load (heap s') (back_buffer demo_tall + (15 * row_size demo_tall + (2 * 32 - 1)))
       <> load (heap demo_tall)
            (back_buffer demo_tall + (15 * row_size demo_tall + (2 * 32 - 1))).
Proof.
  exists (default no_panel (drawPixel 0 32 (Color444 15 0 0) demo_tall)).
  split; [vm_compute; reflexivity|]. split; [vm_compute; reflexivity|].
  vm_compute. discriminate.
Qed.

(** * More of the driver *)

(** ** The cursor of the refresh *)

Lemma ticks_S n s :
  ticks (S n) s
  = (fst (updateDisplay s) ++ fst (ticks n (snd (updateDisplay s))),
     snd (ticks n (snd (updateDisplay s)))).
Proof.
  cbn [ticks]. destruct (updateDisplay s) as [ev s1]. cbn [fst snd].
  destruct (ticks n s1) as [evs s2]. reflexivity.
Qed.

Lemma after_S n s : after (S n) s = after n (snd (updateDisplay s)).
Proof. unfold after. rewrite ticks_S. reflexivity. Qed.

Lemma after_snoc n : forall s,
  after (S n) s = snd (updateDisplay (after n s)).
Proof.
  induction n as [|n IH]; intros s; [rewrite after_S; reflexivity|].
  rewrite after_S, IH, <- after_S. reflexivity.
Qed.

Lemma ticks_snoc n : forall s,
  fst (ticks (S n) s) = fst (ticks n s) ++ fst (updateDisplay (after n s)).
Proof.
  induction n as [|n IH]; intros s.
  - rewrite ticks_S. cbn. rewrite !app_nil_r. reflexivity.
  - rewrite ticks_S, IH. rewrite (ticks_S n s). cbn [fst].
    rewrite <- app_assoc. rewrite <- after_S. reflexivity.
Qed.

Lemma updateDisplay_shape s : same_shape s (snd (updateDisplay s)).
Proof. apply same_frame_shape, updateDisplay_same_frame. Qed.

Lemma after_run n : forall s, run (replicate n OpTick) s = Some (after n s).
Proof.
  induction n as [|n IH]; intros s; [reflexivity|].
  rewrite after_S. cbn [replicate run step]. apply IH.
Qed.

Lemma after_shape n s : same_shape s (after n s).
Proof. apply (run_shape (replicate n OpTick)), after_run. Qed.

Lemma after_heap n : forall s, heap (after n s) = heap s.
Proof.
  induction n as [|n IH]; intros s; [reflexivity|].
  rewrite after_S, IH.
  pose proof (updateDisplay_same_frame s) as (_ & _ & _ & _ & _ & _ & E & _).
  exact E.
Qed.

(** One interrupt moves the cursor one place on, round the frame. *)
Lemma updateDisplay_lin s :
  cursor_ok s -> depth s <= 4096 ->
  cursor_ok (snd (updateDisplay s))
  /\ lin (snd (updateDisplay s)) = (lin s + 1) mod (16 * depth s).
Proof.
  intros [Hr Hp] HD.
  pose proof (updateDisplay_shape s) as (_ & _ & ED & _).
  destruct (updateDisplay_cursor s) as [H15 Hn15].
  unfold cursor_ok, lin. rewrite ED.
  destruct (Z.eq_dec (row s) 15) as [E|NE].
  - destruct (H15 E) as [-> ->].
    destruct (Z.eqb_spec (plane s) (depth s - 1)) as [Ep|NEp].
    + split; [lia|]. rewrite E, Ep.
      replace ((depth s - 1) * 16 + 15 + 1) with (1 * (16 * depth s)) by lia.
      rewrite Z.mod_mul by lia. reflexivity.
    + assert (Hu : to_uint16 (plane s + 1) = plane s + 1)
        by (unfold to_uint16; apply Z.mod_small; lia).
      rewrite Hu. split; [lia|]. rewrite Z.mod_small; lia.
  - destruct (Hn15 NE) as [-> ->].
    assert (Hu : to_uint16 (row s + 1) = row s + 1)
      by (unfold to_uint16; apply Z.mod_small; lia).
    rewrite Hu. split; [lia|]. rewrite Z.mod_small; lia.
Qed.

Lemma after_lin n : forall s,
  cursor_ok s -> depth s <= 4096 ->
  cursor_ok (after n s)
  /\ lin (after n s) = (lin s + Z.of_nat n) mod (16 * depth s).
Proof.
  induction n as [|n IH]; intros s Hc HD.
  - unfold after. cbn [ticks snd]. split; [exact Hc|].
    destruct Hc as [Hr Hp]. unfold lin. rewrite Z.add_0_r, Z.mod_small; lia.
  - rewrite after_S.
    destruct (updateDisplay_lin s Hc HD) as [Hc1 Hl1].
    pose proof (updateDisplay_shape s) as (_ & _ & ED & _).
    destruct (IH _ Hc1 ltac:(lia)) as [Hc2 Hl2].
    split; [exact Hc2|]. rewrite Hl2, Hl1, ED.
    rewrite Zplus_mod_idemp_l. f_equal. lia.
Qed.

Lemma cursor_of_lin s s' :
  cursor_ok s -> cursor_ok s' -> lin s' = lin s ->
  row s' = row s /\ plane s' = plane s.
Proof. unfold cursor_ok, lin. lia. Qed.

Lemma step_cursor o s s' :
  1 <= depth s <= 4 -> step o s = Some s' -> cursor_ok s -> cursor_ok s'.
Proof.
  intros HD Hs Hc. destruct o; cbn [step] in Hs.
  - destruct (drawPixel_set_heap _ _ _ _ _ Hs) as [m ->]. exact Hc.
  - destruct (fillScreen_set_heap _ _ _ Hs) as [m ->]. exact Hc.
  - injection Hs as <-. unfold swapBuffers.
    destruct (double_buffer_enabled s); exact Hc.
  - injection Hs as <-. exact Hc.
  - injection Hs as <-. rewrite begin_panel. unfold cursor_ok. cbn.
    unfold to_uint16. rewrite Z.mod_small by lia. lia.
  - injection Hs as <-. apply updateDisplay_lin; [exact Hc | lia].
  - injection Hs as <-. exact Hc.
Qed.

Lemma run_cursor os : forall s s',
  1 <= depth s <= 4 -> run os s = Some s' -> cursor_ok s -> cursor_ok s'.
Proof.
  induction os as [|o os IH]; intros s s' HD Hr Hc; cbn [run] in Hr.
  - injection Hr as <-. exact Hc.
  - destruct (step o s) as [s1|] eqn:Hs; [|discriminate].
    pose proof (step_shape _ _ _ Hs) as (_ & _ & ED & _).
    apply (IH s1); [rewrite ED; exact HD | exact Hr |].
    exact (step_cursor _ _ _ HD Hs Hc).
Qed.

(** What holds in every state of a running driver. *)
Lemma reached_inv W H D db s :
  reached W H D db s ->
  frame_ok s /\ row_size s <= 32768
  /\ width s = W /\ height s = H /\ depth s = D
  /\ double_buffer_enabled s = db
  /\ cursor_ok s.
Proof.
  intros (Hfits & e & s0 & os & Hc & Hrun).
  destruct (reach_wf e W H D db s0 os s Hfits Hc Hrun) as (_ & H16 & EW & EH & ED & Edb).
  destruct (fits_uint16 W H D Hfits) as (HW16 & HH16 & _).
  destruct Hfits as (HW & HW32 & HH & HH32 & HD & _).
  destruct (construct_frame_ok e W H D db s0 HW16 HW32 HH16 HH32 HD Hc)
    as (Hok & _ & _ & _ & _ & ED0 & _ & _ & Er & Ep).
  split; [exact (run_frame_keeps os s0 s Hok Hrun)|].
  repeat (split; [assumption|]).
  apply (run_cursor os s0 s); [lia | exact Hrun |].
  unfold cursor_ok. lia.
Qed.

Lemma reached_step W H D db s o s' :
  reached W H D db s -> step o s = Some s' -> reached W H D db s'.
Proof.
  intros (Hfits & e & s0 & os & Hc & Hrun) Hs.
  split; [exact Hfits|]. exists e, s0, (os ++ [o]). split; [exact Hc|].
  clear Hc. revert s0 Hrun. induction os as [|o1 os IH]; intros s0 Hrun.
  - injection Hrun as ->. cbn [app run]. rewrite Hs. reflexivity.
  - cbn [app run] in *. destruct (step o1 s0); [auto | discriminate].
Qed.

Lemma reached_after W H D db s n :
  reached W H D db s -> reached W H D db (after n s).
Proof.
  revert s. induction n as [|n IH]; intros s Hr; [exact Hr|].
  rewrite after_S. apply IH. apply (reached_step W H D db s OpTick); auto.
Qed.

(** A running driver whose rows are at most 32768 bytes long. *)
Lemma built_reached W H D db s :
  built W H D db s -> W * (H / 32) <= 32768 -> reached W H D db s.
Proof.
  intros ((HW & HW32) & (HH & HH32) & HD & Hex) H16.
  split; [|exact Hex]. unfold fits. repeat split; (lia || assumption).
Qed.


Lemma ticks_add n k : forall s,
  fst (ticks (n + k) s) = fst (ticks n s) ++ fst (ticks k (after n s))
  /\ after (n + k) s = after k (after n s).
Proof.
  induction n as [|n IH]; intros s; [split; reflexivity|].
  cbn [Nat.add]. rewrite !ticks_S, !after_S. cbn [fst].
  destruct (IH (snd (updateDisplay s))) as [-> ->].
  rewrite app_assoc. split; reflexivity.
Qed.

Lemma updateDisplay_transfer s :
  transfers (fst (updateDisplay s))
  = [(front_buffer (snd (updateDisplay s))
        + plane (snd (updateDisplay s)) * plane_size s
        + row (snd (updateDisplay s)) * row_size s,
      row_size s)].
Proof.
  unfold updateDisplay.
  destruct (row s =? 15), (plane s =? depth s - 1), (resync_flag s),
    (swap_requested s); reflexivity.
Qed.

Lemma transfers_app l1 l2 : transfers (l1 ++ l2) = transfers l1 ++ transfers l2.
Proof. unfold transfers. apply flat_map_app. Qed.

Lemma periods_app l1 l2 : periods (l1 ++ l2) = periods l1 ++ periods l2.
Proof. unfold periods. apply flat_map_app. Qed.

Lemma clr_events_app l1 l2 :
  clr_events (l1 ++ l2) = clr_events l1 ++ clr_events l2.
Proof. unfold clr_events. apply List.filter_app. Qed.

(** The interrupt away from the end of a frame leaves the buffers and the
    two flags alone; at the end of a frame it serves both. *)
Lemma updateDisplay_mid_frame s :
  ~ (row s = 15 /\ plane s = depth s - 1) ->
  front_buffer (snd (updateDisplay s)) = front_buffer s
  /\ back_buffer (snd (updateDisplay s)) = back_buffer s
  /\ swap_requested (snd (updateDisplay s)) = swap_requested s
  /\ resync_flag (snd (updateDisplay s)) = resync_flag s
  /\ clr_events (fst (updateDisplay s)) = [].
Proof.
  unfold updateDisplay.
  destruct (Z.eqb_spec (row s) 15), (Z.eqb_spec (plane s) (depth s - 1)),
    (resync_flag s), (swap_requested s); cbn; intros Hne;
    repeat split; try reflexivity; exfalso; apply Hne; split; assumption.
Qed.

Lemma updateDisplay_frame_end s :
  row s = 15 -> plane s = depth s - 1 ->
  front_buffer (snd (updateDisplay s))
    = (if swap_requested s then back_buffer s else front_buffer s)
  /\ back_buffer (snd (updateDisplay s))
     = (if swap_requested s then front_buffer s else back_buffer s)
  /\ swap_requested (snd (updateDisplay s)) = false
  /\ resync_flag (snd (updateDisplay s)) = false
  /\ clr_events (fst (updateDisplay s))
     = (if resync_flag s then [PinReset clr_pin; PinSet clr_pin] else [])
  /\ row (snd (updateDisplay s)) = 0 /\ plane (snd (updateDisplay s)) = 0.
Proof.
  intros Hr Hp. unfold updateDisplay. rewrite Hr, Hp, !Z.eqb_refl.
  cbn [andb].
  destruct (resync_flag s), (swap_requested s); cbn; repeat split; reflexivity.
Qed.

(** Up to the end of the frame nothing happens to the buffers, the flags
    and the clear line. *)
Lemma ticks_mid_frame n : forall s,
  cursor_ok s -> depth s <= 4096 -> (n <= to_frame_end s)%nat ->
  front_buffer (after n s) = front_buffer s
  /\ back_buffer (after n s) = back_buffer s
  /\ swap_requested (after n s) = swap_requested s
  /\ resync_flag (after n s) = resync_flag s
  /\ clr_events (fst (ticks n s)) = []
  /\ cursor_ok (after n s)
  /\ lin (after n s) = lin s + Z.of_nat n.
Proof.
  induction n as [|n IH]; intros s Hc HD Hn.
  - unfold after. cbn. repeat split; try apply Hc. lia.
  - assert (Hlin : lin s < 16 * depth s - 1).
    { unfold to_frame_end in Hn. lia. }
    assert (Hmid : ~ (row s = 15 /\ plane s = depth s - 1)).
    { unfold lin in Hlin. lia. }
    destruct (updateDisplay_mid_frame s Hmid) as (F & B & Sw & Rf & Cl).
    destruct (updateDisplay_lin s Hc HD) as [Hc1 Hl1].
    pose proof (updateDisplay_shape s) as (_ & _ & ED & _).
    rewrite Z.mod_small in Hl1 by (destruct Hc as [? ?]; unfold lin in *; lia).
    destruct (IH (snd (updateDisplay s)) Hc1 ltac:(lia)) as (F2 & B2 & Sw2 & Rf2 & Cl2 & Hc2 & Hl2).
    { unfold to_frame_end in *. rewrite ED, Hl1. lia. }
    rewrite after_S, ticks_S. cbn [fst]. rewrite clr_events_app, Cl, Cl2.
    repeat split; try congruence; try apply Hc2. lia.
Qed.

Lemma at_frame_end s :
  cursor_ok s -> depth s <= 4096 ->
  row (after (to_frame_end s) s) = 15
  /\ plane (after (to_frame_end s) s) = depth s - 1.
Proof.
  intros Hc HD.
  destruct (ticks_mid_frame (to_frame_end s) s Hc HD (le_n _))
    as (_ & _ & _ & _ & _ & [Hr Hp] & Hl).
  pose proof (after_shape (to_frame_end s) s) as (_ & _ & ED & _).
  rewrite ED in Hp. destruct Hc as [Hr0 Hp0].
  assert (En : Z.of_nat (to_frame_end s) = 16 * depth s - 1 - lin s)
    by (unfold to_frame_end, lin; lia).
  rewrite En in Hl. unfold lin in Hl. lia.
Qed.

(** Without a resync request the clear line is never touched. *)
Lemma ticks_no_clr n : forall s,
  resync_flag s = false ->
  clr_events (fst (ticks n s)) = [] /\ resync_flag (after n s) = false.
Proof.
  induction n as [|n IH]; intros s Hf; [split; [reflexivity | exact Hf]|].
  rewrite ticks_S, after_S. cbn [fst]. rewrite clr_events_app.
  assert (H1 : clr_events (fst (updateDisplay s)) = []
               /\ resync_flag (snd (updateDisplay s)) = false).
  { unfold updateDisplay. rewrite Hf.
    destruct (row s =? 15), (plane s =? depth s - 1), (swap_requested s);
      split; reflexivity. }
  destruct H1 as [-> Hf1]. destruct (IH _ Hf1) as [-> ->]. split; reflexivity.
Qed.

Lemma periods_ticks n : forall s,
  periods (fst (ticks n s)) = periods_from n (depth s) (row s) (plane s).
Proof.
  induction n as [|n IH]; intros s; [reflexivity|].
  rewrite ticks_S. cbn [fst periods_from]. rewrite periods_app, updateDisplay_period.
  rewrite IH. pose proof (updateDisplay_shape s) as (_ & _ & -> & _).
  destruct (updateDisplay_cursor s) as [H15 Hn15]. cbn [app].
  f_equal. destruct (Z.eqb_spec (row s) 15) as [E|NE].
  - destruct (H15 E) as [-> ->]. reflexivity.
  - destruct (Hn15 NE) as [-> ->]. reflexivity.
Qed.

Lemma cursors_in D r p :
  0 <= D -> 0 <= r <= 15 -> 0 <= p < D -> In (r, p) (cursors D).
Proof.
  intros HD Hr Hp. unfold cursors. apply in_flat_map.
  exists (Z.to_nat p). split.
  - apply in_seq. lia.
  - apply in_map_iff. exists (Z.to_nat r). split.
    + rewrite !Z2Nat.id by lia. reflexivity.
    + apply in_seq. lia.
Qed.

(** X1. In every state of a running driver the cursor of the refresh is on
    one of the 16 rows of one of the [D] planes. *)
Theorem cursor_stays_in_frame W H D db s :
  reached W H D db s ->
  0 <= row s <= 15 /\ 0 <= plane s < D.
Proof.
  intros Hr. destruct (reached_inv _ _ _ _ _ Hr) as (_ & _ & _ & _ & ED & _ & Hc).
  rewrite <- ED. exact Hc.
Qed.

Lemma cursor_stays_in_frame_witness :
  0 <= row demo_state <= 15 /\ 0 <= plane demo_state < 2.
Proof.
  apply (cursor_stays_in_frame 32 32 2 true demo_state).
  split; [vm_compute; repeat split; (reflexivity || discriminate)|].
  exists demo_env, demo_double, demo_ops.
  split; vm_compute; reflexivity.
Defined.

(** X2. Every SPI transfer that the timer interrupts of a running driver
    start is one row long, starts at a row of a plane of one of the two
    frame buffers, and lies inside the block. *)
Theorem transfers_inside_block W H D db s n a len :
  reached W H D db s ->
  In (a, len) (transfers (fst (ticks n s))) ->
  len = W * (H / 32)
  /\ 0 <= a /\ a + len <= block_size (heap s)
  /\ exists base r p,
       (base = front_buffer s \/ base = back_buffer s)
       /\ 0 <= r <= 15 /\ 0 <= p < D
       /\ a = base + p * plane_size s + r * row_size s.
Proof.
  revert s. induction n as [|n IH]; intros s Hr Hin; [destruct Hin|].
  rewrite ticks_S in Hin. cbn [fst] in Hin.
  rewrite transfers_app, updateDisplay_transfer in Hin.
  assert (Hr1 : reached W H D db (snd (updateDisplay s)))
    by (apply (reached_step W H D db s OpTick); auto).
  pose proof (updateDisplay_same_frame s)
    as (_ & _ & _ & Ers & Eps & _ & Eheap & Ebuf).
  destruct (reached_inv _ _ _ _ _ Hr) as (Hok & _ & EW & EH & ED & _ & _).
  destruct Hok as (Hwf & _ & _).
  destruct (reached_inv _ _ _ _ _ Hr1) as (_ & _ & _ & _ & ED1 & _ & Hc1).
  pose proof (front_buffer_inside s Hwf) as HF.
  pose proof (back_buffer_inside s Hwf) as HB.
  pose proof (plane_rows s Hwf) as Hpr.
  pose proof (row_size_pos s Hwf) as Hrp.
  destruct Hin as [Hin | Hin].
  - injection Hin as <- <-. destruct Hc1 as [Hrow Hpl]. rewrite ED1 in Hpl.
    set (r := row (snd (updateDisplay s))) in *.
    set (p := plane (snd (updateDisplay s))) in *.
    set (base := front_buffer (snd (updateDisplay s))) in *.
    assert (Hbase : base = front_buffer s \/ base = back_buffer s)
      by (destruct Ebuf as [[-> _] | [-> _]]; auto).
    assert (Hoff : 0 <= p * plane_size s + r * row_size s
                   /\ p * plane_size s + r * row_size s + row_size s
                      <= buffer_size s).
    { unfold buffer_size. rewrite Hpr, ED. nia. }
    split; [rewrite (wf_row_size s Hwf), EW, EH; reflexivity|].
    split; [destruct Hbase as [-> | ->]; lia|].
    split; [destruct Hbase as [-> | ->]; lia|].
    exists base, r, p. auto.
  - destruct (IH _ Hr1 Hin) as (El & Ha0 & Ha1 & base & r & p & Hbase & Hrr & Hpp & Ea).
    rewrite Eheap in Ha1. rewrite Ers, Eps in Ea.
    split; [exact El|]. split; [exact Ha0|]. split; [exact Ha1|].
    exists base, r, p. split; [|auto].
    destruct Ebuf as [[E1 E2] | [E1 E2]]; rewrite E1, E2 in Hbase; tauto.
Qed.

Lemma transfers_inside_block_witness :
  In (192, 32) (transfers (fst (ticks 5 demo_state)))
  /\ 32 = 32 * (32 / 32)
  /\ 0 <= 192 /\ 192 + 32 <= block_size (heap demo_state).
Proof.
  assert (Hin : In (192, 32) (transfers (fst (ticks 5 demo_state)))).
  { vm_compute. do 4 right. left. reflexivity. }
  destruct (transfers_inside_block 32 32 2 true demo_state 5 192 32)
    as (E & A0 & A1 & _).
  - split; [vm_compute; repeat split; (reflexivity || discriminate)|].
    exists demo_env, demo_double, demo_ops.
    split; vm_compute; reflexivity.
  - exact Hin.
  - exact (conj Hin (conj E (conj A0 A1))).
Defined.

Ltac sizes_ok := vm_compute; repeat split; (reflexivity || discriminate).

Ltac built_from s0 os :=
  split; [sizes_ok|]; split; [sizes_ok|]; split; [sizes_ok|];
  exists demo_env, s0, os; split; vm_compute; reflexivity.

Ltac demo_built := built_from demo_double demo_ops.

Ltac demo_reached :=
  split;
  [ vm_compute; repeat split; (reflexivity || discriminate)
  | exists demo_env, demo_double, demo_ops; split; vm_compute; reflexivity ].

(** X3. The refresh is periodic: [16 * D] timer interrupts bring the cursor
    back to where it was, and no smaller positive number does. *)
Theorem cursor_period W H D db s :
  reached W H D db s ->
  (row (after (Z.to_nat (16 * D)) s) = row s
   /\ plane (after (Z.to_nat (16 * D)) s) = plane s)
  /\ forall n, (0 < n < Z.to_nat (16 * D))%nat ->
       ~ (row (after n s) = row s /\ plane (after n s) = plane s).
Proof.
  intros Hr. destruct (reached_inv _ _ _ _ _ Hr) as (Hok & _ & _ & _ & ED & _ & Hc).
  destruct Hok as (Hwf & _ & _). pose proof (wf_depth s Hwf) as HD.
  assert (Hlin : 0 <= lin s < 16 * D) by (destruct Hc; unfold lin; lia).
  split.
  - destruct (after_lin (Z.to_nat (16 * D)) s Hc ltac:(lia)) as [Hc' Hl].
    apply cursor_of_lin; [exact Hc | exact Hc' |].
    rewrite Hl, ED, Z2Nat.id by lia.
    replace (lin s + 16 * D) with (lin s + 1 * (16 * D)) by lia.
    rewrite Z.mod_add by lia. apply Z.mod_small. exact Hlin.
  - intros n Hn [Er Ep].
    destruct (after_lin n s Hc ltac:(lia)) as [Hc' Hl].
    assert (El : lin (after n s) = lin s) by (unfold lin; congruence).
    rewrite El, ED in Hl.
    destruct (Z_lt_le_dec (lin s + Z.of_nat n) (16 * D)) as [Hlt|Hge].
    + rewrite Z.mod_small in Hl by lia. lia.
    + replace (lin s + Z.of_nat n)
        with (lin s + Z.of_nat n - 16 * D + 1 * (16 * D)) in Hl by lia.
      rewrite Z.mod_add, Z.mod_small in Hl by lia. lia.
Qed.

Lemma cursor_period_witness :
  (row (after (Z.to_nat (16 * 2)) demo_state) = row demo_state
   /\ plane (after (Z.to_nat (16 * 2)) demo_state) = plane demo_state)
  /\ forall n, (0 < n < Z.to_nat (16 * 2))%nat ->
       ~ (row (after n demo_state) = row demo_state
          /\ plane (after n demo_state) = plane demo_state).
Proof. apply (cursor_period 32 32 2 true demo_state). demo_reached. Defined.

(** X4. With two buffers, a swap requested by [swapBuffers] waits for the
    end of the frame: the interrupts up to the one that finds the cursor on
    the last row of the last plane leave the buffers as they are and the
    request pending; that interrupt exchanges the two buffers, clears the
    request and starts the new frame on row 0 of plane 0.  The block is not
    touched. *)
Theorem swap_waits_for_frame_end W H D s :
  reached W H D true s ->
  (forall n, (n <= to_frame_end s)%nat ->
     front_buffer (after n (swapBuffers s)) = front_buffer s
     /\ back_buffer (after n (swapBuffers s)) = back_buffer s
     /\ swap_requested (after n (swapBuffers s)) = true)
  /\ front_buffer (after (S (to_frame_end s)) (swapBuffers s)) = back_buffer s
  /\ back_buffer (after (S (to_frame_end s)) (swapBuffers s)) = front_buffer s
  /\ swap_requested (after (S (to_frame_end s)) (swapBuffers s)) = false
  /\ row (after (S (to_frame_end s)) (swapBuffers s)) = 0
  /\ plane (after (S (to_frame_end s)) (swapBuffers s)) = 0
  /\ heap (after (S (to_frame_end s)) (swapBuffers s)) = heap s.
Proof.
  intros Hr. destruct (reached_inv _ _ _ _ _ Hr) as (Hok & _ & _ & _ & ED & Edb & Hc).
  destruct Hok as (Hwf & _ & _). pose proof (wf_depth s Hwf) as HD.
  assert (Es : swapBuffers s = set_cursor true (row s) (plane s) s)
    by (unfold swapBuffers; rewrite Edb; reflexivity).
  set (s1 := swapBuffers s) in *.
  assert (Hc1 : cursor_ok s1) by (rewrite Es; exact Hc).
  assert (HD1 : depth s1 = depth s) by (rewrite Es; reflexivity).
  assert (Ht : to_frame_end s1 = to_frame_end s) by (rewrite Es; reflexivity).
  assert (Hmid : forall n, (n <= to_frame_end s)%nat ->
            front_buffer (after n s1) = front_buffer s
            /\ back_buffer (after n s1) = back_buffer s
            /\ swap_requested (after n s1) = true).
  { intros n Hn.
    destruct (ticks_mid_frame n s1 Hc1 ltac:(lia) ltac:(lia))
      as (F & B & Sw & _).
    rewrite F, B, Sw, Es. repeat split; reflexivity. }
  split; [exact Hmid|].
  destruct (Hmid (to_frame_end s) (le_n _)) as (F & B & Sw).
  destruct (at_frame_end s1 Hc1 ltac:(lia)) as [Er Ep].
  rewrite Ht in Er, Ep.
  pose proof (after_shape (to_frame_end s) s1) as (_ & _ & ED2 & _).
  rewrite <- ED2 in Ep.
  destruct (updateDisplay_frame_end _ Er Ep) as (F' & B' & Sw' & _ & _ & R' & P').
  rewrite Sw in F', B'. cbn iota in F', B'. rewrite B in F'. rewrite F in B'.
  rewrite after_snoc. repeat (split; [assumption|]).
  pose proof (updateDisplay_same_frame (after (to_frame_end s) s1))
    as (_ & _ & _ & _ & _ & _ & -> & _).
  rewrite after_heap, Es. reflexivity.
Qed.

Lemma swap_waits_for_frame_end_witness :
  (forall n, (n <= to_frame_end demo_state)%nat ->
     front_buffer (after n (swapBuffers demo_state)) = front_buffer demo_state
     /\ back_buffer (after n (swapBuffers demo_state)) = back_buffer demo_state
     /\ swap_requested (after n (swapBuffers demo_state)) = true)
  /\ front_buffer (after (S (to_frame_end demo_state)) (swapBuffers demo_state))
     = back_buffer demo_state
  /\ back_buffer (after (S (to_frame_end demo_state)) (swapBuffers demo_state))
     = front_buffer demo_state
  /\ swap_requested (after (S (to_frame_end demo_state)) (swapBuffers demo_state))
     = false
  /\ row (after (S (to_frame_end demo_state)) (swapBuffers demo_state)) = 0
  /\ plane (after (S (to_frame_end demo_state)) (swapBuffers demo_state)) = 0
  /\ heap (after (S (to_frame_end demo_state)) (swapBuffers demo_state))
     = heap demo_state.
Proof. apply (swap_waits_for_frame_end 32 32 2 demo_state). demo_reached. Defined.

(** X5. After [resync] the clear line of the CPLD is pulsed exactly once,
    low then high, by the interrupt that finds the cursor on the last row
    of the last plane: the interrupts before it leave the line alone, and
    so do all the interrupts after it. *)
Theorem resync_pulses_clear_once W H D db s n :
  reached W H D db s ->
  clr_events (fst (ticks n (resync s)))
  = if (n <=? to_frame_end s)%nat then []
    else [PinReset clr_pin; PinSet clr_pin].
Proof.
  intros Hr. destruct (reached_inv _ _ _ _ _ Hr) as (Hok & _ & _ & _ & ED & _ & Hc).
  destruct Hok as (Hwf & _ & _). pose proof (wf_depth s Hwf) as HD.
  set (s1 := resync s).
  assert (Hc1 : cursor_ok s1) by exact Hc.
  assert (Ht : to_frame_end s1 = to_frame_end s) by reflexivity.
  assert (HD1 : depth s1 = depth s) by reflexivity.
  destruct (Nat.leb_spec n (to_frame_end s)) as [Hn|Hn].
  - destruct (ticks_mid_frame n s1 Hc1 ltac:(lia) ltac:(lia))
      as (_ & _ & _ & _ & Cl & _). exact Cl.
  - set (m := to_frame_end s) in *.
    replace n with (m + S (n - S m))%nat by lia.
    destruct (ticks_add m (S (n - S m)) s1) as [-> _].
    destruct (ticks_mid_frame m s1 Hc1 ltac:(lia) ltac:(lia))
      as (_ & _ & _ & Rf & Cl & _).
    rewrite clr_events_app, Cl, ticks_S. cbn [fst app].
    destruct (at_frame_end s1 Hc1 ltac:(lia)) as [Er Ep].
    rewrite Ht in Er, Ep. fold m in Er, Ep.
    pose proof (after_shape m s1) as (_ & _ & ED2 & _).
    rewrite <- ED2 in Ep.
    destruct (updateDisplay_frame_end _ Er Ep) as (_ & _ & _ & Rf' & Cl' & _).
    rewrite Rf in Cl'. cbn in Cl'.
    destruct (ticks_no_clr (n - S m) _ Rf') as [Cl2 _].
    rewrite clr_events_app, Cl', Cl2. reflexivity.
Qed.

Lemma resync_pulses_clear_once_witness :
  clr_events (fst (ticks 40 (resync demo_state)))
  = if (40 <=? to_frame_end demo_state)%nat then []
    else [PinReset clr_pin; PinSet clr_pin].
Proof. apply (resync_pulses_clear_once 32 32 2 true demo_state 40). demo_reached. Defined.

(** X6. The interrupts never touch the clear line unless a resync was
    requested: from a state whose [resync_flag] is clear, no number of
    interrupts sets or resets [clr_pin]. *)
Theorem no_clear_without_resync s n :
  resync_flag s = false ->
  clr_events (fst (ticks n s)) = [] /\ resync_flag (after n s) = false.
Proof. apply ticks_no_clr. Qed.

Lemma no_clear_without_resync_witness :
  clr_events (fst (ticks 70 demo_started)) = []
  /\ resync_flag (after 70 demo_started) = false.
Proof. apply (no_clear_without_resync demo_started 70). vm_compute. reflexivity. Defined.

(** X7. The first interrupt after [begin], whatever the state [begin] was
    called in and whichever timer it got: it raises the output-enable line,
    pulses the clear line, programs the shortest period, 74 microseconds,
    sends row 0 of plane 0 of the front buffer and lowers output enable
    again; the resync request is served and [rowComplete] is 0. *)
Theorem first_tick_after_begin W H D db s t :
  reached W H D db s ->
  fst (updateDisplay (snd (snd (begin t s))))
  = [PinSet oe_pin; PinReset clr_pin; PinSet clr_pin; ResetPeriod 74;
     SpiTransfer
       (front_buffer (snd (updateDisplay (snd (snd (begin t s))))))
       (W * (H / 32));
     PinReset oe_pin]
  /\ row (snd (updateDisplay (snd (snd (begin t s))))) = 0
  /\ plane (snd (updateDisplay (snd (snd (begin t s))))) = 0
  /\ resync_flag (snd (updateDisplay (snd (snd (begin t s))))) = false
  /\ rowComplete (snd (updateDisplay (snd (snd (begin t s))))) = 0.
Proof.
  intros Hr. destruct (reached_inv _ _ _ _ _ Hr) as (Hok & _ & EW & EH & ED & _ & _).
  destruct Hok as (Hwf & _ & _). pose proof (wf_depth s Hwf) as HD.
  rewrite begin_panel. rewrite <- EW, <- EH, <- (wf_row_size s Hwf).
  unfold resync, updateDisplay. cbn [row plane depth resync_flag swap_requested
    front_buffer back_buffer row_size plane_size width height heap
    double_buffer_enabled rowComplete].
  assert (Eu : to_uint16 (depth s - 1) = depth s - 1)
    by (unfold to_uint16; apply Z.mod_small; lia).
  rewrite Eu, !Z.eqb_refl.
  replace (depth s - (depth s - 1) - 1) with 0 by lia.
  cbn [andb]. destruct (swap_requested s); cbn; repeat split;
    repeat f_equal; lia.
Qed.

Lemma first_tick_after_begin_witness :
  fst (updateDisplay (snd (snd (begin busy_timers demo_state))))
  = [PinSet oe_pin; PinReset clr_pin; PinSet clr_pin; ResetPeriod 74;
     SpiTransfer
       (front_buffer (snd (updateDisplay (snd (snd (begin busy_timers demo_state))))))
       (32 * (32 / 32));
     PinReset oe_pin]
  /\ row (snd (updateDisplay (snd (snd (begin busy_timers demo_state))))) = 0
  /\ plane (snd (updateDisplay (snd (snd (begin busy_timers demo_state))))) = 0
  /\ resync_flag (snd (updateDisplay (snd (snd (begin busy_timers demo_state)))))
     = false
  /\ rowComplete (snd (updateDisplay (snd (snd (begin busy_timers demo_state)))))
     = 0.
Proof.
  apply (first_tick_after_begin 32 32 2 true demo_state busy_timers).
  demo_reached.
Defined.

Lemma frame_time_checked D : 1 <= D <= 4 -> frame_time_check D = true.
Proof.
  intros HD. assert (Hcases : D = 1 \/ D = 2 \/ D = 3 \/ D = 4) by lia.
  destruct Hcases as [-> | [-> | [-> | ->]]]; vm_compute; reflexivity.
Qed.

(** X8. One frame takes [1184 * (2 ^ D - 1)] microseconds on the timer:
    wherever the cursor is, the periods that the next [16 * D] interrupts
    program add up to 16 times 74 times [2 ^ (D - 1) + ... + 2 + 1]. *)
Theorem frame_time W H D db s :
  reached W H D db s ->
  total (periods (fst (ticks (Z.to_nat (16 * D)) s))) = 1184 * (2 ^ D - 1).
Proof.
  intros Hr. destruct (reached_inv _ _ _ _ _ Hr) as (Hok & _ & _ & _ & ED & _ & Hc).
  destruct Hok as (Hwf & _ & _). pose proof (wf_depth s Hwf) as HD.
  rewrite ED in HD. destruct Hc as [Hrow Hpl]. rewrite ED in Hpl.
  rewrite periods_ticks, ED.
  pose proof (frame_time_checked D HD) as Hchk. unfold frame_time_check in Hchk.
  rewrite forallb_forall in Hchk.
  specialize (Hchk (row s, plane s) (cursors_in D _ _ ltac:(lia) Hrow Hpl)).
  cbn beta iota in Hchk. apply Z.eqb_eq in Hchk. exact Hchk.
Qed.

Lemma frame_time_witness :
  total (periods (fst (ticks (Z.to_nat (16 * 2)) demo_state)))
  = 1184 * (2 ^ 2 - 1).
Proof. apply (frame_time 32 32 2 true demo_state). demo_reached. Defined.

(** ** What drawing changes *)

Lemma block_ext m m' :
  block_size m = block_size m' ->
  (forall a v, load m a = Some v -> load m' a = Some v) ->
  m = m'.
Proof.
  intros Hsz Hld. apply list_eq. intros i.
  unfold block_size in Hsz.
  destruct (m !! i) as [v|] eqn:E.
  - specialize (Hld (Z.of_nat i) v). unfold load in Hld.
    rewrite Nat2Z.id in Hld.
    destruct (Z.leb_spec 0 (Z.of_nat i)); [|lia].
    symmetry. apply Hld. exact E.
  - apply lookup_ge_None in E. symmetry. apply lookup_ge_None. lia.
Qed.

Lemma updated_unique m m1 m2 f g :
  updated m m1 f -> updated m m2 g ->
  (forall a v, load m a = Some v -> f a v = g a v) ->
  m1 = m2.
Proof.
  intros [S1 U1] [S2 U2] Hfg. apply block_ext; [congruence|].
  intros a v Hv.
  destruct (load m a) as [v0|] eqn:E.
  - rewrite (U1 _ _ E) in Hv. rewrite (U2 _ _ E), <- Hfg by exact E. exact Hv.
  - apply load_Some_inside in Hv. rewrite S1 in Hv.
    destruct (load_inside m a Hv) as [v0 E0]. congruence.
Qed.

Lemma updated_load m m' f a :
  updated m m' f ->
  (forall v, load m a = Some v -> f a v = v) ->
  load m' a = load m a.
Proof.
  intros [Hsz U] Hf. destruct (load m a) as [v|] eqn:E.
  - rewrite (U _ _ E), Hf; reflexivity.
  - destruct (load m' a) as [v'|] eqn:E'; [|reflexivity].
    apply load_Some_inside in E'. rewrite Hsz in E'.
    destruct (load_inside m a E') as [v0 E0]. congruence.
Qed.

Lemma hit_plane_Some s x y a p :
  hit_plane s x y a = Some p ->
  0 <= p < depth s /\ a = px_addr s (back_buffer s) p x y.
Proof.
  unfold hit_plane.
  repeat match goal with
  | |- context [(?k <? depth s) && (a =? ?b)] =>
      destruct (Z.ltb_spec k (depth s)); destruct (Z.eqb_spec a b); cbn [andb]
  end; intros E; inversion E; subst; split; (lia || reflexivity).
Qed.

Lemma hit_plane_None s x y a :
  (forall p, 0 <= p < depth s -> a <> px_addr s (back_buffer s) p x y) ->
  depth s <= 4 ->
  hit_plane s x y a = None.
Proof.
  intros Hne HD. destruct (hit_plane s x y a) as [p|] eqn:E; [|reflexivity].
  destruct (hit_plane_Some _ _ _ _ _ E) as [Hp Ea]. destruct (Hne p Hp Ea).
Qed.

Lemma px_addr_in_back s x y p :
  wf s -> 0 <= x < width s -> 0 <= y < height s -> 0 <= p < depth s ->
  0 <= p * plane_size s + px_offset s x y < buffer_size s
  /\ px_addr s (back_buffer s) p x y
     = back_buffer s + (p * plane_size s + px_offset s x y).
Proof.
  intros Hwf Hx Hy Hp.
  pose proof (px_offset_range s Hwf x y Hx Hy) as Ho.
  unfold px_addr, buffer_size. split; [nia | lia].
Qed.

(** The other buffer of a panel with two. *)
Lemma front_apart s :
  wf s -> double_buffer_enabled s = true ->
  front_buffer s + buffer_size s <= back_buffer s
  \/ back_buffer s + buffer_size s <= front_buffer s.
Proof.
  intros Hwf Hdb. pose proof (wf_buffers s Hwf) as Hb. rewrite Hdb in Hb.
  pose proof (buffer_size_pos s Hwf). lia.
Qed.

Lemma drawn_byte_outside s x y c a v :
  wf s -> 0 <= x < width s -> 0 <= y < height s ->
  ~ (back_buffer s <= a < back_buffer s + buffer_size s) ->
  drawn_byte s x y c a v = v.
Proof.
  intros Hwf Hx Hy Ha. unfold drawn_byte.
  destruct (hit_plane s x y a) as [p|] eqn:E; [|reflexivity].
  destruct (hit_plane_Some _ _ _ _ _ E) as [Hp Ea].
  destruct (px_addr_in_back s x y p Hwf Hx Hy Hp) as [Ho Eo]. lia.
Qed.

(** X9. On a panel whose rows are at most 32768 bytes long, [W * (H / 32) <=
    32768], the range of the [int16_t] column of [drawPixel].  [drawPixel]
    changes nothing but the [D] bytes of its pixel, one a plane of the back
    buffer: every other byte of the block, the size of the block and every
    field of the driver stay as they are. Outside of the panel it changes
    nothing at all. *)
Theorem drawPixel_footprint W H D db s x y c :
  built W H D db s ->
  W * (H / 32) <= 32768 ->
  exists s', drawPixel x y c s = Some s'
    /\ s' = set_heap (heap s') s
    /\ block_size (heap s') = block_size (heap s)
    /\ (forall a,
          (forall p, 0 <= p < D -> a <> px_addr s (back_buffer s) p x y) ->
          load (heap s') a = load (heap s) a)
    /\ (~ (0 <= x < W /\ 0 <= y < H) -> s' = s).
Proof.
  intros Hbuilt Hrow.
  pose proof (built_reached _ _ _ _ _ Hbuilt Hrow) as Hr.
  destruct (reached_inv _ _ _ _ _ Hr) as (Hok & H16 & EW & EH & ED & _ & _).
  destruct Hok as (Hwf & _ & _). pose proof (wf_depth s Hwf) as HD.
  destruct (Z_le_dec 0 x), (Z_lt_dec x W), (Z_le_dec 0 y), (Z_lt_dec y H);
    try (exists s; split; [apply drawPixel_outside; lia|];
         split; [destruct s; reflexivity|]; split; [reflexivity|];
         split; [reflexivity | reflexivity]).
  destruct (drawPixel_spec s Hwf H16 x y ltac:(lia) ltac:(lia) c) as (m' & Hd & U).
  exists (set_heap m' s). split; [exact Hd|]. split; [reflexivity|].
  split; [exact (proj1 U)|]. split; [|intros Hout; lia].
  intros a Ha. cbn [heap set_heap]. apply (updated_load _ _ _ _ U).
  intros v _. unfold drawn_byte.
  rewrite hit_plane_None; [reflexivity | rewrite ED; exact Ha | lia].
Qed.

Lemma drawPixel_footprint_witness :
  exists s', drawPixel 5 17 43690 demo_state = Some s'
    /\ s' = set_heap (heap s') demo_state
    /\ block_size (heap s') = block_size (heap demo_state)
    /\ (forall a,
          (forall p, 0 <= p < 2 ->
             a <> px_addr demo_state (back_buffer demo_state) p 5 17) ->
          load (heap s') a = load (heap demo_state) a)
    /\ (~ (0 <= 5 < 32 /\ 0 <= 17 < 32) -> s' = demo_state).
Proof.
  apply (drawPixel_footprint 32 32 2 true demo_state 5 17 43690);
    [demo_built | vm_compute; discriminate].
Defined.

(** X10. On a panel whose rows are at most 32768 bytes long, [W * (H / 32)
    <= 32768], the range of the [int16_t] column of [drawPixel].  With two
    buffers, drawing never shows: [drawPixel] and [fillScreen] leave every
    byte of the front buffer, the one on display, as it is. *)
Theorem drawing_spares_front_buffer W H D s x y c :
  built W H D true s ->
  W * (H / 32) <= 32768 ->
  (exists s', drawPixel x y c s = Some s'
     /\ front_buffer s' = front_buffer s
     /\ forall k, 0 <= k < D * (W * (H / 2)) ->
          load (heap s') (front_buffer s + k) = load (heap s) (front_buffer s + k))
  /\ (exists s', fillScreen c s = Some s'
        /\ front_buffer s' = front_buffer s
        /\ forall k, 0 <= k < D * (W * (H / 2)) ->
             load (heap s') (front_buffer s + k)
             = load (heap s) (front_buffer s + k)).
Proof.
  intros Hbuilt Hrow.
  pose proof (built_reached _ _ _ _ _ Hbuilt Hrow) as Hr.
  destruct (reached_inv _ _ _ _ _ Hr) as (Hok & H16 & EW & EH & ED & Edb & _).
  destruct Hok as (Hwf & _ & _).
  pose proof (front_apart s Hwf Edb) as Hap.
  assert (Ebs : D * (W * (H / 2)) = buffer_size s).
  { unfold buffer_size. rewrite (wf_plane_size s Hwf), EW, EH, ED. reflexivity. }
  rewrite Ebs. split.
  - destruct (Z_le_dec 0 x), (Z_lt_dec x W), (Z_le_dec 0 y), (Z_lt_dec y H);
      try (exists s; split; [apply drawPixel_outside; lia|];
           split; [reflexivity | reflexivity]).
    destruct (drawPixel_spec s Hwf H16 x y ltac:(lia) ltac:(lia) c) as (m' & Hd & U).
    exists (set_heap m' s). split; [exact Hd|]. split; [reflexivity|].
    intros k Hk. cbn [heap set_heap]. apply (updated_load _ _ _ _ U).
    intros v _. apply drawn_byte_outside; [exact Hwf | lia | lia | lia].
  - destruct (fillScreen_spec s Hwf c) as (m' & Hf & U).
    exists (set_heap m' s). split; [exact Hf|]. split; [reflexivity|].
    intros k Hk. cbn [heap set_heap]. apply (updated_load _ _ _ _ U).
    intros v _. apply filled_byte_outside. lia.
Qed.

Lemma drawing_spares_front_buffer_witness :
  (exists s', drawPixel 5 17 43690 demo_state = Some s'
     /\ front_buffer s' = front_buffer demo_state
     /\ forall k, 0 <= k < 2 * (32 * (32 / 2)) ->
          load (heap s') (front_buffer demo_state + k)
          = load (heap demo_state) (front_buffer demo_state + k))
  /\ (exists s', fillScreen 43690 demo_state = Some s'
        /\ front_buffer s' = front_buffer demo_state
        /\ forall k, 0 <= k < 2 * (32 * (32 / 2)) ->
             load (heap s') (front_buffer demo_state + k)
             = load (heap demo_state) (front_buffer demo_state + k)).
Proof.
  apply (drawing_spares_front_buffer 32 32 2 demo_state 5 17 43690);
    [demo_built | vm_compute; discriminate].
Defined.

(** Two pixels of the panel that share a byte and a half of it are the
    same pixel. *)
Lemma px_inj s x y x' y' :
  wf s ->
  0 <= x < width s -> 0 <= y < height s ->
  0 <= x' < width s -> 0 <= y' < height s ->
  px_offset s x y = px_offset s x' y' -> px_upper y = px_upper y' ->
  x = x' /\ y = y'.
Proof.
  intros Hwf Hx Hy Hx' Hy' Eo Eu.
  pose proof (px_col_range s Hwf x y Hx Hy) as Hc.
  pose proof (px_col_range s Hwf x' y' Hx' Hy') as Hc'.
  pose proof (px_row_range y) as Hr. pose proof (px_row_range y') as Hr'.
  unfold px_offset in Eo.
  assert (Er : px_row y = px_row y') by nia.
  assert (Ec : px_col (width s) x y = px_col (width s) x' y') by nia.
  clear Eo Hc Hc'.
  pose proof (Z.div_mod y 32 ltac:(lia)) as Ey.
  pose proof (Z.div_mod y' 32 ltac:(lia)) as Ey'.
  pose proof (Z.mod_pos_bound y 32 ltac:(lia)) as By.
  pose proof (Z.mod_pos_bound y' 32 ltac:(lia)) as By'.
  assert (Hq : 0 <= y / 32) by (apply Z.div_pos; lia).
  assert (Hq' : 0 <= y' / 32) by (apply Z.div_pos; lia).
  unfold px_col, px_panel_row in Ec.
  rewrite !Z.mod_small in Ec by lia.
  assert (Eq : y / 32 = y' / 32).
  { destruct (Z.even (y / 32)), (Z.even (y' / 32)); nia. }
  unfold px_row, px_upper, px_yint, px_panel_row in Er, Eu.
  rewrite <- Eq in Ec, Er, Eu.
  destruct (Z.even (y / 32));
    destruct (Z.ltb_spec (y mod 32) 16), (Z.ltb_spec (y' mod 32) 16);
    destruct (Z.ltb_spec (31 - y mod 32) 16), (Z.ltb_spec (31 - y' mod 32) 16);
    try discriminate; try lia.
Qed.

Lemma other_half v r :
  Z.land r 56 = Z.land v 56 ->
  Z.land (Z.shiftr r 3) 7 = Z.land (Z.shiftr v 3) 7.
Proof.
  intros E. change 7 with (Z.shiftr 56 3).
  rewrite <- !Z.shiftr_land, E. reflexivity.
Qed.

Lemma read_planes_ext n s s' base base' x y : forall p,
  (forall q, p <= q < p + Z.of_nat n ->
     read_triple s' base' q x y = read_triple s base q x y) ->
  read_planes n s' base' p x y = read_planes n s base p x y.
Proof.
  induction n as [|n IH]; intros p Hq; [reflexivity|].
  cbn [read_planes]. rewrite Hq by lia. rewrite IH; [reflexivity|].
  intros q Hq'. apply Hq. lia.
Qed.

(** X11. On a panel whose rows are at most 32768 bytes long, [W * (H / 32)
    <= 32768], the range of the [int16_t] column of [drawPixel].
    [drawPixel] changes one pixel: every other pixel of the panel reads back
    from the back buffer as before, plane by plane. *)
Theorem drawPixel_keeps_other_pixels W H D db s x y c x' y' :
  built W H D db s ->
  W * (H / 32) <= 32768 ->
  0 <= x < W -> 0 <= y < H -> 0 <= x' < W -> 0 <= y' < H ->
  (x', y') <> (x, y) ->
  exists s', drawPixel x y c s = Some s'
    /\ (forall p, 0 <= p < D ->
          read_triple s' (back_buffer s') p x' y'
          = read_triple s (back_buffer s) p x' y')
    /\ readPixel s' (back_buffer s') x' y' = readPixel s (back_buffer s) x' y'.
Proof.
  intros Hbuilt Hrow Hx Hy Hx' Hy' Hne.
  pose proof (built_reached _ _ _ _ _ Hbuilt Hrow) as Hr.
  destruct (reached_inv _ _ _ _ _ Hr) as (Hok & H16 & EW & EH & ED & _ & _).
  destruct Hok as (Hwf & _ & _). pose proof (wf_depth s Hwf) as HD.
  rewrite <- EW in Hx, Hx'. rewrite <- EH in Hy, Hy'. rewrite <- ED.
  destruct (drawPixel_spec s Hwf H16 x y Hx Hy c) as (m' & Hd & U).
  exists (set_heap m' s). split; [exact Hd|].
  assert (Ht : forall p, 0 <= p < depth s ->
            read_triple (set_heap m' s) (back_buffer (set_heap m' s)) p x' y'
            = read_triple s (back_buffer s) p x' y').
  { intros p Hp. unfold read_triple.
    change (px_addr (set_heap m' s) (back_buffer (set_heap m' s)) p x' y')
      with (px_addr s (back_buffer s) p x' y').
    cbn [heap set_heap].
    destruct (load_inside (heap s) _ (px_addr_inside s Hwf x' y' Hx' Hy' p Hp))
      as [v Ev].
    rewrite Ev, (proj2 U _ _ Ev). f_equal. unfold drawn_byte.
    destruct (hit_plane s x y (px_addr s (back_buffer s) p x' y')) as [q|] eqn:Eh;
      [|reflexivity].
    destruct (hit_plane_Some _ _ _ _ _ Eh) as [Hq Ea].
    pose proof (px_offset_range s Hwf x y Hx Hy) as Ho.
    pose proof (px_offset_range s Hwf x' y' Hx' Hy') as Ho'.
    unfold px_addr in Ea.
    assert (Eq : q = p) by nia. subst q.
    assert (Eo : px_offset s x y = px_offset s x' y') by lia.
    pose proof (wf_bytes s Hwf _ _ Ev) as Hv.
    rewrite (written_px y c p v Hv).
    pose proof (written_ok (px_upper y) v (plane_triple c p) Hv
                  (plane_triple_range c p)) as (_ & _ & _ & _ & _ & Hkeep).
    destruct (px_upper y) eqn:Eu, (px_upper y') eqn:Eu'.
    - destruct (px_inj s x y x' y' Hwf Hx Hy Hx' Hy' Eo ltac:(congruence)).
      exfalso. apply Hne. congruence.
    - unfold px_shift. rewrite Eu', !Z.shiftr_0_r. exact Hkeep.
    - unfold px_shift. rewrite Eu'. apply other_half. exact Hkeep.
    - destruct (px_inj s x y x' y' Hwf Hx Hy Hx' Hy' Eo ltac:(congruence)).
      exfalso. apply Hne. congruence. }
  split; [exact Ht|].
  unfold readPixel. change (depth (set_heap m' s)) with (depth s).
  rewrite (read_planes_ext _ s (set_heap m' s) (back_buffer s)
             (back_buffer (set_heap m' s)) x' y' 0); [reflexivity|].
  intros q Hq. apply Ht. lia.
Qed.

Lemma drawPixel_keeps_other_pixels_witness :
  exists s', drawPixel 5 17 43690 demo_state = Some s'
    /\ (forall p, 0 <= p < 2 ->
          read_triple s' (back_buffer s') p 5 1
          = read_triple demo_state (back_buffer demo_state) p 5 1)
    /\ readPixel s' (back_buffer s') 5 1
       = readPixel demo_state (back_buffer demo_state) 5 1.
Proof.
  apply (drawPixel_keeps_other_pixels 32 32 2 true demo_state 5 17 43690 5 1);
    [demo_built | vm_compute; discriminate | lia | lia | lia | lia
    | discriminate].
Defined.

Lemma triple_clear_of_mask y c p :
  Z.land (Z.shiftl (plane_triple c p) (px_shift y)) (px_mask y) = 0.
Proof.
  destruct (plane_triple_cases c p) as (r & g & b & _ & _ & _ & ->).
  unfold px_shift, px_mask.
  destruct (px_upper y), r, g, b; reflexivity.
Qed.

Lemma drawn_twice s x y c1 c2 a v :
  drawn_byte s x y c2 a (drawn_byte s x y c1 a v) = drawn_byte s x y c2 a v.
Proof.
  unfold drawn_byte. destruct (hit_plane s x y a) as [p|]; [|reflexivity].
  rewrite Z.land_lor_distr_l, triple_clear_of_mask, Z.lor_0_r.
  rewrite <- Z.land_assoc, Z.land_diag. reflexivity.
Qed.

(** X12. On a panel whose rows are at most 32768 bytes long, [W * (H / 32)
    <= 32768], the range of the [int16_t] column of [drawPixel].  The last
    write wins: drawing a pixel twice leaves the driver in the state that
    the second [drawPixel] alone leaves it in. *)
Theorem drawPixel_last_write_wins W H D db s x y c1 c2 :
  built W H D db s ->
  W * (H / 32) <= 32768 ->
  exists s1 s2,
    drawPixel x y c1 s = Some s1
    /\ drawPixel x y c2 s1 = Some s2
    /\ drawPixel x y c2 s = Some s2.
Proof.
  intros Hbuilt Hrow.
  pose proof (built_reached _ _ _ _ _ Hbuilt Hrow) as Hr.
  destruct (reached_inv _ _ _ _ _ Hr) as (Hok & H16 & EW & EH & ED & _ & _).
  destruct Hok as (Hwf & _ & _).
  destruct (Z_le_dec 0 x), (Z_lt_dec x (width s)),
    (Z_le_dec 0 y), (Z_lt_dec y (height s));
    try (exists s, s; rewrite !drawPixel_outside by lia; auto).
  assert (Hx : 0 <= x < width s) by lia.
  assert (Hy : 0 <= y < height s) by lia.
  destruct (drawPixel_spec s Hwf H16 x y Hx Hy c1) as (m1 & Hd1 & U1).
  destruct (drawPixel_spec s Hwf H16 x y Hx Hy c2) as (m2 & Hd2 & U2).
  assert (Hr1 : reached W H D db (set_heap m1 s))
    by (apply (reached_step W H D db s (OpDrawPixel x y c1)); auto).
  destruct (reached_inv _ _ _ _ _ Hr1) as (Hok1 & H161 & _).
  destruct Hok1 as (Hwf1 & _ & _).
  destruct (drawPixel_spec (set_heap m1 s) Hwf1 H161 x y Hx Hy c2)
    as (m12 & Hd12 & U12).
  exists (set_heap m1 s), (set_heap m2 s).
  split; [exact Hd1|]. split; [|exact Hd2].
  rewrite Hd12. change (set_heap m12 (set_heap m1 s)) with (set_heap m12 s).
  do 2 f_equal.
  change (heap (set_heap m1 s)) with m1 in U12.
  change (drawn_byte (set_heap m1 s) x y c2) with (drawn_byte s x y c2) in U12.
  apply (updated_unique (heap s) m12 m2 _ _ (updated_trans _ _ _ _ _ U1 U12) U2).
  intros a v _. apply drawn_twice.
Qed.

Lemma drawPixel_last_write_wins_witness :
  exists s1 s2,
    drawPixel 5 17 43690 demo_state = Some s1
    /\ drawPixel 5 17 1234 s1 = Some s2
    /\ drawPixel 5 17 1234 demo_state = Some s2.
Proof.
  apply (drawPixel_last_write_wins 32 32 2 true demo_state 5 17 43690 1234);
    [demo_built | vm_compute; discriminate].
Defined.

Lemma filled_over s c f a v :
  (~ (back_buffer s <= a < back_buffer s + buffer_size s) -> f a v = v) ->
  filled_byte s c a (f a v) = filled_byte s c a v.
Proof.
  intros Hout. unfold filled_byte.
  destruct (Z.leb_spec 0 (a - back_buffer s)),
    (Z.ltb_spec (a - back_buffer s) (buffer_size s)); cbn [andb];
    try reflexivity; apply Hout; lia.
Qed.

(** X13. On a panel whose rows are at most 32768 bytes long, [W * (H / 32)
    <= 32768], the range of the [int16_t] column of [drawPixel].
    [fillScreen] erases what was drawn: after any [drawPixel] or an earlier
    [fillScreen], [fillScreen(c)] leaves the driver in the state that it
    alone leaves it in. *)
Theorem fillScreen_erases W H D db s x y c0 c :
  built W H D db s ->
  W * (H / 32) <= 32768 ->
  (exists s1 s2,
     drawPixel x y c0 s = Some s1
     /\ fillScreen c s1 = Some s2 /\ fillScreen c s = Some s2)
  /\ (exists s1 s2,
        fillScreen c0 s = Some s1
        /\ fillScreen c s1 = Some s2 /\ fillScreen c s = Some s2).
Proof.
  intros Hbuilt Hrow.
  pose proof (built_reached _ _ _ _ _ Hbuilt Hrow) as Hr.
  destruct (reached_inv _ _ _ _ _ Hr) as (Hok & H16 & EW & EH & ED & _ & _).
  destruct Hok as (Hwf & _ & _).
  destruct (fillScreen_spec s Hwf c) as (m2 & Hf2 & U2).
  split.
  - destruct (Z_le_dec 0 x), (Z_lt_dec x (width s)),
      (Z_le_dec 0 y), (Z_lt_dec y (height s));
      try (exists s, (set_heap m2 s); rewrite !drawPixel_outside by lia; auto).
    assert (Hx : 0 <= x < width s) by lia.
    assert (Hy : 0 <= y < height s) by lia.
    destruct (drawPixel_spec s Hwf H16 x y Hx Hy c0) as (m1 & Hd1 & U1).
    assert (Hr1 : reached W H D db (set_heap m1 s))
      by (apply (reached_step W H D db s (OpDrawPixel x y c0)); auto).
    destruct (reached_inv _ _ _ _ _ Hr1) as (Hok1 & _).
    destruct Hok1 as (Hwf1 & _ & _).
    destruct (fillScreen_spec (set_heap m1 s) Hwf1 c) as (m12 & Hf12 & U12).
    exists (set_heap m1 s), (set_heap m2 s).
    split; [exact Hd1|]. split; [|exact Hf2].
    rewrite Hf12. change (set_heap m12 (set_heap m1 s)) with (set_heap m12 s).
    do 2 f_equal.
    change (heap (set_heap m1 s)) with m1 in U12.
    change (filled_byte (set_heap m1 s) c) with (filled_byte s c) in U12.
    apply (updated_unique (heap s) m12 m2 _ _ (updated_trans _ _ _ _ _ U1 U12) U2).
    intros a v _. apply filled_over. intros Ha.
    apply drawn_byte_outside; assumption.
  - destruct (fillScreen_spec s Hwf c0) as (m1 & Hf1 & U1).
    assert (Hr1 : reached W H D db (set_heap m1 s))
      by (apply (reached_step W H D db s (OpFillScreen c0)); auto).
    destruct (reached_inv _ _ _ _ _ Hr1) as (Hok1 & _).
    destruct Hok1 as (Hwf1 & _ & _).
    destruct (fillScreen_spec (set_heap m1 s) Hwf1 c) as (m12 & Hf12 & U12).
    exists (set_heap m1 s), (set_heap m2 s).
    split; [exact Hf1|]. split; [|exact Hf2].
    rewrite Hf12. change (set_heap m12 (set_heap m1 s)) with (set_heap m12 s).
    do 2 f_equal.
    change (heap (set_heap m1 s)) with m1 in U12.
    change (filled_byte (set_heap m1 s) c) with (filled_byte s c) in U12.
    apply (updated_unique (heap s) m12 m2 _ _ (updated_trans _ _ _ _ _ U1 U12) U2).
    intros a v _. apply filled_over. intros Ha.
    apply filled_byte_outside. exact Ha.
Qed.

Lemma fillScreen_erases_witness :
  (exists s1 s2,
     drawPixel 5 17 43690 demo_state = Some s1
     /\ fillScreen 1234 s1 = Some s2 /\ fillScreen 1234 demo_state = Some s2)
  /\ (exists s1 s2,
        fillScreen 43690 demo_state = Some s1
        /\ fillScreen 1234 s1 = Some s2 /\ fillScreen 1234 demo_state = Some s2).
Proof.
  apply (fillScreen_erases 32 32 2 true demo_state 5 17 43690 1234);
    [demo_built | vm_compute; discriminate].
Defined.

(** ** Reading back what was drawn *)

Lemma filled_read_triple s c m' x y p :
  wf s -> updated (heap s) m' (filled_byte s c) ->
  0 <= x < width s -> 0 <= y < height s -> 0 <= p < depth s ->
  read_triple (set_heap m' s) (back_buffer s) p x y
  = Some (plane_triple (Z.shiftl c (4 - depth s)) p).
Proof.
  intros Hwf U Hx Hy Hp. pose proof (wf_depth s Hwf) as HD.
  destruct (px_addr_in_back s x y p Hwf Hx Hy Hp) as [Ho Ea].
  pose proof (px_offset_range s Hwf x y Hx Hy) as Hoff.
  unfold read_triple.
  change (px_addr (set_heap m' s) (back_buffer s) p x y)
    with (px_addr s (back_buffer s) p x y).
  cbn [heap set_heap].
  destruct (load_inside (heap s) _ (px_addr_inside s Hwf x y Hx Hy p Hp))
    as [v Ev].
  rewrite (proj2 U _ _ Ev), Ea, filled_byte_inside by exact Ho. f_equal.
  assert (Ediv : (p * plane_size s + px_offset s x y) / plane_size s = p).
  { rewrite Z.div_add_l by lia. rewrite Z.div_small by lia. lia. }
  rewrite Ediv.
  destruct (fill_color_cases c (depth s - 1 - p) ltac:(lia))
    as (r & g & b & Er & Eg & Eb & ->).
  destruct (plane_triple_cases (Z.shiftl c (4 - depth s)) p)
    as (r' & g' & b' & Er' & Eg' & Eb' & ->).
  rewrite Z.shiftl_spec in Er', Eg', Eb' by lia.
  replace (15 - p - (4 - depth s)) with (12 + (depth s - 1 - p)) in Er' by lia.
  replace (10 - p - (4 - depth s)) with (7 + (depth s - 1 - p)) in Eg' by lia.
  replace (4 - p - (4 - depth s)) with (1 + (depth s - 1 - p)) in Eb' by lia.
  rewrite <- Er in Er'. rewrite <- Eg in Eg'. rewrite <- Eb in Eb'.
  subst r' g' b'. unfold px_shift.
  destruct (controlb s (p * plane_size s + px_offset s x y)), (px_upper y),
    r, g, b; reflexivity.
Qed.

Lemma filled_read_planes s c m' x y n : forall p,
  wf s -> updated (heap s) m' (filled_byte s c) ->
  0 <= x < width s -> 0 <= y < height s ->
  0 <= p -> p + Z.of_nat n <= depth s ->
  read_planes n (set_heap m' s) (back_buffer s) p x y
  = Some (triples (Z.shiftl c (4 - depth s)) p n).
Proof.
  induction n as [|n IH]; intros p Hwf U Hx Hy Hp Hn; [reflexivity|].
  cbn [read_planes triples].
  rewrite (filled_read_triple s c m' x y p Hwf U Hx Hy ltac:(lia)).
  rewrite IH by (assumption || lia). reflexivity.
Qed.

Lemma top_of_shifted D c :
  1 <= D <= 4 ->
  top_red D (Z.shiftl c (4 - D)) = (c / 4096) mod 2 ^ D
  /\ top_green D (Z.shiftl c (4 - D)) = (c / 128) mod 2 ^ D
  /\ top_blue D (Z.shiftl c (4 - D)) = (c / 2) mod 2 ^ D.
Proof.
  intros HD. unfold top_red, top_green, top_blue.
  rewrite Z.shiftl_mul_pow2 by lia.
  replace (16 - D) with (12 + (4 - D)) by lia.
  replace (11 - D) with (7 + (4 - D)) by lia.
  replace (5 - D) with (1 + (4 - D)) by lia.
  rewrite !Z.pow_add_r by lia.
  assert (Hnz : 2 ^ (4 - D) <> 0) by (apply Z.pow_nonzero; lia).
  rewrite !Z.div_mul_cancel_r by (exact Hnz || discriminate).
  repeat split; reflexivity.
Qed.

(** X14. After [fillScreen(c)] every pixel of the panel reads back, from
    the back buffer, as the low [D] bits of the three 4-bit channels of
    [c], bits 12 to 15, 7 to 10 and 1 to 4.  With four planes that is the
    colour a pixel drawn with [c] shows; with fewer planes it is not. *)
Theorem fillScreen_read_back W H D db s c x y :
  reached W H D db s ->
  0 <= x < W -> 0 <= y < H ->
  exists s', fillScreen c s = Some s'
    /\ readPixel s' (back_buffer s') x y
       = Some ((c / 4096) mod 2 ^ D, (c / 128) mod 2 ^ D, (c / 2) mod 2 ^ D)
    /\ (D = 4 ->
        readPixel s' (back_buffer s') x y
        = Some (top_red 4 c, top_green 4 c, top_blue 4 c)).
Proof.
  intros Hr Hx Hy.
  destruct (reached_inv _ _ _ _ _ Hr) as (Hok & _ & EW & EH & ED & _ & _).
  destruct Hok as (Hwf & _ & _). pose proof (wf_depth s Hwf) as HD.
  rewrite <- EW in Hx. rewrite <- EH in Hy.
  destruct (fillScreen_spec s Hwf c) as (m' & Hf & U).
  exists (set_heap m' s). split; [exact Hf|].
  assert (E : readPixel (set_heap m' s) (back_buffer (set_heap m' s)) x y
              = Some ((c / 4096) mod 2 ^ D, (c / 128) mod 2 ^ D, (c / 2) mod 2 ^ D)).
  { unfold readPixel. change (depth (set_heap m' s)) with (depth s).
    change (back_buffer (set_heap m' s)) with (back_buffer s).
    rewrite (filled_read_planes s c m' x y _ 0 Hwf U Hx Hy ltac:(lia))
      by (rewrite Z2Nat.id; lia).
    destruct (spell_top (Z.shiftl c (4 - depth s)) (depth s) HD) as (-> & -> & ->).
    destruct (top_of_shifted (depth s) c HD) as (-> & -> & ->).
    rewrite ED. reflexivity. }
  split; [exact E|]. intros E4. rewrite E, E4. reflexivity.
Qed.

Lemma fillScreen_read_back_witness :
  exists s', fillScreen 43690 demo_state = Some s'
    /\ readPixel s' (back_buffer s') 5 17
       = Some ((43690 / 4096) mod 2 ^ 2, (43690 / 128) mod 2 ^ 2,
               (43690 / 2) mod 2 ^ 2)
    /\ (2 = 4 ->
        readPixel s' (back_buffer s') 5 17
        = Some (top_red 4 43690, top_green 4 43690, top_blue 4 43690)).
Proof.
  apply (fillScreen_read_back 32 32 2 true demo_state 43690 5 17);
    [demo_reached | lia | lia].
Defined.

(** What a drawn pixel shows, for the colour helpers below. *)
Lemma drawPixel_shows W H D db s x y c :
  reached W H D db s ->
  0 <= x < W -> 0 <= y < H ->
  exists s', drawPixel x y c s = Some s'
    /\ readPixel s' (back_buffer s') x y
       = Some (top_red D c, top_green D c, top_blue D c).
Proof.
  intros Hr Hx Hy.
  destruct (reached_inv _ _ _ _ _ Hr) as (Hok & H16 & EW & EH & ED & _ & _).
  destruct Hok as (Hwf & _ & _). pose proof (wf_depth s Hwf) as HD.
  rewrite <- EW in Hx. rewrite <- EH in Hy.
  destruct (drawPixel_spec s Hwf H16 x y Hx Hy c) as (m' & Hd & U).
  exists (set_heap m' s). split; [exact Hd|].
  unfold readPixel. change (depth (set_heap m' s)) with (depth s).
  change (back_buffer (set_heap m' s)) with (back_buffer s).
  rewrite (drawn_read_planes s Hwf x y c Hx Hy m' U _ 0 ltac:(lia))
    by (rewrite Z2Nat.id; lia).
  destruct (spell_top c (depth s) HD) as (-> & -> & ->).
  rewrite ED. reflexivity.
Qed.

(** ** The colour helpers *)

Lemma all3_spec l P r g b :
  all3 l P = true -> In r l -> In g l -> In b l -> P r g b = true.
Proof.
  unfold all3. rewrite forallb_forall. intros HP Hr Hg Hb.
  specialize (HP r Hr). rewrite forallb_forall in HP.
  specialize (HP g Hg). rewrite forallb_forall in HP. exact (HP b Hb).
Qed.

Lemma in_upto n v : 0 <= v < Z.of_nat n -> In v (map Z.of_nat (seq 0 n)).
Proof.
  intros Hv. apply in_map_iff. exists (Z.to_nat v).
  split; [lia|]. apply in_seq. lia.
Qed.

Lemma shows_spec D c r g b :
  shows D c r g b = true ->
  top_red D c = r /\ top_green D c = g /\ top_blue D c = b.
Proof.
  unfold shows. rewrite !andb_true_iff, !Z.eqb_eq. tauto.
Qed.

Lemma land_mod_pow2 a n : 0 <= n -> Z.land (a mod 2 ^ n) (Z.ones n) = Z.land a (Z.ones n).
Proof.
  intros Hn. rewrite <- (Z.land_ones a n) by exact Hn.
  rewrite <- Z.land_assoc, Z.land_diag. reflexivity.
Qed.

Lemma Color444_mod r g b :
  Color444 r g b = Color444 (r mod 16) (g mod 16) (b mod 16).
Proof.
  unfold Color444. change 15 with (Z.ones 4). change 16 with (2 ^ 4).
  rewrite !land_mod_pow2 by lia. reflexivity.
Qed.

Lemma Color333_mod r g b :
  Color333 r g b = Color333 (r mod 8) (g mod 8) (b mod 8).
Proof.
  unfold Color333. change 7 with (Z.ones 3). change 8 with (2 ^ 3).
  rewrite !land_mod_pow2 by lia. reflexivity.
Qed.

Lemma Color444_checked :
  all3 nibbles (fun r g b => shows 4 (Color444 r g b) r g b) = true.
Proof. vm_compute. reflexivity. Qed.

Lemma Color333_checked :
  all3 (map Z.of_nat (seq 0 8))
    (fun r g b =>
       shows 3 (Color333 r g b) r g b
       && shows 4 (Color333 r g b) (2 * r) (2 * g) (2 * b)) = true.
Proof. vm_compute. reflexivity. Qed.

Lemma pack444_checked :
  all3 nibbles (fun r g b => shows 4 (pack444 r g b) r g b) = true.
Proof. vm_compute. reflexivity. Qed.

Lemma Color444_shows r g b :
  top_red 4 (Color444 r g b) = r mod 16
  /\ top_green 4 (Color444 r g b) = g mod 16
  /\ top_blue 4 (Color444 r g b) = b mod 16.
Proof.
  rewrite Color444_mod. apply shows_spec.
  apply (all3_spec nibbles _ _ _ _ Color444_checked);
    apply (in_upto 16); apply Z.mod_pos_bound; lia.
Qed.

Lemma Color333_shows r g b :
  (top_red 3 (Color333 r g b) = r mod 8
   /\ top_green 3 (Color333 r g b) = g mod 8
   /\ top_blue 3 (Color333 r g b) = b mod 8)
  /\ (top_red 4 (Color333 r g b) = 2 * (r mod 8)
      /\ top_green 4 (Color333 r g b) = 2 * (g mod 8)
      /\ top_blue 4 (Color333 r g b) = 2 * (b mod 8)).
Proof.
  rewrite Color333_mod.
  pose proof (all3_spec _ _ (r mod 8) (g mod 8) (b mod 8) Color333_checked
                (in_upto 8 _ (Z.mod_pos_bound r 8 ltac:(lia)))
                (in_upto 8 _ (Z.mod_pos_bound g 8 ltac:(lia)))
                (in_upto 8 _ (Z.mod_pos_bound b 8 ltac:(lia)))) as HP.
  cbn beta in HP. apply andb_true_iff in HP. destruct HP as [H3 H4].
  split; apply shows_spec; assumption.
Qed.

Lemma pack444_shows r g b :
  0 <= r < 16 -> 0 <= g < 16 -> 0 <= b < 16 ->
  top_red 4 (pack444 r g b) = r
  /\ top_green 4 (pack444 r g b) = g
  /\ top_blue 4 (pack444 r g b) = b.
Proof.
  intros Hr Hg Hb. apply shows_spec.
  apply (all3_spec nibbles _ _ _ _ pack444_checked); apply (in_upto 16); assumption.
Qed.

Lemma top4_fields c :
  top_red 4 (to_uint16 c) = field 12 c
  /\ top_green 4 (to_uint16 c) = field 7 c
  /\ top_blue 4 (to_uint16 c) = field 1 c.
Proof.
  unfold top_red, top_green, top_blue, to_uint16, field.
  change 65536 with (2 ^ 16). change (16 - 4) with 12. change (11 - 4) with 7.
  change (5 - 4) with 1.
  rewrite <- (Z.land_ones c 16), <- !Z.shiftr_div_pow2, <- !Z.land_ones by lia.
  rewrite !Z.shiftr_land, <- !Z.land_assoc. repeat split; reflexivity.
Qed.

Lemma field_lor k a b : field k (Z.lor a b) = Z.lor (field k a) (field k b).
Proof. unfold field. rewrite Z.shiftr_lor, Z.land_lor_distr_l. reflexivity. Qed.

Lemma Color888_shows r g b :
  0 <= r < 256 -> 0 <= g < 256 -> 0 <= b < 256 ->
  top_red 4 (Color888 r g b) = r / 16
  /\ top_green 4 (Color888 r g b) = g / 16
  /\ top_blue 4 (Color888 r g b) = b / 16.
Proof.
  intros Hr Hg Hb.
  assert (Hchk : forall v, 0 <= v < 256 -> Color888_check v = true).
  { apply (range_cases 256). vm_compute. reflexivity. }
  pose proof (Hchk r Hr) as Cr. pose proof (Hchk g Hg) as Cg.
  pose proof (Hchk b Hb) as Cb.
  unfold Color888_check in Cr, Cg, Cb. cbn zeta in Cr, Cg, Cb.
  rewrite !andb_true_iff, !Z.eqb_eq in Cr, Cg, Cb.
  destruct Cr as ((((((((R1 & R2) & R3) & _) & _) & _) & _) & _) & _).
  destruct Cg as ((((((((_ & _) & _) & G1) & G2) & G3) & _) & _) & _).
  destruct Cb as ((((((((_ & _) & _) & _) & _) & _) & B1) & B2) & B3).
  unfold Color888. destruct (top4_fields
    (Z.lor (Z.lor (Z.shiftl (to_uint16 (Z.land r 248)) 8)
                  (Z.shiftl (to_uint16 (Z.land g 252)) 3)) (Z.shiftr b 3)))
    as (-> & -> & ->).
  rewrite !field_lor, R1, R2, R3, G1, G2, G3, B1, B2, B3.
  rewrite !Z.lor_0_r, !Z.lor_0_l. repeat split; reflexivity.
Qed.



(** X15. On a panel whose rows are at most 32768 bytes long, [W * (H / 32)
    <= 32768], the range of the [int16_t] column of [drawPixel].  [Color444]
    and the four planes agree: a pixel drawn with [Color444(r, g, b)] on a
    panel of four planes reads back as the low four bits of [r], [g] and
    [b]. *)
Theorem Color444_round_trip W H db s x y r g b :
  built W H 4 db s ->
  W * (H / 32) <= 32768 ->
  0 <= x < W -> 0 <= y < H ->
  exists s', drawPixel x y (Color444 r g b) s = Some s'
    /\ readPixel s' (back_buffer s') x y = Some (r mod 16, g mod 16, b mod 16).
Proof.
  intros Hbuilt Hrow Hx Hy.
  pose proof (built_reached _ _ _ _ _ Hbuilt Hrow) as Hr.
  destruct (drawPixel_shows W H 4 db s x y (Color444 r g b) Hr Hx Hy)
    as (s' & Hd & Hp).
  exists s'. split; [exact Hd|].
  destruct (Color444_shows r g b) as (E1 & E2 & E3).
  rewrite Hp, E1, E2, E3. reflexivity.
Qed.

Lemma Color444_round_trip_witness :
  exists s', drawPixel 7 30 (Color444 9 255 3) demo_deep = Some s'
    /\ readPixel s' (back_buffer s') 7 30 = Some (9 mod 16, 255 mod 16, 3 mod 16).
Proof.
  apply (Color444_round_trip 32 32 false demo_deep 7 30 9 255 3);
    [built_from demo_deep (@nil op) | vm_compute; discriminate | lia | lia].
Defined.

(** X16. On a panel whose rows are at most 32768 bytes long, [W * (H / 32)
    <= 32768], the range of the [int16_t] column of [drawPixel].  A pixel
    drawn with [Color333(r, g, b)] reads back as the low three bits of [r],
    [g] and [b] on a panel of three planes, and as twice that on a panel of
    four. *)
Theorem Color333_round_trip W H D db s x y r g b :
  built W H D db s ->
  W * (H / 32) <= 32768 ->
  D = 3 \/ D = 4 ->
  0 <= x < W -> 0 <= y < H ->
  exists s', drawPixel x y (Color333 r g b) s = Some s'
    /\ readPixel s' (back_buffer s') x y
       = Some (2 ^ (D - 3) * (r mod 8), 2 ^ (D - 3) * (g mod 8),
               2 ^ (D - 3) * (b mod 8)).
Proof.
  intros Hbuilt Hrow HD Hx Hy.
  pose proof (built_reached _ _ _ _ _ Hbuilt Hrow) as Hr.
  destruct (drawPixel_shows W H D db s x y (Color333 r g b) Hr Hx Hy)
    as (s' & Hd & Hp).
  exists s'. split; [exact Hd|].
  destruct (Color333_shows r g b) as ((E1 & E2 & E3) & (F1 & F2 & F3)).
  rewrite Hp. destruct HD as [-> | ->].
  - rewrite E1, E2, E3. change (2 ^ (3 - 3)) with 1.
    rewrite !Z.mul_1_l. reflexivity.
  - rewrite F1, F2, F3. reflexivity.
Qed.

Lemma Color333_round_trip_witness :
  exists s', drawPixel 7 30 (Color333 5 255 2) demo_default = Some s'
    /\ readPixel s' (back_buffer s') 7 30
       = Some (2 ^ (3 - 3) * (5 mod 8), 2 ^ (3 - 3) * (255 mod 8),
               2 ^ (3 - 3) * (2 mod 8)).
Proof.
  apply (Color333_round_trip 32 32 3 false demo_default 7 30 5 255 2);
    [built_from demo_default (@nil op) | vm_compute; discriminate
    | left; reflexivity | lia | lia].
Defined.

(** X17. On a panel whose rows are at most 32768 bytes long, [W * (H / 32)
    <= 32768], the range of the [int16_t] column of [drawPixel].  A pixel
    drawn with [Color888(r, g, b)] on a panel of four planes reads back as
    the high four bits of the bytes [r], [g] and [b]. *)
Theorem Color888_round_trip W H db s x y r g b :
  built W H 4 db s ->
  W * (H / 32) <= 32768 ->
  0 <= x < W -> 0 <= y < H ->
  0 <= r < 256 -> 0 <= g < 256 -> 0 <= b < 256 ->
  exists s', drawPixel x y (Color888 r g b) s = Some s'
    /\ readPixel s' (back_buffer s') x y = Some (r / 16, g / 16, b / 16).
Proof.
  intros Hbuilt Hrow Hx Hy Br Bg Bb.
  pose proof (built_reached _ _ _ _ _ Hbuilt Hrow) as Hr.
  destruct (drawPixel_shows W H 4 db s x y (Color888 r g b) Hr Hx Hy)
    as (s' & Hd & Hp).
  exists s'. split; [exact Hd|].
  destruct (Color888_shows r g b Br Bg Bb) as (E1 & E2 & E3).
  rewrite Hp, E1, E2, E3. reflexivity.
Qed.

Lemma Color888_round_trip_witness :
  exists s', drawPixel 7 30 (Color888 200 100 50) demo_deep = Some s'
    /\ readPixel s' (back_buffer s') 7 30 = Some (200 / 16, 100 / 16, 50 / 16).
Proof.
  apply (Color888_round_trip 32 32 false demo_deep 7 30 200 100 50);
    [built_from demo_deep (@nil op) | vm_compute; discriminate
    | lia | lia | lia | lia | lia].
Defined.

Lemma nibble_checked n : 0 <= n < 16 -> nibble_check n = true.
Proof. apply (range_cases 16). vm_compute. reflexivity. Qed.

Lemma Color888_gamma_pack gamma r g b :
  0 <= gamma r < 16 -> 0 <= gamma g < 16 -> 0 <= gamma b < 16 ->
  Color888_gamma gamma r g b true = pack444 (gamma r) (gamma g) (gamma b).
Proof.
  intros Hr Hg Hb. unfold Color888_gamma, pack444.
  pose proof (nibble_checked _ Hr) as Cr. pose proof (nibble_checked _ Hg) as Cg.
  pose proof (nibble_checked _ Hb) as Cb.
  unfold nibble_check in Cr, Cg, Cb.
  rewrite !andb_true_iff, !Z.eqb_eq in Cr, Cg, Cb.
  destruct Cr as (((R1 & R2) & R3) & _). destruct Cg as (((G1 & G2) & _) & G4).
  destruct Cb as (((B1 & _) & _) & _).
  cbv zeta. rewrite R1, G1, B1, R2, G2, R3, G4. reflexivity.
Qed.

(** X18. On a panel whose rows are at most 32768 bytes long, [W * (H / 32)
    <= 32768], the range of the [int16_t] column of [drawPixel].  [Color888]
    with the gamma flag: without the flag it is the linear [Color888]; with
    it, and a table of 4-bit entries, a pixel drawn with the result on a
    panel of four planes reads back as the table entries of [r], [g] and
    [b]. *)
Theorem Color888_gamma_round_trip W H db s x y gamma r g b :
  built W H 4 db s ->
  W * (H / 32) <= 32768 ->
  0 <= x < W -> 0 <= y < H ->
  0 <= gamma r < 16 -> 0 <= gamma g < 16 -> 0 <= gamma b < 16 ->
  Color888_gamma gamma r g b false = Color888 r g b
  /\ exists s', drawPixel x y (Color888_gamma gamma r g b true) s = Some s'
       /\ readPixel s' (back_buffer s') x y = Some (gamma r, gamma g, gamma b).
Proof.
  intros Hbuilt Hrow Hx Hy Br Bg Bb.
  pose proof (built_reached _ _ _ _ _ Hbuilt Hrow) as Hr. split; [reflexivity|].
  rewrite (Color888_gamma_pack gamma r g b Br Bg Bb).
  destruct (drawPixel_shows W H 4 db s x y
              (pack444 (gamma r) (gamma g) (gamma b)) Hr Hx Hy)
    as (s' & Hd & Hp).
  exists s'. split; [exact Hd|].
  destruct (pack444_shows _ _ _ Br Bg Bb) as (E1 & E2 & E3).
  rewrite Hp, E1, E2, E3. reflexivity.
Qed.

Lemma Color888_gamma_round_trip_witness :
  Color888_gamma (fun v => v * v / 4096) 200 100 50 false = Color888 200 100 50
  /\ exists s',
       drawPixel 7 30 (Color888_gamma (fun v => v * v / 4096) 200 100 50 true)
         demo_deep = Some s'
       /\ readPixel s' (back_buffer s') 7 30
          = Some ((fun v => v * v / 4096) 200, (fun v => v * v / 4096) 100,
                  (fun v => v * v / 4096) 50).
Proof.
  apply (Color888_gamma_round_trip 32 32 false demo_deep 7 30
           (fun v => v * v / 4096) 200 100 50);
    [built_from demo_deep (@nil op) | vm_compute; discriminate | lia | lia
    | vm_compute; split; [discriminate | reflexivity]
    | vm_compute; split; [discriminate | reflexivity]
    | vm_compute; split; [discriminate | reflexivity]].
Defined.

(** The hue of [ColorHSV] after its first two statements. *)
Lemma hue_norm hue :
  (if Z.rem hue 1536 <? 0 then Z.rem hue 1536 + 1536 else Z.rem hue 1536)
  = hue mod 1536.
Proof.
  pose proof (Z.quot_rem' hue 1536) as E.
  destruct (Z_le_dec 0 hue) as [Hpos|Hneg].
  - pose proof (Z.rem_bound_pos hue 1536 Hpos ltac:(lia)) as B.
    destruct (Z.ltb_spec (Z.rem hue 1536) 0); [lia|].
    apply (Z.mod_unique hue 1536 (Z.quot hue 1536)); [left; lia | exact E].
  - pose proof (Z.rem_bound_pos_neg hue 1536 ltac:(lia) ltac:(lia)) as B.
    destruct (Z.ltb_spec (Z.rem hue 1536) 0).
    + apply (Z.mod_unique hue 1536 (Z.quot hue 1536 - 1)); [left; lia | lia].
    + apply (Z.mod_unique hue 1536 (Z.quot hue 1536)); [left; lia | exact E].
Qed.

Lemma HSV_channels_mod gamma hue sat val gflag :
  HSV_channels gamma hue sat val gflag
  = HSV_channels gamma (hue mod 1536) sat val gflag.
Proof.
  unfold HSV_channels. cbv zeta. rewrite !hue_norm, Z.mod_mod by lia.
  reflexivity.
Qed.

(** X19. [ColorHSV] is periodic in the hue, negative hues included: 1536
    steps go once round the colour wheel. *)
Theorem ColorHSV_hue_periodic gamma hue k sat val gflag :
  ColorHSV gamma (hue + 1536 * k) sat val gflag
  = ColorHSV gamma hue sat val gflag.
Proof.
  unfold ColorHSV.
  rewrite (HSV_channels_mod gamma (hue + 1536 * k)), (HSV_channels_mod gamma hue).
  rewrite (Z.mul_comm 1536 k), Z_mod_plus_full. reflexivity.
Qed.

Lemma HSV_hue_range h :
  0 <= h < 1536 ->
  exists r g b, HSV_hue h = (r, g, b)
    /\ 0 <= r <= 255 /\ 0 <= g <= 255 /\ 0 <= b <= 255
    /\ (r = 255 \/ g = 255 \/ b = 255).
Proof.
  intros Hh. unfold HSV_hue.
  assert (Hlo : 0 <= to_uint8 (Z.land h 255) < 256)
    by (unfold to_uint8; apply Z.mod_pos_bound; lia).
  set (lo := to_uint8 (Z.land h 255)) in *.
  assert (Hlo' : 0 <= to_uint8 (255 - lo) < 256)
    by (unfold to_uint8; apply Z.mod_pos_bound; lia).
  rewrite Z.shiftr_div_pow2 by lia. change (2 ^ 8) with 256.
  assert (Hk : h / 256 = 0 \/ h / 256 = 1 \/ h / 256 = 2 \/ h / 256 = 3
               \/ h / 256 = 4 \/ h / 256 = 5).
  { pose proof (Z.div_mod h 256 ltac:(lia)).
    pose proof (Z.mod_pos_bound h 256 ltac:(lia)). lia. }
  cbv zeta.
  destruct Hk as [-> | [-> | [-> | [-> | [-> | ->]]]]];
    eexists _, _, _; (split; [reflexivity|]); lia.
Qed.

Lemma HSV_level sat val x :
  0 <= sat <= 255 -> 0 <= val <= 255 -> 0 <= x <= 255 ->
  let y :=
    to_uint8
      (Z.shiftr
         (to_uint8 (255 - Z.shiftr ((255 - x) * to_uint16 (sat + 1)) 8)
          * to_uint16 (val + 1)) 12) in
  0 <= y <= 255 * (val + 1) / 4096
  /\ 255 * (val + 1) / 4096 <= 15
  /\ (x = 255 -> y = 255 * (val + 1) / 4096)
  /\ (sat = 0 -> y = 255 * (val + 1) / 4096).
Proof.
  intros Hs Hv Hx.
  assert (Es : to_uint16 (sat + 1) = sat + 1)
    by (unfold to_uint16; apply Z.mod_small; lia).
  assert (Ev : to_uint16 (val + 1) = val + 1)
    by (unfold to_uint16; apply Z.mod_small; lia).
  rewrite Es, Ev. rewrite !Z.shiftr_div_pow2 by lia.
  change (2 ^ 8) with 256. change (2 ^ 12) with 4096.
  assert (Hq : 0 <= (255 - x) * (sat + 1) / 256 <= 255).
  { split; [apply Z.div_pos; nia|].
    apply Z.div_le_upper_bound; [lia | nia]. }
  set (q := (255 - x) * (sat + 1) / 256) in *.
  assert (E1 : to_uint8 (255 - q) = 255 - q)
    by (unfold to_uint8; apply Z.mod_small; lia).
  rewrite E1.
  assert (Hm : 0 <= 255 * (val + 1) / 4096 <= 15).
  { split; [apply Z.div_pos; lia|].
    apply Z.lt_succ_r. apply Z.div_lt_upper_bound; lia. }
  assert (Hy : 0 <= (255 - q) * (val + 1) / 4096 <= 255 * (val + 1) / 4096).
  { split; [apply Z.div_pos; nia|]. apply Z.div_le_mono; [lia | nia]. }
  assert (E2 : to_uint8 ((255 - q) * (val + 1) / 4096)
               = (255 - q) * (val + 1) / 4096)
    by (unfold to_uint8; apply Z.mod_small; lia).
  cbv zeta. rewrite E2. split; [exact Hy|]. split; [lia|]. split.
  - intros Ex. subst x q. replace ((255 - 255) * (sat + 1)) with 0 by lia.
    reflexivity.
  - intros E0. subst sat. unfold q. change (0 + 1) with 1.
    rewrite Z.mul_1_r, (Z.div_small (255 - x) 256) by lia.
    rewrite Z.sub_0_r. reflexivity.
Qed.

(** X20. On a panel whose rows are at most 32768 bytes long, [W * (H / 32)
    <= 32768], the range of the [int16_t] column of [drawPixel].  [ColorHSV]
    without gamma correction: the three 4-bit channels it computes are at
    most the value scaled to four bits, [255 * (val + 1) / 4096], and the
    largest of them is that; with no saturation they are all equal, a grey;
    and a pixel drawn with the result on a panel of four planes reads back
    as the three channels. *)
Theorem ColorHSV_value W H db s x y gamma hue sat val :
  built W H 4 db s ->
  W * (H / 32) <= 32768 ->
  0 <= x < W -> 0 <= y < H ->
  0 <= sat <= 255 -> 0 <= val <= 255 ->
  exists r g b,
    HSV_channels gamma hue sat val false = (r, g, b)
    /\ 0 <= r /\ 0 <= g /\ 0 <= b
    /\ Z.max r (Z.max g b) = 255 * (val + 1) / 4096
    /\ (sat = 0 -> r = g /\ g = b)
    /\ exists s', drawPixel x y (ColorHSV gamma hue sat val false) s = Some s'
         /\ readPixel s' (back_buffer s') x y = Some (r, g, b).
Proof.
  intros Hbuilt Hrow Hx Hy Hs Hv.
  pose proof (built_reached _ _ _ _ _ Hbuilt Hrow) as Hr. unfold ColorHSV. rewrite HSV_channels_mod.
  pose proof (Z.mod_pos_bound hue 1536 ltac:(lia)) as Hh.
  set (h := hue mod 1536) in *.
  unfold HSV_channels. cbv zeta.
  rewrite hue_norm, (Z.mod_small h 1536) by exact Hh.
  destruct (HSV_hue_range h Hh) as (r0 & g0 & b0 & -> & Br & Bg & Bb & Hmax).
  cbv beta iota.
  pose proof (HSV_level sat val r0 Hs Hv Br) as Lr.
  pose proof (HSV_level sat val g0 Hs Hv Bg) as Lg.
  pose proof (HSV_level sat val b0 Hs Hv Bb) as Lb.
  cbv zeta in Lr, Lg, Lb.
  set (r := to_uint8 (Z.shiftr (to_uint8 (255 - Z.shiftr ((255 - r0) * to_uint16 (sat + 1)) 8) * to_uint16 (val + 1)) 12)) in *.
  set (g := to_uint8 (Z.shiftr (to_uint8 (255 - Z.shiftr ((255 - g0) * to_uint16 (sat + 1)) 8) * to_uint16 (val + 1)) 12)) in *.
  set (b := to_uint8 (Z.shiftr (to_uint8 (255 - Z.shiftr ((255 - b0) * to_uint16 (sat + 1)) 8) * to_uint16 (val + 1)) 12)) in *.
  destruct Lr as (Lr1 & M & Lr2 & Lr3), Lg as (Lg1 & _ & Lg2 & Lg3),
    Lb as (Lb1 & _ & Lb2 & Lb3).
  exists r, g, b. split; [reflexivity|].
  split; [lia|]. split; [lia|]. split; [lia|].
  split; [destruct Hmax as [E | [E | E]]; lia|].
  split; [intros E0; specialize (Lr3 E0); specialize (Lg3 E0);
          specialize (Lb3 E0); lia|].
  destruct (drawPixel_shows W H 4 db s x y (pack444 r g b) Hr Hx Hy)
    as (s' & Hd & Hp).
  exists s'. split; [exact Hd|].
  destruct (pack444_shows r g b ltac:(lia) ltac:(lia) ltac:(lia)) as (E1 & E2 & E3).
  rewrite Hp, E1, E2, E3. reflexivity.
Qed.

Lemma ColorHSV_value_witness :
  exists r g b,
    HSV_channels (fun v => v) (-100) 200 180 false = (r, g, b)
    /\ 0 <= r /\ 0 <= g /\ 0 <= b
    /\ Z.max r (Z.max g b) = 255 * (180 + 1) / 4096
    /\ (200 = 0 -> r = g /\ g = b)
    /\ exists s',
         drawPixel 7 30 (ColorHSV (fun v => v) (-100) 200 180 false) demo_deep
         = Some s'
         /\ readPixel s' (back_buffer s') 7 30 = Some (r, g, b).
Proof.
  apply (ColorHSV_value 32 32 false demo_deep 7 30 (fun v => v) (-100) 200 180);
    [built_from demo_deep (@nil op) | vm_compute; discriminate
    | lia | lia | lia | lia].
Defined.

(** ** From drawing to the display *)

Lemma read_triple_same s s' base p x y :
  same_shape s s' -> heap s' = heap s ->
  read_triple s' base p x y = read_triple s base p x y.
Proof.
  intros (EW & _ & _ & Ers & Eps & _) Eh.
  unfold read_triple, px_addr, px_offset. rewrite EW, Ers, Eps, Eh. reflexivity.
Qed.

Lemma readPixel_same s s' base x y :
  same_shape s s' -> heap s' = heap s ->
  readPixel s' base x y = readPixel s base x y.
Proof.
  intros Hsh Eh. unfold readPixel.
  pose proof Hsh as (_ & _ & ED & _). rewrite ED.
  rewrite (read_planes_ext _ s s' base base x y 0); [reflexivity|].
  intros q _. apply read_triple_same; assumption.
Qed.

(** X21. On a panel whose rows are at most 32768 bytes long, [W * (H / 32)
    <= 32768], the range of the [int16_t] column of [drawPixel].  Double
    buffering from end to end: a pixel drawn in the back buffer, then
    [swapBuffers], then the timer interrupts up to the end of the frame: the
    pixel is in the front buffer, the one that the interrupts send to the
    panel, with the top [D] bits of its colour. *)
Theorem drawn_pixel_shown_after_swap W H D s x y c :
  built W H D true s ->
  W * (H / 32) <= 32768 ->
  0 <= x < W -> 0 <= y < H ->
  exists s1, drawPixel x y c s = Some s1
    /\ readPixel (after (S (to_frame_end s1)) (swapBuffers s1))
         (front_buffer (after (S (to_frame_end s1)) (swapBuffers s1))) x y
       = Some (top_red D c, top_green D c, top_blue D c).
Proof.
  intros Hbuilt Hrow Hx Hy.
  pose proof (built_reached _ _ _ _ _ Hbuilt Hrow) as Hr.
  destruct (drawPixel_shows W H D true s x y c Hr Hx Hy) as (s1 & Hd & Hp).
  exists s1. split; [exact Hd|].
  assert (Hr1 : reached W H D true s1)
    by (apply (reached_step W H D true s (OpDrawPixel x y c)); auto).
  destruct (reached_inv _ _ _ _ _ Hr1) as (Hok & _ & _ & _ & ED & Edb & Hc).
  destruct Hok as (Hwf & _ & _). pose proof (wf_depth s1 Hwf) as HD.
  assert (Es : swapBuffers s1 = set_cursor true (row s1) (plane s1) s1)
    by (unfold swapBuffers; rewrite Edb; reflexivity).
  set (s2 := swapBuffers s1) in *.
  assert (Hc2 : cursor_ok s2) by (rewrite Es; exact Hc).
  assert (HD2 : depth s2 = depth s1) by (rewrite Es; reflexivity).
  assert (Ht : to_frame_end s2 = to_frame_end s1) by (rewrite Es; reflexivity).
  destruct (ticks_mid_frame (to_frame_end s1) s2 Hc2 ltac:(lia) ltac:(lia))
    as (_ & B & Sw & _).
  destruct (at_frame_end s2 Hc2 ltac:(lia)) as [Er Ep].
  rewrite Ht in Er, Ep.
  pose proof (after_shape (to_frame_end s1) s2) as Hsh.
  pose proof Hsh as (_ & _ & ED2 & _). rewrite <- ED2 in Ep.
  destruct (updateDisplay_frame_end _ Er Ep) as (F' & _).
  rewrite Sw in F'. replace (swap_requested s2) with true in F'
    by (rewrite Es; reflexivity).
  cbn iota in F'. rewrite B in F'.
  rewrite after_snoc, F'.
  replace (back_buffer s2) with (back_buffer s1) by (rewrite Es; reflexivity).
  rewrite <- Hp. apply readPixel_same.
  - apply (same_shape_trans s1 s2); [rewrite Es; repeat split; reflexivity|].
    apply (same_shape_trans s2 (after (to_frame_end s1) s2)); [exact Hsh|].
    apply updateDisplay_shape.
  - rewrite <- after_snoc, after_heap, Es. reflexivity.
Qed.

Lemma drawn_pixel_shown_after_swap_witness :
  exists s1, drawPixel 5 17 43690 demo_state = Some s1
    /\ readPixel (after (S (to_frame_end s1)) (swapBuffers s1))
         (front_buffer (after (S (to_frame_end s1)) (swapBuffers s1))) 5 17
       = Some (top_red 2 43690, top_green 2 43690, top_blue 2 43690).
Proof.
  apply (drawn_pixel_shown_after_swap 32 32 2 demo_state 5 17 43690);
    [demo_built | vm_compute; discriminate | lia | lia].
Defined.


(** X22. On a panel whose rows are at most 32768 bytes long, [W * (H / 32)
    <= 32768], the range of the [int16_t] column of [drawPixel].  With one
    buffer there is nothing to wait for: the front buffer is the back
    buffer, a drawn pixel is in the front buffer at once, and [swapBuffers]
    and the interrupts leave it there. *)
Theorem single_buffer_shows_at_once W H D s x y c n :
  built W H D false s ->
  W * (H / 32) <= 32768 ->
  0 <= x < W -> 0 <= y < H ->
  front_buffer s = back_buffer s
  /\ exists s1, drawPixel x y c s = Some s1
       /\ readPixel s1 (front_buffer s1) x y
          = Some (top_red D c, top_green D c, top_blue D c)
       /\ readPixel (after n (swapBuffers s1))
            (front_buffer (after n (swapBuffers s1))) x y
          = Some (top_red D c, top_green D c, top_blue D c).
Proof.
  intros Hbuilt Hrow Hx Hy.
  pose proof (built_reached _ _ _ _ _ Hbuilt Hrow) as Hr.
  destruct (reached_inv _ _ _ _ _ Hr) as (Hok & _ & _ & _ & _ & Edb & _).
  destruct Hok as (Hwf & _ & _).
  pose proof (wf_buffers s Hwf) as Hb. rewrite Edb in Hb. destruct Hb as [Ef Eb].
  split; [congruence|].
  destruct (drawPixel_shows W H D false s x y c Hr Hx Hy) as (s1 & Hd & Hp).
  exists s1. split; [exact Hd|].
  assert (Hr1 : reached W H D false s1)
    by (apply (reached_step W H D false s (OpDrawPixel x y c)); auto).
  destruct (reached_inv _ _ _ _ _ Hr1) as (Hok1 & _ & _ & _ & _ & Edb1 & _).
  destruct Hok1 as (Hwf1 & _ & _).
  pose proof (wf_buffers s1 Hwf1) as Hb1. rewrite Edb1 in Hb1.
  destruct Hb1 as [Ef1 Eb1].
  split; [rewrite Ef1, <- Eb1; exact Hp|].
  assert (Hr2 : reached W H D false (after n (swapBuffers s1))).
  { apply reached_after. apply (reached_step W H D false s1 OpSwapBuffers); auto. }
  destruct (reached_inv _ _ _ _ _ Hr2) as (Hok2 & _ & _ & _ & _ & Edb2 & _).
  destruct Hok2 as (Hwf2 & _ & _).
  pose proof (wf_buffers _ Hwf2) as Hb2. rewrite Edb2 in Hb2.
  destruct Hb2 as [Ef2 _]. rewrite Ef2, <- Eb1, <- Hp.
  apply readPixel_same.
  - apply (same_shape_trans s1 (swapBuffers s1));
      [apply same_frame_shape, swapBuffers_same_frame | apply after_shape].
  - rewrite after_heap.
    pose proof (swapBuffers_same_frame s1) as (_ & _ & _ & _ & _ & _ & E & _).
    exact E.
Qed.

Lemma single_buffer_shows_at_once_witness :
  front_buffer demo_single = back_buffer demo_single
  /\ exists s1, drawPixel 5 17 43690 demo_single = Some s1
       /\ readPixel s1 (front_buffer s1) 5 17
          = Some (top_red 3 43690, top_green 3 43690, top_blue 3 43690)
       /\ readPixel (after 9 (swapBuffers s1))
            (front_buffer (after 9 (swapBuffers s1))) 5 17
          = Some (top_red 3 43690, top_green 3 43690, top_blue 3 43690).
Proof.
  apply (single_buffer_shows_at_once 32 32 3 demo_single 5 17 43690 9);
    [built_from demo_default demo_ops | vm_compute; discriminate | lia | lia].
Defined.

(** ** Construction *)

(** X23. A fresh panel is black whatever [malloc] left in the block: both
    buffers hold 0 everywhere but in the last byte of each row, which
    holds the two control bits; the block is exactly the one or two
    buffers; no swap is pending and the cursor is on the last row of the
    last plane. *)
Theorem fresh_panel_is_blank e W H D db s :
  fits W H D ->
  construct e W H D db = Some s ->
  blank s (front_buffer s) /\ blank s (back_buffer s)
  /\ block_size (heap s) = (if db then 2 else 1) * (D * (W * (H / 2)))
  /\ swap_requested s = false /\ row s = 15 /\ plane s = D - 1.
Proof.
  intros Hfits Hc. destruct (fits_uint16 W H D Hfits) as (HW16 & HH16 & _).
  pose proof Hfits as (HW & HW32 & HH & HH32 & HD & _).
  destruct (construct_frame_ok e W H D db s HW16 HW32 HH16 HH32 HD Hc)
    as (Hok & Hf & Hb & EW & EH & ED & Edb & Esw & Er & Ep).
  destruct Hok as (Hwf & _ & _).
  split; [exact Hf|]. split; [exact Hb|]. split; [|auto].
  rewrite (wf_block s Hwf), Edb. unfold buffer_size.
  rewrite (wf_plane_size s Hwf), EW, EH, ED. reflexivity.
Qed.

Lemma fresh_panel_is_blank_witness :
  blank demo_tall (front_buffer demo_tall) /\ blank demo_tall (back_buffer demo_tall)
  /\ block_size (heap demo_tall) = (if false then 2 else 1) * (3 * (32 * (64 / 2)))
  /\ swap_requested demo_tall = false /\ row demo_tall = 15
  /\ plane demo_tall = 3 - 1.
Proof.
  apply (fresh_panel_is_blank demo_env 32 64 3 false demo_tall);
    [vm_compute; repeat split; (reflexivity || discriminate)
    | vm_compute; reflexivity].
Defined.

(** X24. The constructor succeeds exactly when [malloc] has the bytes of
    the one or two frame buffers, [D * W * H / 2] each. *)
Theorem construct_needs_memory e W H D db :
  fits W H D ->
  (exists s, construct e W H D db = Some s)
  <-> (if db then 2 else 1) * (D * (W * (H / 2))) <= avail e.
Proof.
  intros Hfits. split; [|apply construct_succeeds; exact Hfits].
  intros [s Hc]. destruct (fits_uint16 W H D Hfits) as (HW16 & HH16 & Hps).
  pose proof Hfits as (HW & HW32 & HH & HH32 & HD & H16).
  pose proof (Z.div_mod W 32 ltac:(lia)) as EW.
  pose proof (Z.div_mod H 32 ltac:(lia)) as EH.
  assert (HWr : to_uint16 (Z.shiftl (Z.shiftr W 5) 5) = W).
  { rewrite Z.shiftr_div_pow2, Z.shiftl_mul_pow2 by lia. change (2 ^ 5) with 32.
    unfold to_uint16. rewrite Z.mod_small; lia. }
  assert (HHr : to_uint16 (Z.shiftl (Z.shiftr H 5) 5) = H).
  { rewrite Z.shiftr_div_pow2, Z.shiftl_mul_pow2 by lia. change (2 ^ 5) with 32.
    unfold to_uint16. rewrite Z.mod_small; lia. }
  unfold construct in Hc. rewrite HWr, HHr in Hc.
  destruct (init_inv _ _ _ Hc) as (blk & Em & _).
  cbn [double_buffer_enabled depth plane_size] in Em.
  rewrite Z.shiftr_div_pow2 in Em by lia. change (2 ^ 1) with 2 in Em.
  unfold malloc in Em.
  match type of Em with (if ?n <=? _ then _ else _) = _ =>
    destruct (Z.leb_spec n (avail e)) as [Hle|]; [|discriminate];
    revert Hle end.
  assert (HP : 0 <= W * (H / 2))
    by (apply Z.mul_nonneg_nonneg; [lia | apply Z.div_pos; lia]).
  set (P := W * (H / 2)) in *.
  assert (HDP : 0 <= D * P <= 2097152) by nia.
  unfold to_uint32. destruct db; rewrite Z.mod_small by lia; lia.
Qed.

Lemma construct_needs_memory_witness :
  (exists s, construct demo_env 32 32 2 true = Some s)
  <-> (if true then 2 else 1) * (2 * (32 * (32 / 2))) <= avail demo_env.
Proof.
  apply (construct_needs_memory demo_env 32 32 2 true).
  vm_compute; repeat split; (reflexivity || discriminate).
Defined.

Lemma round_down v :
  0 <= v < 65536 -> to_uint16 (Z.shiftl (Z.shiftr v 5) 5) = 32 * (v / 32).
Proof.
  intros Hv. rewrite Z.shiftr_div_pow2, Z.shiftl_mul_pow2 by lia.
  change (2 ^ 5) with 32.
  pose proof (Z.div_mod v 32 ltac:(lia)).
  pose proof (Z.mod_pos_bound v 32 ltac:(lia)).
  unfold to_uint16. rewrite Z.mod_small; lia.
Qed.

(** X25. The constructors round the width and the height down to
    multiples of 32: a panel asked for with [W] columns and [H] rows is
    the panel of [32 * (W / 32)] columns and [32 * (H / 32)] rows, and a
    pixel beyond them is not drawn. *)
Theorem construct_rounds_down e W H D db :
  0 <= W < 65536 -> 0 <= H < 65536 ->
  construct e W H D db = construct e (32 * (W / 32)) (32 * (H / 32)) D db
  /\ forall s, construct e W H D db = Some s ->
       width s = 32 * (W / 32) /\ height s = 32 * (H / 32)
       /\ forall x y c, 32 * (W / 32) <= x \/ 32 * (H / 32) <= y ->
            drawPixel x y c s = Some s.
Proof.
  intros HW HH.
  pose proof (Z.div_mod W 32 ltac:(lia)) as EW.
  pose proof (Z.mod_pos_bound W 32 ltac:(lia)) as BW.
  pose proof (Z.div_mod H 32 ltac:(lia)) as EH.
  pose proof (Z.mod_pos_bound H 32 ltac:(lia)) as BH.
  assert (E : construct e W H D db
              = init e (mkPanel (32 * (W / 32)) (32 * (H / 32)) D
                          (32 * (W / 32) * Z.shiftr (32 * (H / 32)) 5)
                          (32 * (W / 32) * Z.shiftr (32 * (H / 32)) 1)
                          db [] 0 0 false (stale_resync e) 0 0
                          (stale_rowComplete e))).
  { unfold construct. rewrite !round_down by lia. reflexivity. }
  split.
  - rewrite E. unfold construct.
    rewrite !round_down by lia.
    rewrite !(Z.mul_comm 32), !Z.div_mul by lia. reflexivity.
  - intros s Hc. rewrite E in Hc.
    destruct (init_inv _ _ _ Hc) as (blk & _ & Hfill).
    cbn [double_buffer_enabled] in Hfill.
    assert (Hs : width s = 32 * (W / 32) /\ height s = 32 * (H / 32)).
    { destruct db.
      - destruct Hfill as (s1 & s2 & F1 & F2 & ->).
        destruct (fillScreen_set_heap _ _ _ F1) as [m1 ->].
        destruct (fillScreen_set_heap _ _ _ F2) as [m2 ->].
        split; reflexivity.
      - destruct Hfill as (s1 & F1 & ->).
        destruct (fillScreen_set_heap _ _ _ F1) as [m1 ->].
        split; reflexivity. }
    destruct Hs as [Ew Eh]. split; [exact Ew|]. split; [exact Eh|].
    intros x y c Hout. apply drawPixel_outside. lia.
Qed.

Lemma construct_rounds_down_witness :
  construct demo_env 40 63 2 true
  = construct demo_env (32 * (40 / 32)) (32 * (63 / 32)) 2 true
  /\ forall s, construct demo_env 40 63 2 true = Some s ->
       width s = 32 * (40 / 32) /\ height s = 32 * (63 / 32)
       /\ forall x y c, 32 * (40 / 32) <= x \/ 32 * (63 / 32) <= y ->
            drawPixel x y c s = Some s.
Proof. apply (construct_rounds_down demo_env 40 63 2 true); lia. Defined.

Lemma fillScreen_no_rows c s :
  row_size s = 0 -> back_buffer s = 0 -> 1 <= depth s -> fillScreen c s = None.
Proof.
  intros Ers Eb HD. unfold fillScreen.
  destruct (for_loop (Z.to_nat (depth s)) 0 _ (heap s)) as [m1|]; [|reflexivity].
  destruct (Z.to_nat (depth s * 16)) as [|n] eqn:En; [lia|].
  cbn [for_loop]. rewrite Ers, Eb. cbn. reflexivity.
Qed.

(** X26. A panel of less than 32 columns or less than 32 rows cannot be
    constructed: rounded down it has no rows, and either [malloc] gives
    nothing or [fillScreen] sets the control bits of the first row in
    front of the block. *)
Theorem construct_too_small e W H D db :
  0 <= W < 65536 -> 0 <= H < 65536 -> W < 32 \/ H < 32 -> 1 <= D ->
  construct e W H D db = None.
Proof.
  intros HW HH Hsmall HD. unfold construct. rewrite !round_down by lia.
  assert (Ers : 32 * (W / 32) * Z.shiftr (32 * (H / 32)) 5 = 0).
  { rewrite Z.shiftr_div_pow2 by lia. change (2 ^ 5) with 32.
    rewrite (Z.mul_comm 32 (H / 32)), Z.div_mul by lia.
    destruct Hsmall; [rewrite (Z.div_small W 32) by lia
                     | rewrite (Z.div_small H 32) by lia]; lia. }
  assert (Eps : 32 * (W / 32) * Z.shiftr (32 * (H / 32)) 1 = 0).
  { rewrite Z.shiftr_div_pow2 by lia.
    destruct Hsmall; [rewrite (Z.div_small W 32) by lia; reflexivity
                     | rewrite (Z.div_small H 32) by lia].
    change (32 * 0 / 2 ^ 1) with 0. lia. }
  rewrite Ers, Eps. unfold init.
  cbn [double_buffer_enabled depth plane_size].
  replace (if db then 2 * D * 0 else D * 0) with 0 by (destruct db; lia).
  change (to_uint32 0) with 0. change (0 + Z.shiftr 0 1) with 0.
  destruct (malloc e 0) as [blk|]; [|reflexivity].
  replace (if db then 0 else 0) with 0 by (destruct db; reflexivity).
  rewrite (fillScreen_no_rows 0 (set_buffers blk 0 0 _)) by (cbn; lia).
  destruct db; reflexivity.
Qed.

Lemma construct_too_small_witness : construct demo_env 31 64 3 true = None.
Proof.
  apply (construct_too_small demo_env 31 64 3 true); [lia | lia | left; lia | lia].
Defined.

(** ** The completion flag *)

Lemma step_rowComplete o s s' :
  step o s = Some s' ->
  rowComplete s'
  = match o with
    | OpRowComplete => 1
    | OpBegin _ => 0
    | _ => rowComplete s
    end.
Proof.
  intros Hs. destruct o; cbn [step] in Hs.
  - destruct (drawPixel_set_heap _ _ _ _ _ Hs) as [m ->]. reflexivity.
  - destruct (fillScreen_set_heap _ _ _ Hs) as [m ->]. reflexivity.
  - injection Hs as <-. unfold swapBuffers.
    destruct (double_buffer_enabled s); reflexivity.
  - injection Hs as <-. reflexivity.
  - injection Hs as <-. rewrite begin_panel. reflexivity.
  - injection Hs as <-. unfold updateDisplay.
    destruct (row s =? 15), (plane s =? depth s - 1), (resync_flag s),
      (swap_requested s); reflexivity.
  - injection Hs as <-. reflexivity.
Qed.

Lemma run_rowComplete os : forall s s',
  run os s = Some s' -> existsb is_begin os = false ->
  rowComplete s' = if existsb is_row_complete os then 1 else rowComplete s.
Proof.
  induction os as [|o os IH]; intros s s' Hr Hb; cbn [run] in Hr.
  - injection Hr as <-. reflexivity.
  - destruct (step o s) as [s1|] eqn:Hs; [|discriminate].
    cbn [existsb] in Hb |- *. apply orb_false_iff in Hb. destruct Hb as [Hb1 Hb2].
    rewrite (IH s1 s' Hr Hb2). pose proof (step_rowComplete o s s1 Hs) as E.
    destruct o; cbn [is_begin is_row_complete orb] in *;
      try discriminate; rewrite E; destruct (existsb is_row_complete os);
      reflexivity.
Qed.

(** X27. [rowComplete] latches: [begin] clears it, the completion callback
    of a transfer sets it, and nothing else stores it -- not the interrupt
    that starts the next transfer.  After [begin] and any operations that
    are not another [begin], it is 1 if a transfer has completed and 0 if
    none has. *)
Theorem rowComplete_latches t s os s' :
  run os (snd (snd (begin t s))) = Some s' ->
  existsb is_begin os = false ->
  rowComplete s' = if existsb is_row_complete os then 1 else 0.
Proof.
  intros Hr Hb. rewrite (run_rowComplete os _ s' Hr Hb), begin_panel.
  reflexivity.
Qed.

Lemma rowComplete_latches_witness :
  rowComplete demo_polled
  = if existsb is_row_complete [OpTick; OpRowComplete; OpTick] then 1 else 0.
Proof.
  apply (rowComplete_latches free_timers demo_deep
           [OpTick; OpRowComplete; OpTick] demo_polled);
    vm_compute; reflexivity.
Defined.
